(** * Slide generator: scripture, hymn and call-to-worship decks

    A shallow embedding of the routers of [railway-api/app/routers]
    ([scripture_slides.py], [hymn_slides.py], [call_to_worship_slides.py])
    and of the helpers of [slides/utils.py], followed by the properties of
    the decks they build.

    Conventions of the embedding:
    - a Python [str] is a [string]; a character is a code point below 256,
      and [str.strip], [str.lower] follow Python on that range; a character
      from U+0100 on, such as the Tongan letters of the book names and of the
      verses, is held as the bytes of its UTF-8 encoding, and [Py.len] counts
      it once;
    - a Python [dict] with a fixed set of keys is a record; a key that may be
      missing is an [option] field, read with the default of the [.get] call;
    - a Python [float] is written as a rational ([Q]), which stands for the
      binary64 number nearest to it; positions and sizes of shapes are kept
      as written, and where the source converts to an integer, the product
      and the truncation are those of binary64 arithmetic
      ([Py.float_of_Q], [Py.int_of_float]);
    - the file system, and the order of the calls that touch it, is the
      [world] threaded through the monad [M];
    - functions of Python's library and of [python-pptx] whose results are
      not fixed by the routers are fields of the record [host]. *)

From Corelib Require PrimFloat FloatOps SpecFloat.
From Stdlib Require Import ZArith QArith Ascii String DecimalString.
From stdpp Require Import base tactics option list gmap strings sorting.

Local Open Scope string_scope.
Local Open Scope list_scope.
Local Open Scope Z_scope.

(** ** Python string methods *)

Module Py.

(** [str.isspace] on one character: the white space of [str.strip()]. *)
Definition is_space (c : ascii) : bool :=
  let n := N_of_ascii c in
  ((9 <=? n) && (n <=? 13) || (28 <=? n) && (n <=? 32)
   || (n =? 133) || (n =? 160))%N.

Fixpoint lstrip (s : string) : string :=
  match s with
  | "" => ""
  | String c s' => if is_space c then lstrip s' else s
  end.

Fixpoint rstrip (s : string) : string :=
  match s with
  | "" => ""
  | String c s' =>
      match rstrip s' with
      | "" => if is_space c then "" else String c ""
      | r => String c r
      end
  end.

Definition strip (s : string) : string := lstrip (rstrip s).

(** [str.lower] on one character. *)
Definition lower_char (c : ascii) : ascii :=
  let n := N_of_ascii c in
  if ((65 <=? n) && (n <=? 90)
      || (192 <=? n) && (n <=? 222) && negb (n =? 215))%N
  then ascii_of_N (n + 32) else c.

Fixpoint lower (s : string) : string :=
  match s with
  | "" => ""
  | String c s' => String (lower_char c) (lower s')
  end.

(** [s.startswith(p)]. *)
Fixpoint startswith (p s : string) : bool :=
  match p, s with
  | "", _ => true
  | String a p', String b s' => Ascii.eqb a b && startswith p' s'
  | String _ _, "" => false
  end.

(** [s[n:]]. *)
Fixpoint drop (n : nat) (s : string) : string :=
  match n, s with
  | O, _ => s
  | S _, "" => ""
  | S k, String _ s' => drop k s'
  end.

(** [s.endswith(p)]. *)
Definition endswith (p s : string) : bool :=
  (String.length p <=? String.length s)%nat
  && String.eqb (drop (String.length s - String.length p) s) p.

(** [p in s]. *)
Fixpoint contains (p s : string) : bool :=
  startswith p s
  || match s with
     | "" => false
     | String _ s' => contains p s'
     end.

(** [s.split(sep)] for a non-empty separator.  [skip] counts the
    characters of a separator found at an earlier position that are still
    to be passed over; the head of the result is the piece being read. *)
Fixpoint split_from (sep : string) (skip : nat) (s : string) : list string :=
  match s with
  | "" => [""]
  | String c s' =>
      match skip with
      | S k => split_from sep k s'
      | O =>
          if startswith sep s
          then "" :: split_from sep (String.length sep - 1) s'
          else match split_from sep 0 s' with
               | piece :: rest => String c piece :: rest
               | [] => [String c ""]
               end
      end
  end.

Definition split (sep s : string) : list string := split_from sep 0 s.

(** [s.partition(sep)] without the separator: the text before and after
    the first occurrence, when there is one. *)
Fixpoint cut (sep s : string) : option (string * string) :=
  if startswith sep s then Some ("", drop (String.length sep) s)
  else match s with
       | "" => None
       | String c s' =>
           match cut sep s' with
           | Some (before, after) => Some (String c before, after)
           | None => None
           end
       end.

(** [s.split(sep, 1)]. *)
Definition split1 (sep s : string) : list string :=
  match cut sep s with
  | Some (before, after) => [before; after]
  | None => [s]
  end.


(** [str(n)] for an [int]. *)
Definition str_of_Z (n : Z) : string := NilZero.string_of_int (Z.to_int n).

Definition str_of_nat (n : nat) : string := str_of_Z (Z.of_nat n).

(** [format(n, '02X')] for a non-negative [int]. *)
Definition hex_digit (d : N) : ascii :=
  match String.get (N.to_nat d) "0123456789ABCDEF" with
  | Some c => c
  | None => "0"%char
  end.

Fixpoint hex_from (fuel : nat) (n : N) (acc : string) : string :=
  match fuel with
  | O => acc
  | S fuel' =>
      let acc' := String (hex_digit (n mod 16)) acc in
      if (n / 16 =? 0)%N then acc' else hex_from fuel' (n / 16) acc'
  end.

Definition format_02X (n : N) : string :=
  let digits := hex_from (S (N.to_nat (N.log2 n))) n "" in
  if (String.length digits <? 2)%nat then "0" +:+ digits else digits.

(** Truth value of a [str] in a condition. *)
Definition truthy (s : string) : bool := negb (String.eqb s "").

(** Truth value of a [str] that may be [None]. *)
Definition given (s : option string) : bool :=
  match s with
  | Some data => truthy data
  | None => false
  end.

(** [table.get(key, default)] for a table of strings. *)
Fixpoint dict_get (table : list (string * string)) (key dflt : string) : string :=
  match table with
  | [] => dflt
  | (k, v) :: rest => if String.eqb k key then v else dict_get rest key dflt
  end.

Definition newline : string := String (ascii_of_N 10) "".
Definition double_quote : string := String (ascii_of_N 34) "".

(** The [float] a rational stands for: numerator and denominator as
    binary64 numbers (exactly, below 2^53), then their quotient, rounded to
    the nearest.  A decimal literal of the source, written as a rational,
    gives the number Python reads. *)
Fixpoint float_of_pos (p : positive) : PrimFloat.float :=
  match p with
  | xH => PrimFloat.one
  | xO p' => PrimFloat.mul PrimFloat.two (float_of_pos p')
  | xI p' => PrimFloat.add (PrimFloat.mul PrimFloat.two (float_of_pos p')) PrimFloat.one
  end.

Definition float_of_Z (z : Z) : PrimFloat.float :=
  match z with
  | Z0 => PrimFloat.zero
  | Zpos p => float_of_pos p
  | Zneg p => PrimFloat.opp (float_of_pos p)
  end.

Definition float_of_Q (q : Q) : PrimFloat.float :=
  PrimFloat.div (float_of_Z (Qnum q)) (float_of_pos (Qden q)).

(** [int(x)] for a [float]: truncation towards zero; [None] when Python
    raises, for an infinity or a NaN. *)
Definition int_of_float (x : PrimFloat.float) : option Z :=
  match FloatOps.Prim2SF x with
  | SpecFloat.S754_zero _ => Some 0
  | SpecFloat.S754_finite negative m e =>
      let magnitude := if 0 <=? e then Z.pos m * 2 ^ e else Z.pos m / 2 ^ (- e) in
      Some (if negative then - magnitude else magnitude)
  | SpecFloat.S754_infinity _ => None
  | SpecFloat.S754_nan => None
  end.

(** [int(x * k)] for a [float] [x] and an [int] [k]. *)
Definition int_of_product (x : Q) (k : Z) : option Z :=
  int_of_float (PrimFloat.mul (float_of_Q x) (float_of_Z k)).

(** [len(s)]: the number of characters.  A character below 256 is one
    character of the model; the bytes of a UTF-8 encoding of a character from
    U+0100 on (a first byte from 196 to 244, followed by one, two or three
    bytes from 128 to 191) are one character. *)
Definition is_continuation (c : ascii) : bool :=
  let n := N_of_ascii c in ((128 <=? n) && (n <=? 191))%N.

Definition following_bytes (c : ascii) : nat :=
  let n := N_of_ascii c in
  if ((196 <=? n) && (n <=? 223))%N then 1
  else if ((224 <=? n) && (n <=? 239))%N then 2
  else if ((240 <=? n) && (n <=? 244))%N then 3
  else 0.

Fixpoint continued (k : nat) (s : string) : bool :=
  match k, s with
  | O, _ => true
  | S k', String c s' => is_continuation c && continued k' s'
  | S _, "" => false
  end.

(** [skip] counts the bytes still to pass of the character being read. *)
Fixpoint len_from (skip : nat) (s : string) : nat :=
  match s with
  | "" => 0
  | String c s' =>
      match skip with
      | S k => len_from k s'
      | O =>
          S (len_from
               (if continued (following_bytes c) s' then following_bytes c else 0)
               s')
      end
  end.

Definition len (s : string) : nat := len_from 0 s.

End Py.

(** ** The document model of [python-pptx], as far as the routers use it *)

Definition rgb : Type := N * N * N.

Inductive align := LEFT | CENTER.
Inductive anchor := TOP | MIDDLE.

#[local] Set Warnings "-register-all".

(** An element built by [parse_xml]: tag in Clark notation, attributes and
    child elements. *)
Inductive xml := Elem (tag : string) (attrs : list (string * string)) (kids : list xml).

Definition xml_tag (x : xml) : string := let 'Elem t _ _ := x in t.
Definition xml_kids (x : xml) : list xml := let 'Elem _ _ k := x in k.

Definition a_ns : string := "{http://schemas.openxmlformats.org/drawingml/2006/main}".
Definition a_tag (local : string) : string := a_ns +:+ local.

Record font := {
  font_name : option string;
  font_size : option Z;          (* Pt(n) *)
  font_bold : option bool;
  font_underline : option bool;
  font_color : option rgb
}.

(** A run: its text, the font set through the object API, and the children
    appended to its [a:rPr] element as raw XML. *)
Record run := {
  run_text : string;
  run_font : font;
  rPr : list xml
}.

Record paragraph := {
  runs : list run;
  para_font : font;
  alignment : option align;
  level : option Z;
  space_after : option Z;        (* Pt(n) *)
  space_before : option Z;
  left_indent : option Q;        (* Inches(x) *)
  first_line_indent : option Q;
  pPr_attrs : list (string * string);
  pPr_kids : list xml
}.

Record text_frame := {
  word_wrap : option bool;
  vertical_anchor : option anchor;
  margin_left : option Q;
  margin_right : option Q;
  paragraphs : list paragraph
}.

(** Positions and sizes are in inches.  A picture is identified by the path
    it was loaded from. *)
Inductive shape :=
| Picture (path : string) (left top width height : Q)
| TextBox (left top width height : Q) (frame : text_frame).

Record slide := {
  background : option rgb;       (* solid fill of [slide.background] *)
  shapes : list shape
}.

Record presentation := {
  slide_width : Q;
  slide_height : Q;
  slides : list slide
}.

(** [Inches(x)] and [Pt(n)]: the model keeps the unit of the source. *)
Definition Inches (x : Q) : Q := x.
Definition Pt (n : Z) : Z := n.

Definition no_font : font :=
  {| font_name := None; font_size := None; font_bold := None;
     font_underline := None; font_color := None |}.

Definition black : rgb := (0, 0, 0)%N.
Definition white : rgb := (255, 255, 255)%N.
Definition yellow : rgb := (255, 255, 0)%N.

(** Bold black Arial Narrow, the font of every heading and body text. *)
Definition heading_font (size : Z) (underlined : option bool) : font :=
  {| font_name := Some "Arial Narrow"; font_size := Some (Pt size);
     font_bold := Some true; font_underline := underlined;
     font_color := Some black |}.

(** [paragraph.add_run()] followed by [run.text = text]. *)
Definition new_run (text : string) : run :=
  {| run_text := text; run_font := no_font; rPr := [] |}.

(** The runs left by [paragraph.text = text], for a text without line feed
    or vertical tab: none for the empty string, otherwise one run carrying
    the text.  (At a line feed or a vertical tab [python-pptx] puts a line
    break and goes on in a new run; [plain] names the texts without
    them.) *)
Definition runs_of_text (text : string) : list run :=
  if Py.truthy text then [new_run text] else [].

Definition empty_paragraph : paragraph :=
  {| runs := []; para_font := no_font; alignment := None; level := None;
     space_after := None; space_before := None; left_indent := None;
     first_line_indent := None; pPr_attrs := []; pPr_kids := [] |}.

Definition with_runs (p : paragraph) (rs : list run) : paragraph :=
  {| runs := rs; para_font := para_font p; alignment := alignment p;
     level := level p; space_after := space_after p;
     space_before := space_before p; left_indent := left_indent p;
     first_line_indent := first_line_indent p; pPr_attrs := pPr_attrs p;
     pPr_kids := pPr_kids p |}.

Definition with_pPr (p : paragraph) (attrs : list (string * string)) (kids : list xml)
  : paragraph :=
  {| runs := runs p; para_font := para_font p; alignment := alignment p;
     level := level p; space_after := space_after p;
     space_before := space_before p; left_indent := left_indent p;
     first_line_indent := first_line_indent p; pPr_attrs := attrs;
     pPr_kids := kids |}.

Definition with_rPr (r : run) (kids : list xml) : run :=
  {| run_text := run_text r; run_font := run_font r; rPr := kids |}.

Definition with_run_font (r : run) (f : font) : run :=
  {| run_text := run_text r; run_font := f; rPr := rPr r |}.

(** A paragraph whose text, font and alignment are set in turn. *)
Definition text_paragraph (text : string) (f : font) (al : align) : paragraph :=
  {| runs := runs_of_text text; para_font := f; alignment := Some al;
     level := None; space_after := None; space_before := None;
     left_indent := None; first_line_indent := None;
     pPr_attrs := []; pPr_kids := [] |}.

Definition add_shape (s : slide) (sh : shape) : slide :=
  {| background := background s; shapes := shapes s ++ [sh] |}.

(** [prs.slides.add_slide(prs.slide_layouts[6])]: a blank slide. *)
Definition blank_slide : slide := {| background := None; shapes := [] |}.

(** The slide object is appended to the deck when it is created and filled
    in place afterwards; nothing reads the deck in between, so the model
    appends the finished slide. *)
Definition add_slide (prs : presentation) (s : slide) : presentation :=
  {| slide_width := slide_width prs; slide_height := slide_height prs;
     slides := slides prs ++ [s] |}.

(** ** The world: files and the calls that touch them *)

Inductive content := Blob (bytes : string) | Deck (prs : presentation).

Inductive event :=
| EvDecode (payload : string)         (* base64.b64decode(payload) *)
| EvTempFile (path : string)          (* a NamedTemporaryFile is created *)
| EvBackground (path : option string) (* set_slide_background(slide, path) *)
| EvUnlink (path : string)            (* os.unlink(path) *)
| EvSave (path : string).             (* prs.save(path) *)

Record world := {
  files : gmap string content;
  trace : list event
}.

Inductive exn :=
| BinasciiError
| IndexError
| KeyError
| ImageError
| HTTPException (status_code : Z) (detail : string).

(** What the routers take from their environment. *)
Record host := {
  (** [base64.b64decode]; [None] when it raises *)
  b64decode : string → option string;
  (** whether [python-pptx] accepts these bytes as a picture *)
  image_ok : string → bool;
  (** [tempfile.gettempdir()] *)
  gettempdir : string;
  (** the random part of the next temporary file name *)
  tmp_rand : gmap string content → string;
  (** the directory four levels above the router modules *)
  root_dir : string;
  (** [str.upper] and [str.title] *)
  str_upper : string → string;
  str_title : string → string;
  (** [str(e)] for an exception *)
  str_exn : exn → string
}.

Inductive result (A : Type) :=
| Ok (a : A)
| Raise (e : exn).
Arguments Ok {A} a.
Arguments Raise {A} e.

(** State and exceptions, as an instance of the monad classes of stdpp. *)
Definition M (A : Type) : Type := world → result A * world.

Global Instance M_ret : MRet M := λ A a w, (Ok a, w).

Global Instance M_bind : MBind M := λ A B k m w,
  match m w with
  | (Ok a, w') => k a w'
  | (Raise e, w') => (Raise e, w')
  end.

Definition raise {A} (e : exn) : M A := λ w, (Raise e, w).

(** [try: body  except Exception: handler]. *)
Definition try_except {A} (body : M A) (handler : exn → M A) : M A :=
  λ w, match body w with
       | (Ok a, w') => (Ok a, w')
       | (Raise e, w') => handler e w'
       end.

Definition log (e : event) : M unit :=
  λ w, (Ok tt, {| files := files w; trace := trace w ++ [e] |}).

Definition read_files : M (gmap string content) := λ w, (Ok (files w), w).

Definition write_file (path : string) (c : content) : M unit :=
  λ w, (Ok tt, {| files := <[path := c]> (files w); trace := trace w |}).

Definition remove_file (path : string) : M unit :=
  λ w, (Ok tt, {| files := delete path (files w); trace := trace w |}).

(** [os.path.exists(path)]. *)
Definition path_exists (path : string) : M bool :=
  fs ← read_files; mret (bool_decide (is_Some (fs !! path))).

(** A loop that threads the objects it mutates. *)
Fixpoint foldM {A S} (body : S → A → M S) (s : S) (l : list A) : M S :=
  match l with
  | [] => mret s
  | x :: l' => s' ← body s x; foldM body s' l'
  end.

(** [enumerate(l)]. *)
Definition enumerate {A} (l : list A) : list (nat * A) :=
  zip (seq 0 (length l)) l.

(** ** What an endpoint returns *)

Inductive response := FileResponse (path filename media_type : string).

Definition pptx_media_type : string :=
  "application/vnd.openxmlformats-officedocument.presentationml.presentation".

(** ** [slides/utils.py]: presentations, backgrounds, temporary files *)

Section Utils.
Context (H : host).

(** [create_presentation(width=Inches(13.33), height=Inches(7.5))]. *)
Definition create_presentation (width height : Q) : presentation :=
  {| slide_width := width; slide_height := height; slides := [] |}.

Definition save_presentation (prs : presentation) (output_file : string) : M string :=
  log (EvSave output_file);;
  write_file output_file (Deck prs);;
  mret output_file.

(** [tempfile.NamedTemporaryFile(suffix=..., prefix=..., delete=False)]:
    a new empty file in the temporary directory. *)
Definition NamedTemporaryFile (prefix suffix : string) : M string :=
  fs ← read_files;
  let name := gettempdir H +:+ "/" +:+ prefix +:+ tmp_rand H fs +:+ suffix in
  log (EvTempFile name);;
  write_file name (Blob "");;
  mret name.

(** [create_temp_file(suffix, prefix='tmp_')] of [core/files.py]. *)
Definition create_temp_file (suffix : string) : M string :=
  NamedTemporaryFile "tmp_" suffix.

Definition process_background_image (background_image_data : option string)
  : M (option string) :=
  match background_image_data with
  | None => mret None
  | Some data =>
      if negb (Py.truthy data) then mret None
      else
        try_except
          (payload ←
             (if Py.contains "," data
              then match Py.split "," data !! 1%nat with
                   | Some piece => mret piece
                   | None => raise IndexError
                   end
              else mret data);
           log (EvDecode payload);;
           image_data ←
             match b64decode H payload with
             | Some bytes => mret bytes
             | None => raise BinasciiError
             end;
           name ← NamedTemporaryFile "tmp" ".png";
           write_file name (Blob image_data);;
           mret (Some name))
          (λ _, mret None)
  end.

(** [slide.shapes.add_picture(path, left, top, width, height)]. *)
Definition add_picture (s : slide) (path : string) (left top width height : Q)
  : M slide :=
  fs ← read_files;
  match fs !! path with
  | Some (Blob bytes) =>
      if image_ok H bytes
      then mret (add_shape s (Picture path left top width height))
      else raise ImageError
  | _ => raise ImageError
  end.

(** [prs] stands for [slide.part.package.presentation_part.presentation]. *)
Definition set_slide_background (prs : presentation) (s : slide)
    (background_image_path : option string) : M (slide * bool) :=
  log (EvBackground background_image_path);;
  usable ←
    match background_image_path with
    | Some path => if Py.truthy path then path_exists path else mret false
    | None => mret false
    end;
  added ←
    (if usable : bool
     then try_except
            (s' ← add_picture s (default "" background_image_path) 0 0
                    (slide_width prs) (slide_height prs);
             mret (Some s'))
            (λ _, mret None)
     else mret None);
  match added with
  | Some s' => mret (s', true)
  | None => mret ({| background := Some white; shapes := shapes s |}, false)
  end.

Definition cleanup_temp_file (file_path : option string) : M unit :=
  match file_path with
  | Some path =>
      if Py.truthy path
      then found ← path_exists path;
           if found && (Py.contains "tmp" path || Py.startswith (gettempdir H) path)
           then log (EvUnlink path);; remove_file path
           else mret tt
      else mret tt
  | None => mret tt
  end.

(** The block repeated in every slide builder: the decorative picture in
    the top right corner, added when its file exists.  The shipped picture
    is taken to load. *)
Definition placeholder_path (file : string) : string :=
  root_dir H +:+ "/public/images/placeholders/" +:+ file.

Definition add_placeholder_image (s : slide) (file : string) : M slide :=
  found ← path_exists (placeholder_path file);
  if found : bool
  then mret (add_shape s (Picture (placeholder_path file) 9.33 0.25 3.72 2))
  else mret s.

End Utils.

(** ** [slides/utils.py]: text effects *)

Definition srgb_val (c : rgb) : string :=
  let '(r, g, b) := c in Py.format_02X r +:+ Py.format_02X g +:+ Py.format_02X b.

(** [<a:srgbClr val="RRGGBB"><a:alpha val="100000"/></a:srgbClr>] *)
Definition srgbClr_alpha (c : rgb) : xml :=
  Elem (a_tag "srgbClr") [("val", srgb_val c)]
    [Elem (a_tag "alpha") [("val", "100000")] []].

Definition srgbClr (c : rgb) : xml := Elem (a_tag "srgbClr") [("val", srgb_val c)] [].

Definition schemeClr (scheme : string) : xml :=
  Elem (a_tag "schemeClr") [("val", scheme)] [].

Definition effectLst (parts : list xml) : xml := Elem (a_tag "effectLst") [] parts.

Definition glow (rad : Z) (colour : xml) : xml :=
  Elem (a_tag "glow") [("rad", Py.str_of_Z rad)] [colour].

Definition highlight (c : rgb) : xml := Elem (a_tag "highlight") [] [srgbClr c].

Definition solidFill (c : rgb) : xml := Elem (a_tag "solidFill") [] [srgbClr c].

(** [max(1, int(pt * 12700))] and [max(0, int(pt * 12700))], the product
    taken in binary64.  Where the product is beyond the range of binary64 and
    Python raises, the model gives the least value. *)
Definition emu_at_least_1 (pt : Q) : Z :=
  Z.max 1 (default 0 (Py.int_of_product pt 12700)).
Definition emu_at_least_0 (pt : Q) : Z :=
  Z.max 0 (default 0 (Py.int_of_product pt 12700)).

(** The bytes of U+FFFE, of U+FFFF or of a surrogate at the head of [s]:
    the XML library refuses a text that holds one of them. *)
Definition refused_at (s : string) : bool :=
  match s with
  | String a (String b (String c _)) =>
      let x := N_of_ascii a in
      let y := N_of_ascii b in
      let z := N_of_ascii c in
      ((x =? 239) && (y =? 191) && ((z =? 190) || (z =? 191))
       || (x =? 237) && (160 <=? y) && (y <=? 191))%N
  | _ => false
  end.

(** Whether [parse_xml] reads [s], written between double quotes, as the
    value of an attribute, and as [s] itself: it holds no control character,
    no double quote, no [&], no [<] and nothing the library refuses.  A
    double quote, a [<] or a [&] on its own makes [parse_xml] raise, and the
    model takes every text that fails the test to do so: a text that holds a
    character reference, or markup of its own, is not followed further. *)
Definition attribute_char (c : ascii) : bool :=
  let n := N_of_ascii c in
  ((32 <=? n) && negb (n =? 34) && negb (n =? 38) && negb (n =? 60))%N.

Fixpoint attribute_text (s : string) : bool :=
  match s with
  | "" => true
  | String c s' => attribute_char c && negb (refused_at s) && attribute_text s'
  end.

Definition append_rPr (r : run) (node : xml) : run := with_rPr r (rPr r ++ [node]).

Definition add_text_glow (p : paragraph) (glow_radius : Z) (color_rgb : rgb) : paragraph :=
  with_runs p
    (map (λ r, append_rPr r (effectLst [glow (glow_radius * 12700) (srgbClr_alpha color_rgb)]))
       (runs p)).

(** [pPr.set(key, value)] *)
Fixpoint set_attr (key value : string) (attrs : list (string * string))
  : list (string * string) :=
  match attrs with
  | [] => [(key, value)]
  | (k, v) :: rest =>
      if String.eqb k key then (key, value) :: rest
      else (k, v) :: set_attr key value rest
  end.

(** [left_emu = int(Inches(left_inches))] is [int(left_inches * 914400)],
    the product taken in binary64; an exception is passed over.  (An
    [a:pPr] without attributes and children is not told apart from none.) *)
Definition set_hanging_indent (p : paragraph) (left_inches : Q) : paragraph :=
  match Py.int_of_product left_inches 914400 with
  | Some left_emu =>
      with_pPr p
        (set_attr "indent" (Py.str_of_Z (- left_emu))
           (set_attr "marL" (Py.str_of_Z left_emu) (pPr_attrs p)))
        (pPr_kids p)
  | None => p
  end.

(** The first child that satisfies [test] is replaced by its image. *)
Fixpoint update_first (test : xml → bool) (f : xml → xml) (l : list xml) : list xml :=
  match l with
  | [] => []
  | x :: rest => if test x then f x :: rest else x :: update_first test f rest
  end.

(** The element for the end of the paragraph is found, or appended, first;
    an exception raised after that (by [int], or by [parse_xml] for the glow)
    ends the call with nothing added to the element, and is passed over. *)
Definition add_end_paragraph_glow_and_highlight (p : paragraph) (scheme : string)
    (glow_radius_pt : Q) (highlight_rgb : option rgb) : paragraph :=
  let is_end := λ child, Py.endswith "endParaRPr" (xml_tag child) in
  let added :=
    match Py.int_of_product glow_radius_pt 12700 with
    | Some emu =>
        if attribute_text scheme
        then effectLst [glow (Z.max 1 emu) (schemeClr scheme)]
             :: match highlight_rgb with
                | Some c => [highlight c]
                | None => []
                end
        else []
    | None => []
    end in
  let extend := λ child,
    let 'Elem t a k := child in Elem t a (k ++ added) in
  with_pPr p (pPr_attrs p)
    (if existsb is_end (pPr_kids p)
     then update_first is_end extend (pPr_kids p)
     else pPr_kids p ++ [extend (Elem (a_tag "endParaRPr") [] [])]).

Definition add_run_glow (r : run) (color_rgb : rgb) (scheme : option string)
    (glow_radius_pt : Q) : run :=
  let rad := emu_at_least_1 glow_radius_pt in
  match scheme with
  | Some name =>
      if Py.truthy name
      then append_rPr r (effectLst [glow rad (schemeClr name)])
      else append_rPr r (effectLst [glow rad (srgbClr_alpha color_rgb)])
  | None => append_rPr r (effectLst [glow rad (srgbClr_alpha color_rgb)])
  end.

Definition add_run_highlight (r : run) (color_rgb : rgb) : run :=
  append_rPr r (highlight color_rgb).

Definition add_run_outline (r : run) (color_rgb : rgb) (width_pt : Q) : run :=
  append_rPr r
    (Elem (a_tag "ln") [("w", Py.str_of_Z (emu_at_least_1 width_pt))]
       [solidFill color_rgb]).

Definition add_run_fill (r : run) (color_rgb : rgb) : run :=
  append_rPr r (solidFill color_rgb).

Definition outerShdw (color_rgb : rgb) (blur_radius_pt distance_pt : Q)
    (direction_degrees : Z) : xml :=
  Elem (a_tag "outerShdw")
    [("blurRad", Py.str_of_Z (emu_at_least_1 blur_radius_pt));
     ("dist", Py.str_of_Z (emu_at_least_0 distance_pt));
     ("dir", Py.str_of_Z (direction_degrees * 60000));
     ("algn", "ctr"); ("rotWithShape", "0")]
    [srgbClr_alpha color_rgb].

Definition innerShdw (color_rgb : rgb) (blur_radius_pt distance_pt : Q)
    (direction_degrees : Z) : xml :=
  Elem (a_tag "innerShdw")
    [("blurRad", Py.str_of_Z (emu_at_least_1 blur_radius_pt));
     ("dist", Py.str_of_Z (emu_at_least_0 distance_pt));
     ("dir", Py.str_of_Z (direction_degrees * 60000))]
    [srgbClr_alpha color_rgb].

Definition add_run_outer_shadow (r : run) (color_rgb : rgb)
    (blur_radius_pt distance_pt : Q) (direction_degrees : Z) : run :=
  append_rPr r (effectLst [outerShdw color_rgb blur_radius_pt distance_pt direction_degrees]).

(** The keyword arguments of [set_run_effects]. *)
Record effects := {
  glow_rgb : option rgb;
  glow_radius_pt : Q;
  inner_shadow_rgb : option rgb;
  inner_blur_radius_pt : Q;
  inner_distance_pt : Q;
  outer_shadow_rgb : option rgb;
  blur_radius_pt : Q;
  distance_pt : Q;
  direction_degrees : Z
}.

(** The defaults of the signature. *)
Definition default_effects : effects :=
  {| glow_rgb := None; glow_radius_pt := 10;
     inner_shadow_rgb := None; inner_blur_radius_pt := 1.5; inner_distance_pt := 0;
     outer_shadow_rgb := None; blur_radius_pt := 1.5; distance_pt := 0.25;
     direction_degrees := 0 |}.

Definition is_effectLst (child : xml) : bool := Py.endswith "effectLst" (xml_tag child).
Definition is_highlight (child : xml) : bool := Py.endswith "highlight" (xml_tag child).

(** The children left after [rPr.remove(node)] for every node that
    satisfies [test]. *)
Definition remove_all (test : xml → bool) (kids : list xml) : list xml :=
  filter (λ child, test child = false) kids.

Definition effect_parts (e : effects) : list xml :=
  match glow_rgb e with
  | Some c => [glow (emu_at_least_1 (glow_radius_pt e)) (srgbClr_alpha c)]
  | None => []
  end
  ++ match inner_shadow_rgb e with
     | Some c => [innerShdw c (inner_blur_radius_pt e) (inner_distance_pt e)
                    (direction_degrees e)]
     | None => []
     end
  ++ match outer_shadow_rgb e with
     | Some c => [outerShdw c (blur_radius_pt e) (distance_pt e) (direction_degrees e)]
     | None => []
     end.

Definition set_run_effects (r : run) (e : effects) : run :=
  let kept := remove_all is_effectLst (rPr r) in
  match effect_parts e with
  | [] => with_rPr r kept
  | parts => with_rPr r (kept ++ [effectLst parts])
  end.

Definition set_run_highlight (r : run) (color_rgb : rgb) : run :=
  with_rPr r (remove_all is_highlight (rPr r) ++ [highlight color_rgb]).

(** ** [scripture_slides.py] *)

Module Scripture.

(** The two tables of [_get_book_name]; names with letters outside the
    range of the model are kept as the bytes of the source file. *)
Definition tongan_book_names : list (string * string) :=
  [("GEN", "Kenesi"); ("EXO", "ʻEkisotosi"); ("LEV", "Levitiko"); ("NUM", "Nemipia");
   ("DEU", "Teutelonomi"); ("JOS", "Siosiua"); ("JDG", "Fakamaau"); ("RUT", "Lute");
   ("1SA", "1 Samueli"); ("2SA", "2 Samueli"); ("1KI", "1 Tuʻi"); ("2KI", "2 Tuʻi");
   ("1CH", "1 Kalonikali"); ("2CH", "2 Kalonikali"); ("EZR", "ʻEsila");
   ("NEH", "Nehimaia"); ("EST", "ʻEseta"); ("JOB", "Siope"); ("PSA", "Saame");
   ("PRO", "Lea Fakatatauki"); ("ECC", "ʻEkilisiasitesi"); ("SNG", "Hiva ʻa Solomone");
   ("ISA", "ʻAisea"); ("JER", "Selemaia"); ("LAM", "Tangilāulau"); ("EZK", "ʻIsikieli");
   ("DAN", "Taniela"); ("HOS", "Hosea"); ("JOL", "Soeli"); ("AMO", "ʻAmosi");
   ("OBA", "ʻOpataia"); ("JON", "Siona"); ("MIC", "Maika"); ("NAM", "Nahumi");
   ("HAB", "Hapakuki"); ("ZEP", "Sefanaia"); ("HAG", "Hakai"); ("ZEC", "Sekalaia");
   ("MAL", "Malaki"); ("MAT", "Matiu"); ("MRK", "Maʻake"); ("LUK", "Luke");
   ("JHN", "Sione"); ("ACT", "Ngaue"); ("ROM", "Loma"); ("1CO", "1 Kolinito");
   ("2CO", "2 Kolinito"); ("GAL", "Kalātia"); ("EPH", "ʻEfeso"); ("PHP", "Filipai");
   ("COL", "Kolosi"); ("1TH", "1 Tesalonaika"); ("2TH", "2 Tesalonaika");
   ("1TI", "1 Timote"); ("2TI", "2 Timote"); ("TIT", "Taitosi"); ("PHM", "Filimona");
   ("HEB", "Hepelū"); ("JAS", "Semisi"); ("1PE", "1 Pita"); ("2PE", "2 Pita");
   ("1JN", "1 Sione"); ("2JN", "2 Sione"); ("3JN", "3 Sione"); ("JUD", "Siuta");
   ("REV", "Fakahā")].

Definition book_names : list (string * string) :=
  [("GEN", "Genesis"); ("EXO", "Exodus"); ("LEV", "Leviticus"); ("NUM", "Numbers");
   ("DEU", "Deuteronomy"); ("JOS", "Joshua"); ("JDG", "Judges"); ("RUT", "Ruth");
   ("1SA", "1 Samuel"); ("2SA", "2 Samuel"); ("1KI", "1 Kings"); ("2KI", "2 Kings");
   ("1CH", "1 Chronicles"); ("2CH", "2 Chronicles"); ("EZR", "Ezra"); ("NEH", "Nehemiah");
   ("EST", "Esther"); ("JOB", "Job"); ("PSA", "Psalms"); ("PRO", "Proverbs");
   ("ECC", "Ecclesiastes"); ("SNG", "Song of Songs"); ("ISA", "Isaiah");
   ("JER", "Jeremiah"); ("LAM", "Lamentations"); ("EZK", "Ezekiel"); ("DAN", "Daniel");
   ("HOS", "Hosea"); ("JOL", "Joel"); ("AMO", "Amos"); ("OBA", "Obadiah");
   ("JON", "Jonah"); ("MIC", "Micah"); ("NAM", "Nahum"); ("HAB", "Habakkuk");
   ("ZEP", "Zephaniah"); ("HAG", "Haggai"); ("ZEC", "Zechariah"); ("MAL", "Malachi");
   ("MAT", "Matthew"); ("MRK", "Mark"); ("LUK", "Luke"); ("JHN", "John"); ("ACT", "Acts");
   ("ROM", "Romans"); ("1CO", "1 Corinthians"); ("2CO", "2 Corinthians");
   ("GAL", "Galatians"); ("EPH", "Ephesians"); ("PHP", "Philippians");
   ("COL", "Colossians"); ("1TH", "1 Thessalonians"); ("2TH", "2 Thessalonians");
   ("1TI", "1 Timothy"); ("2TI", "2 Timothy"); ("TIT", "Titus"); ("PHM", "Philemon");
   ("HEB", "Hebrews"); ("JAS", "James"); ("1PE", "1 Peter"); ("2PE", "2 Peter");
   ("1JN", "1 John"); ("2JN", "2 John"); ("3JN", "3 John"); ("JUD", "Jude");
   ("REV", "Revelation")].

Definition _get_book_name (book_code : string) (is_tongan : bool) : string :=
  if is_tongan then Py.dict_get tongan_book_names book_code book_code
  else Py.dict_get book_names book_code book_code.

Record reference := { book : string; chapter : Z }.

(** One element of [verses]: the values under the keys ['verse'] and
    ['text'], [None] for a missing key. *)
Record verse_entry := { verse : option Z; text : option string }.

(** The values of [verse_map]. *)
Record texts := { nrsvue : string; tmb : string }.

(** [f"{verse_num}"] *)
Definition str_of_verse (verse_num : option Z) : string :=
  match verse_num with
  | Some n => Py.str_of_Z n
  | None => "None"
  end.

(** The font size of the verse text, by its length [len(text)]. *)
Definition content_font_size (text : string) : Z :=
  if (300 <? Py.len text)%nat then 36
  else if (200 <? Py.len text)%nat then 44
  else if (100 <? Py.len text)%nat then 52
  else 58.

Definition _add_verse_content (s : slide) (book : string) (chapter : Z)
    (verse_num : option Z) (text : string) (translation_label : option string)
  : slide :=
  let is_tongan := bool_decide (translation_label = Some "TMB") in
  let book_name := _get_book_name book is_tongan in
  let title_para :=
    add_text_glow
      (text_paragraph
         (book_name +:+ " " +:+ Py.str_of_Z chapter +:+ ":" +:+ str_of_verse verse_num)
         (heading_font 44 (Some true)) LEFT)
      6 white in
  let translation_paras :=
    match translation_label with
    | Some label =>
        if Py.truthy label
        then [add_text_glow (text_paragraph label (heading_font 36 None) LEFT) 6 white]
        else []
    | None => []
    end in
  let title_box :=
    TextBox 0.26 0.21 8.91 1.2
      {| word_wrap := Some true; vertical_anchor := None;
         margin_left := Some (Inches 0.5); margin_right := Some (Inches 0.5);
         paragraphs := title_para :: translation_paras |} in
  let p :=
    add_text_glow
      (text_paragraph text
         {| font_name := Some "Arial Narrow";
            font_size := Some (content_font_size text);
            font_bold := Some true; font_underline := None;
            font_color := Some black |}
         CENTER)
      6 white in
  let content_box :=
    TextBox 0 1.7 13.33 5.0
      {| word_wrap := Some true; vertical_anchor := Some MIDDLE;
         margin_left := Some (Inches 0.5); margin_right := Some (Inches 0.5);
         paragraphs := [p] |} in
  add_shape (add_shape s title_box) content_box.

Section Pipeline.
Context (H : host).

(** The block of [create_scripture_slides] that adds one slide; the source
    repeats it for the primary translation, the alternate translation and
    the single-translation mode. *)
Definition verse_slide (prs : presentation) (ref : reference)
    (background_image_path : option string) (verse_num : option Z)
    (text : string) (translation_label : option string) : M presentation :=
  '(s, _) ← set_slide_background H prs blank_slide background_image_path;
  s ← add_placeholder_image H s "scripture-placeholder.jpg";
  mret (add_slide prs
          (_add_verse_content s (book ref) (chapter ref) verse_num text
             translation_label)).

(** [if verse_num:] *)
Definition usable_verse (v : verse_entry) : option Z :=
  match verse v with
  | Some n => if bool_decide (n = 0) then None else Some n
  | None => None
  end.

Definition stripped_text (v : verse_entry) : string :=
  Py.strip (default "" (text v)).

(** The first loop over [verses]. *)
Definition primary_map (verses : list verse_entry) : gmap Z texts :=
  foldl (λ verse_map v,
           match usable_verse v with
           | Some verse_num =>
               <[verse_num := {| nrsvue := stripped_text v; tmb := "" |}]> verse_map
           | None => verse_map
           end)
    ∅ verses.

(** The loop over [verses_alt]. *)
Definition alternate_map (verse_map : gmap Z texts) (verses_alt : list verse_entry)
  : gmap Z texts :=
  foldl (λ verse_map v,
           match usable_verse v with
           | Some verse_num =>
               match verse_map !! verse_num with
               | Some t =>
                   <[verse_num := {| nrsvue := nrsvue t; tmb := stripped_text v |}]>
                     verse_map
               | None => verse_map
               end
           | None => verse_map
           end)
    verse_map verses_alt.

(** [sorted(verse_map.keys())] *)
Definition sorted_keys (verse_map : gmap Z texts) : list Z :=
  merge_sort Z.le (map_to_list verse_map).*1.

Definition combined_step (ref : reference) (background_image_path : option string)
    (verse_map : gmap Z texts) (st : presentation * nat) (verse_num : Z)
  : M (presentation * nat) :=
  let '(prs, slide_count) := st in
  t ← match verse_map !! verse_num with
      | Some t => mret t
      | None => raise KeyError
      end;
  '(prs, slide_count) ←
    (if Py.truthy (nrsvue t)
     then prs' ← verse_slide prs ref background_image_path (Some verse_num)
                   (nrsvue t) (Some "NRSVUE");
          mret (prs', S slide_count)
     else mret (prs, slide_count));
  if Py.truthy (tmb t)
  then prs' ← verse_slide prs ref background_image_path (Some verse_num)
                (tmb t) (Some "TMB");
       mret (prs', S slide_count)
  else mret (prs, slide_count).

Definition single_step (ref : reference) (background_image_path : option string)
    (st : presentation * nat) (v : verse_entry) : M (presentation * nat) :=
  let '(prs, slide_count) := st in
  let verse_num := verse v in
  let text := stripped_text v in
  if negb (Py.truthy text) then mret (prs, slide_count)
  else prs' ← verse_slide prs ref background_image_path verse_num text None;
       mret (prs', S slide_count).

Definition create_scripture_slides (ref : reference) (verses : list verse_entry)
    (output_file : string) (background_image : option string)
    (verses_alt : option (list verse_entry)) : M string :=
  let prs := create_presentation 13.33 7.5 in
  background_image_path ←
    (if Py.given background_image then process_background_image H background_image
     else mret None);
  '(prs, slide_count) ←
    match verses_alt with
    | Some (v :: alt) =>
        let verse_map := alternate_map (primary_map verses) (v :: alt) in
        foldM (combined_step ref background_image_path verse_map) (prs, 0%nat)
          (sorted_keys verse_map)
    | _ => foldM (single_step ref background_image_path) (prs, 0%nat) verses
    end;
  (if Py.given background_image then cleanup_temp_file H background_image_path
   else mret tt);;
  save_presentation prs output_file;;
  mret ("Created " +:+ Py.str_of_nat slide_count +:+ " scripture slides").

End Pipeline.

End Scripture.

(** ** [hymn_slides.py] *)

Module Hymn.

(** One element of [lyrics]: the values under ['page_name'] and ['text']. *)
Record lyric := { page_name : option string; text : option string }.

Record hymn_data := {
  title : string;
  hymn_number : string;
  hymnal : string;
  author : string;
  composer : string;
  tune_name : string;
  text_copyright : string;
  tune_copyright : string;
  lyrics : list lyric
}.

Definition hymnal_names : list (string * string) :=
  [("umh", "UMH"); ("fws", "FWS"); ("thb", "THB")].

Section Pipeline.
Context (H : host).

Definition format_hymn_number (hymnal hymn_number : string) : string :=
  Py.dict_get hymnal_names (Py.lower hymnal) (str_upper H hymnal)
  +:+ " " +:+ hymn_number.

(** [d.get(key) and d[key].strip()] as a condition. *)
Definition filled (value : string) : bool :=
  Py.truthy value && Py.truthy (Py.strip value).

Definition format_copyright_info (d : hymn_data) : list string :=
  let copyright_parts :=
    (if filled (text_copyright d) then ["Text: " +:+ text_copyright d] else [])
    ++ (if filled (tune_copyright d) then ["Music: " +:+ tune_copyright d] else []) in
  match copyright_parts with
  | [] =>
      if Py.truthy (author d) || Py.truthy (composer d)
      then
        let all_text := author d +:+ " " +:+ composer d in
        if existsb (λ year, Py.contains (Py.str_of_nat year) all_text) (seq 1800 123)
        then ["Public Domain"]
        else []
      else []
  | _ => copyright_parts
  end.

(** The paragraphs of a text frame that was cleared and then filled line
    by line: the first line reuses the paragraph left by [clear()]. *)
Definition frame_paragraphs (ps : list paragraph) : list paragraph :=
  match ps with
  | [] => [empty_paragraph]
  | _ => ps
  end.

Definition styled_run (text : string) (size : Z) : run :=
  with_run_font (new_run text)
    {| font_name := Some "Arial Narrow"; font_size := Some (Pt size);
       font_bold := Some true; font_underline := None;
       font_color := Some black |}.

Definition centered_run_paragraph (text : string) (size glow_radius : Z) : paragraph :=
  add_text_glow
    {| runs := [styled_run text size]; para_font := no_font;
       alignment := Some CENTER; level := None; space_after := None;
       space_before := None; left_indent := None; first_line_indent := None;
       pPr_attrs := []; pPr_kids := [] |}
    glow_radius white.

Definition cover_slide (prs : presentation) (d : hymn_data) (s : slide) : slide :=
  let title_box :=
    TextBox 0 1.88 (slide_width prs) 3.33
      {| word_wrap := Some true; vertical_anchor := Some MIDDLE;
         margin_left := Some (Inches 0.5); margin_right := Some (Inches 0.5);
         paragraphs :=
           [centered_run_paragraph (Py.double_quote +:+ title d +:+ Py.double_quote) 66 6] |} in
  let info_lines :=
    [format_hymn_number (hymnal d) (hymn_number d)]
    ++ (if filled (author d) then ["Words: " +:+ author d] else [])
    ++ (if filled (composer d) then ["Music: " +:+ composer d] else [])
    ++ (if filled (tune_name d) then ["Tune: " +:+ tune_name d] else [])
    ++ format_copyright_info d in
  let info_box :=
    TextBox 0 5.17 (slide_width prs) 2.33
      {| word_wrap := Some true; vertical_anchor := Some MIDDLE;
         margin_left := Some (Inches 0.5); margin_right := Some (Inches 0.5);
         paragraphs :=
           frame_paragraphs (map (λ line, centered_run_paragraph line 24 4) info_lines) |} in
  add_shape (add_shape s title_box) info_box.

Definition add_hymn_cover_slide (prs : presentation) (d : hymn_data)
    (background_image_path : option string) : M presentation :=
  '(s, _) ← set_slide_background H prs blank_slide background_image_path;
  mret (add_slide prs (cover_slide prs d s)).

Definition lyric_slide (d : hymn_data) (slide_text page_name : string) (s : slide) : slide :=
  let title_para :=
    add_text_glow
      (text_paragraph (str_title H (title d)) (heading_font 50 (Some true)) LEFT)
      6 white in
  let verse_paras :=
    if Py.truthy page_name
    then [add_text_glow
            (text_paragraph page_name (heading_font 40 None) LEFT) 6 white]
    else [] in
  let title_box :=
    TextBox 0.26 0.21 8.91 2.04
      {| word_wrap := Some true; vertical_anchor := None;
         margin_left := Some (Inches 0.5); margin_right := Some (Inches 0.5);
         paragraphs := title_para :: verse_paras |} in
  let lines := Py.split Py.newline slide_text in
  let content_box :=
    TextBox 0 2.4 13.33 4.5
      {| word_wrap := Some true; vertical_anchor := Some TOP;
         margin_left := Some (Inches 0.5); margin_right := Some (Inches 0.5);
         paragraphs :=
           frame_paragraphs
             (map (λ line,
                     add_text_glow
                       (text_paragraph line (heading_font 60 None) CENTER)
                       6 white)
                lines) |} in
  add_shape (add_shape s title_box) content_box.

(** [verse_num], [slide_in_verse] and [total_in_verse] are accepted and not
    used, as in the source. *)
Definition add_hymn_slide (prs : presentation) (d : hymn_data)
    (slide_text page_name : string) (verse_num slide_in_verse total_in_verse : nat)
    (background_image_path : option string) : M presentation :=
  '(s, _) ← set_slide_background H prs blank_slide background_image_path;
  s ← add_placeholder_image H s "hymn-placeholder.jpg";
  mret (add_slide prs (lyric_slide d slide_text page_name s)).

Definition fragment_step (d : hymn_data) (page_name : string) (verse_idx total : nat)
    (background_image_path : option string) (st : presentation * nat)
    (item : nat * string) : M (presentation * nat) :=
  let '(prs, slide_count) := st in
  let '(slide_idx, slide_text) := item in
  let slide_text := Py.strip slide_text in
  if negb (Py.truthy slide_text) then mret (prs, slide_count)
  else prs' ← add_hymn_slide prs d slide_text page_name (verse_idx + 1)
                (slide_idx + 1) total background_image_path;
       mret (prs', S slide_count).

Definition section_step (d : hymn_data) (background_image_path : option string)
    (st : presentation * nat) (item : nat * lyric) : M (presentation * nat) :=
  let '(verse_idx, verse_data) := item in
  let page := default "" (page_name verse_data) in
  let verse_text := default "" (text verse_data) in
  let fragments := Py.split "<br>" verse_text in
  foldM (fragment_step d page verse_idx (length fragments) background_image_path)
    st (enumerate fragments).

Definition create_hymn_slides (d : hymn_data) (output_file : string)
    (background_image : option string) (include_cover : bool) : M string :=
  let prs := create_presentation 13.33 7.5 in
  background_image_path ←
    (if Py.given background_image
     then process_background_image H background_image
     else mret None);
  '(prs, slide_count) ←
    (if include_cover
     then prs' ← add_hymn_cover_slide prs d background_image_path;
          mret (prs', 1%nat)
     else mret (prs, 0%nat));
  '(prs, slide_count) ←
    foldM (section_step d background_image_path) (prs, slide_count)
      (enumerate (lyrics d));
  (if Py.given background_image
   then cleanup_temp_file H background_image_path
   else mret tt);;
  save_presentation prs output_file;;
  if include_cover
  then mret ("Created " +:+ Py.str_of_nat slide_count +:+ " slides for " +:+ title d
             +:+ " (1 cover + " +:+ Py.str_of_nat (slide_count - 1)
             +:+ " hymn slides)")
  else mret ("Created " +:+ Py.str_of_nat slide_count +:+ " hymn slides for "
             +:+ title d).

(** *** The endpoint *)

(** One element of a legacy ['verses'] array: an object or a plain value,
    the latter given by its [str()]. *)
Inductive verse_item :=
| VerseDict (page_name : option string) (text : option string)
| VerseStr (s : string).

(** The keys read from the request body, or from the object under its
    ['hymn'] key. *)
Record hymn_fields := {
  f_title : option string;
  f_number : option string;
  f_hymnal : option string;
  f_author : option string;
  f_composer : option string;
  f_tune_name : option string;
  f_text_copyright : option string;
  f_tune_copyright : option string;
  f_copyright : option string;
  f_lyrics : option (list lyric);
  f_verses : option (list verse_item)
}.

Record request := {
  nested : option hymn_fields;   (* data['hymn'], when the key is present *)
  flat : hymn_fields;            (* the keys of data itself *)
  background_image : option string
}.

Definition convert_verses_to_lyrics (verses : list verse_item) : list lyric :=
  map (λ '(i, v),
         match v with
         | VerseDict pn t =>
             {| page_name := Some (default ("Verse " +:+ Py.str_of_nat (i + 1)) pn);
                text := Some (default "" t) |}
         | VerseStr s =>
             {| page_name := Some ("Verse " +:+ Py.str_of_nat (i + 1));
                text := Some s |}
         end)
    (enumerate verses).

Definition hymn_info (data : request) : hymn_data :=
  match nested data with
  | Some r =>
      {| title := default "Hymn" (f_title r);
         hymn_number := default "" (f_number r);
         hymnal := Py.lower (default "UMH" (f_hymnal r));
         author := default "" (f_author r);
         composer := default "" (f_composer r);
         tune_name := default "" (f_tune_name r);
         text_copyright := default "" (f_text_copyright r);
         tune_copyright := default "" (f_tune_copyright r);
         lyrics := default [] (f_lyrics r) |}
  | None =>
      let r := flat data in
      {| title := default "Hymn" (f_title r);
         hymn_number := default "" (f_number r);
         hymnal := Py.lower (default "UMH" (f_hymnal r));
         author := default "" (f_author r);
         composer := default "" (f_composer r);
         tune_name := default "" (f_tune_name r);
         text_copyright := default (default "" (f_copyright r)) (f_text_copyright r);
         tune_copyright := default "" (f_tune_copyright r);
         lyrics :=
           default (convert_verses_to_lyrics (default [] (f_verses r))) (f_lyrics r) |}
  end.

Definition generate_hymn_slides_endpoint (data : request) : M response :=
  try_except
    (let r := match nested data with Some r => r | None => flat data end in
     let number := default "" (f_number r) in
     let hymnal := Py.lower (default "UMH" (f_hymnal r)) in
     output_path ← create_temp_file H ".pptx";
     _ ← create_hymn_slides (hymn_info data) output_path (background_image data) true;
     mret (FileResponse output_path
             ("hymn_" +:+ hymnal +:+ "_" +:+ number +:+ ".pptx") pptx_media_type))
    (λ e, raise (HTTPException 500 (str_exn H e))).

End Pipeline.

End Hymn.

(** ** [call_to_worship_slides.py] *)

Module CallToWorship.

Record pair := { Leader : string; People : string }.

Record CallToWorshipRequest := {
  pairs : option (list pair);
  text : option string;
  background_image : option string
}.

(** [value.split(':', 1)[-1].lstrip()] *)
Definition after_first_colon (value : string) : string :=
  Py.lstrip (List.last (Py.split1 ":" value) "").

(** The sanitising step at the head of [add_call_to_worship_slide]. *)
Definition sanitize (prefix value : string) : string :=
  if Py.startswith prefix (Py.lower (Py.strip value))
  then after_first_colon value
  else value.

Definition body_paragraph (after before : Z) (rs : list run) : paragraph :=
  set_hanging_indent
    {| runs := rs;
       para_font :=
         {| font_name := Some "Arial Narrow"; font_size := Some (Pt 50);
            font_bold := Some true; font_underline := None;
            font_color := Some black |};
       alignment := Some LEFT; level := Some 0;
       space_after := Some (Pt after); space_before := Some (Pt before);
       left_indent := Some (Inches 2.2); first_line_indent := Some (Inches (-2.2));
       pPr_attrs := []; pPr_kids := [] |}
    2.2.

(** [set_run_effects(run, glow_rgb=(255, 255, 255), glow_radius_pt=radius)] *)
Definition people_effects (radius : Q) : effects :=
  {| glow_rgb := Some white; glow_radius_pt := radius;
     inner_shadow_rgb := inner_shadow_rgb default_effects;
     inner_blur_radius_pt := inner_blur_radius_pt default_effects;
     inner_distance_pt := inner_distance_pt default_effects;
     outer_shadow_rgb := outer_shadow_rgb default_effects;
     blur_radius_pt := blur_radius_pt default_effects;
     distance_pt := distance_pt default_effects;
     direction_degrees := direction_degrees default_effects |}.

(** A run of the People paragraph: fill, combined effects, outline, and the
    highlight last. *)
Definition people_run (text : string) (radius : Q) : run :=
  set_run_highlight
    (add_run_outline
       (set_run_effects (add_run_fill (new_run text) black) (people_effects radius))
       white 1.0)
    yellow.

Definition worship_slide (leader_text people_text : string) (s : slide) : slide :=
  let title_box :=
    TextBox 0.26 0.03 8.91 1.2
      {| word_wrap := Some true; vertical_anchor := None;
         margin_left := Some (Inches 0); margin_right := Some (Inches 0);
         paragraphs :=
           [add_text_glow
              (text_paragraph "CALL TO WORSHIP" (heading_font 54 (Some true))
                 LEFT)
              6 white] |} in
  let leader_para :=
    body_paragraph 12 0
      [add_run_glow (new_run "Leader: ") white None 6;
       add_run_glow (new_run leader_text) white None 10] in
  let people_para :=
    add_end_paragraph_glow_and_highlight
      (body_paragraph 0 12 [people_run "People: " 6; people_run people_text 10])
      "bg1" 10.0 (Some yellow) in
  let content_box :=
    TextBox 0 2.5 13.33 5
      {| word_wrap := Some true; vertical_anchor := Some TOP;
         margin_left := Some (Inches 0.5); margin_right := Some (Inches 0.5);
         paragraphs := [leader_para; people_para] |} in
  add_shape (add_shape s title_box) content_box.

Section Pipeline.
Context (H : host).

Definition add_call_to_worship_slide (prs : presentation)
    (leader_text people_text : string) (background_image_path : option string)
  : M presentation :=
  let leader_text := sanitize "leader:" leader_text in
  let people_text := sanitize "people:" people_text in
  '(s, _) ← set_slide_background H prs blank_slide background_image_path;
  s ← add_placeholder_image H s "flower-placholder.jpg";
  mret (add_slide prs (worship_slide leader_text people_text s)).

Definition create_call_to_worship_slides_from_dict (pairs_list : list pair)
    (output_file : string) (background_image : option string) : M string :=
  let prs := create_presentation 13.33 7.5 in
  background_image_path ←
    (if Py.given background_image
     then process_background_image H background_image
     else mret None);
  prs ← foldM (λ prs p,
                 add_call_to_worship_slide prs (Leader p) (People p)
                   background_image_path)
          prs pairs_list;
  (if Py.given background_image
   then cleanup_temp_file H background_image_path
   else mret tt);;
  save_presentation prs output_file;;
  mret ("Created " +:+ Py.str_of_nat (length pairs_list) +:+ " Call to Worship slides").

(** The loop of the endpoint over the lines of the free text: the pair of
    texts it leaves in [leader_text] and [people_text]. *)
Definition parse_step (st : string * string) (line : string) : string * string :=
  let '(leader_text, people_text) := st in
  let line := Py.strip line in
  if Py.startswith "leader:" (Py.lower line) then (Py.strip (Py.drop 7 line), people_text)
  else if Py.startswith "people:" (Py.lower line)
       then (leader_text, Py.strip (Py.drop 7 line))
       else (leader_text, people_text).

Definition parse_lines (lines : list string) : string * string :=
  foldl parse_step ("", "") lines.

(** The pairs built from the free text. *)
Definition pairs_of_text (text : string) : list pair :=
  let '(leader_text, people_text) := parse_lines (Py.split Py.newline text) in
  if Py.truthy leader_text || Py.truthy people_text
  then [{| Leader := leader_text; People := people_text |}]
  else [{| Leader := text; People := "" |}].

Definition generate_call_to_worship_endpoint (request : CallToWorshipRequest)
  : M response :=
  try_except
    (let pairs0 := default [] (pairs request) in
     pairs1 ←
       match pairs0 with
       | [] =>
           let text := default "" (text request) in
           if negb (Py.truthy text)
           then raise (HTTPException 400 "No pairs or text provided")
           else mret (pairs_of_text text)
       | _ => mret pairs0
       end;
     output_path ← create_temp_file H ".pptx";
     _ ← create_call_to_worship_slides_from_dict pairs1 output_path
           (background_image request);
     mret (FileResponse output_path "call_to_worship.pptx" pptx_media_type))
    (λ e, raise (HTTPException 500 (str_exn H e))).

End Pipeline.

End CallToWorship.

(** ** The rest of [slides/utils.py], [core/files.py] and the scripture
       endpoint *)

Definition add_text_highlight (p : paragraph) (color_rgb : rgb) : paragraph :=
  with_runs p (map (λ r, append_rPr r (highlight color_rgb)) (runs p)).

Definition add_text_glow_scheme (p : paragraph) (scheme : string) (glow_radius_pt : Q)
  : paragraph :=
  with_runs p
    (map (λ r, append_rPr r
                 (effectLst [glow (emu_at_least_1 glow_radius_pt) (schemeClr scheme)]))
       (runs p)).

Section Files.
Context (H : host).

(** [cleanup_temp_file] of [core/files.py]: no test on the path. *)
Definition files_cleanup_temp_file (file_path : string) : M unit :=
  try_except
    (found ← path_exists file_path;
     if found : bool then log (EvUnlink file_path);; remove_file file_path
     else mret tt)
    (λ _, mret tt).



End Files.

(** * Vocabulary of the properties *)

(** ** Observations on slides *)

(** The paragraphs of the last text box of a slide: the content box. *)
Definition content_paragraphs (s : slide) : list paragraph :=
  match last (shapes s) with
  | Some (TextBox _ _ _ _ frame) => paragraphs frame
  | _ => []
  end.

(** The font size of the content of a slide. *)
Definition content_size (s : slide) : option Z :=
  match content_paragraphs s with
  | p :: _ => font_size (para_font p)
  | [] => None
  end.


(** A text of [n] letters. *)
Fixpoint letters (n : nat) : string :=
  match n with
  | O => ""
  | S k => String "a" (letters k)
  end.


(** The number of children of the [a:rPr] of a run that [test] accepts. *)
Definition count_nodes (test : xml → bool) (r : run) : nat :=
  length (filter (λ child, test child = true) (rPr r)).

(** At least one of the three colours of [set_run_effects] is given. *)
Definition some_colour (e : effects) : bool :=
  match glow_rgb e, inner_shadow_rgb e, outer_shadow_rgb e with
  | None, None, None => false
  | _, _, _ => true
  end.

(** Whether the character [c] occurs in [s]. *)
Fixpoint has_char (c : ascii) (s : string) : bool :=
  match s with
  | "" => false
  | String x s' => Ascii.eqb c x || has_char c s'
  end.

(** ** Worlds and pure readings of the slide builders *)

(** The world after the calls [es]. *)
Definition events (w : world) (es : list event) : world :=
  {| files := files w; trace := trace w ++ es |}.

(** The text handed to the decoder, read off the payload: the text after
    the first comma, up to the next comma if there is one; the whole payload
    when it has no comma. *)
Definition decoded_text (data : string) : string :=
  match Py.cut "," data with
  | Some (_, rest) =>
      match Py.cut "," rest with
      | Some (piece, _) => piece
      | None => rest
      end
  | None => data
  end.

Section Readings.
Context (H : host).

(** The name of the next temporary file. *)
Definition temp_name (fs : gmap string content) (prefix suffix : string) : string :=
  gettempdir H +:+ "/" +:+ prefix +:+ tmp_rand H fs +:+ suffix.

(** Whether the background picture at [path] is put on a slide. *)
Definition image_loads (fs : gmap string content) (path : option string) : bool :=
  match path with
  | Some p =>
      Py.truthy p
      && match fs !! p with
         | Some (Blob bytes) => image_ok H bytes
         | _ => false
         end
  | None => false
  end.

(** The slide left by [set_slide_background]. *)
Definition with_background (fs : gmap string content) (width height : Q) (s : slide)
    (path : option string) : slide :=
  if image_loads fs path
  then add_shape s (Picture (default "" path) 0 0 width height)
  else {| background := Some white; shapes := shapes s |}.

(** The slide left by [add_placeholder_image]. *)
Definition with_placeholder (fs : gmap string content) (s : slide) (file : string)
  : slide :=
  if bool_decide (is_Some (fs !! placeholder_path H file))
  then add_shape s (Picture (placeholder_path H file) 9.33 0.25 3.72 2)
  else s.

(** The slide a builder starts from: background, then placeholder. *)
Definition base_slide (fs : gmap string content) (width height : Q)
    (path : option string) (file : string) : slide :=
  with_placeholder fs (with_background fs width height blank_slide path) file.

(** The world after [process_background_image] on a non-empty payload, and
    the path it returns. *)
Definition resolved_path (w : world) (data : string) : option string :=
  match b64decode H (decoded_text data) with
  | Some _ => Some (temp_name (files w) "tmp" ".png")
  | None => None
  end.

Definition resolved_world (w : world) (data : string) : world :=
  match b64decode H (decoded_text data) with
  | Some bytes =>
      let name := temp_name (files w) "tmp" ".png" in
      {| files := <[name := Blob bytes]> (files w);
         trace := trace w ++ [EvDecode (decoded_text data); EvTempFile name] |}
  | None => events w [EvDecode (decoded_text data)]
  end.

End Readings.

(** The deck [prs] with the slides [ss] appended. *)
Definition extend (prs : presentation) (ss : list slide) : presentation :=
  {| slide_width := slide_width prs; slide_height := slide_height prs;
     slides := slides prs ++ ss |}.

(** The deck a pipeline starts from. *)
Definition empty_deck : presentation := create_presentation 13.33 7.5.

Section Pipelines.
Context (H : host).

(** Whether [cleanup_temp_file] removes the file at [path]. *)
Definition removable (fs : gmap string content) (path : option string) : bool :=
  match path with
  | Some p =>
      Py.truthy p && bool_decide (is_Some (fs !! p))
      && (Py.contains "tmp" p || Py.startswith (gettempdir H) p)
  | None => false
  end.

(** The world after [cleanup_temp_file]. *)
Definition cleaned (w : world) (path : option string) : world :=
  if removable (files w) path
  then {| files := delete (default "" path) (files w);
          trace := trace w ++ [EvUnlink (default "" path)] |}
  else w.

(** The world and the background path after the head of a pipeline: the
    payload is resolved when it is given and not empty. *)
Definition resolved (w : world) (background_image : option string)
  : world * option string :=
  match background_image with
  | Some data =>
      if Py.truthy data then (resolved_world H w data, resolved_path H w data)
      else (w, None)
  | None => (w, None)
  end.

(** The world at the end of a pipeline that has built the slides [deck]
    in the world [w1] with the background path [path]: one call of
    [set_slide_background] for each slide, the cleanup when a payload was
    given, and the deck saved last. *)
Definition finished (w1 : world) (background_image path : option string)
    (deck : list slide) (out : string) : world :=
  let w2 := events w1 (replicate (length deck) (EvBackground path)) in
  let w3 := if Py.given background_image then cleaned w2 path else w2 in
  {| files := <[out := Deck (extend empty_deck deck)]> (files w3);
     trace := trace w3 ++ [EvSave out] |}.

(** *** The slides of the scripture pipeline *)

Definition scripture_slide (fs : gmap string content) (path : option string)
    (ref : Scripture.reference) (verse_num : option Z) (text : string)
    (label : option string) : slide :=
  Scripture._add_verse_content
    (base_slide H fs 13.33 7.5 path "scripture-placeholder.jpg")
    (Scripture.book ref) (Scripture.chapter ref) verse_num text label.

(** The slides of one verse in single-translation mode. *)
Definition single_slides (fs : gmap string content) (path : option string)
    (ref : Scripture.reference) (v : Scripture.verse_entry) : list slide :=
  if Py.truthy (Scripture.stripped_text v)
  then [scripture_slide fs path ref (Scripture.verse v) (Scripture.stripped_text v) None]
  else [].

(** The slides of one verse number in combined mode: the primary
    translation, then the alternate one. *)
Definition combined_slides (fs : gmap string content) (path : option string)
    (ref : Scripture.reference) (verse_map : gmap Z Scripture.texts) (verse_num : Z)
  : list slide :=
  match verse_map !! verse_num with
  | Some t =>
      (if Py.truthy (Scripture.nrsvue t)
       then [scripture_slide fs path ref (Some verse_num) (Scripture.nrsvue t)
               (Some "NRSVUE")]
       else [])
      ++ (if Py.truthy (Scripture.tmb t)
          then [scripture_slide fs path ref (Some verse_num) (Scripture.tmb t)
                  (Some "TMB")]
          else [])
  | None => []
  end.

(** *** The slides of the hymn pipeline *)

Definition hymn_cover (fs : gmap string content) (path : option string)
    (d : Hymn.hymn_data) : slide :=
  Hymn.cover_slide H empty_deck d (with_background H fs 13.33 7.5 blank_slide path).

Definition hymn_slide (fs : gmap string content) (path : option string)
    (d : Hymn.hymn_data) (page_name slide_text : string) : slide :=
  Hymn.lyric_slide H d slide_text page_name
    (base_slide H fs 13.33 7.5 path "hymn-placeholder.jpg").

(** The slides of one piece of a section, numbered by [enumerate]. *)
Definition fragment_slides (fs : gmap string content) (path : option string)
    (d : Hymn.hymn_data) (page_name : string) (item : nat * string) : list slide :=
  if Py.truthy (Py.strip item.2)
  then [hymn_slide fs path d page_name (Py.strip item.2)]
  else [].

(** The fragments of a section that make a slide: the pieces between the
    ["<br>"] markers, trimmed, the empty ones left out. *)
Definition fragments (l : Hymn.lyric) : list string :=
  filter (λ t, Py.truthy t = true)
    (map Py.strip (Py.split "<br>" (default "" (Hymn.text l)))).

Definition section_slides (fs : gmap string content) (path : option string)
    (d : Hymn.hymn_data) (l : Hymn.lyric) : list slide :=
  map (hymn_slide fs path d (default "" (Hymn.page_name l))) (fragments l).

(** *** The slides of the call-to-worship pipeline *)

Definition worship_slide_of (fs : gmap string content) (path : option string)
    (p : CallToWorship.pair) : slide :=
  CallToWorship.worship_slide
    (CallToWorship.sanitize "leader:" (CallToWorship.Leader p))
    (CallToWorship.sanitize "people:" (CallToWorship.People p))
    (base_slide H fs 13.33 7.5 path "flower-placholder.jpg").

(** *** The calls of a pipeline that was given a payload *)

Definition lifecycle (w : world) (data : string) (n : nat) (out : string)
  : list event :=
  match resolved_path H w data with
  | Some p =>
      [EvDecode (decoded_text data); EvTempFile p]
      ++ replicate n (EvBackground (Some p))
      ++ [EvUnlink p; EvSave out]
  | None =>
      [EvDecode (decoded_text data)]
      ++ replicate n (EvBackground None)
      ++ [EvSave out]
  end.

End Pipelines.

(** The position of the first event that [test] accepts. *)
Fixpoint first_index (test : event → bool) (tr : list event) : option nat :=
  match tr with
  | [] => None
  | e :: rest => if test e then Some 0%nat else S <$> first_index test rest
  end.

Definition is_save (e : event) : bool :=
  match e with EvSave _ => true | _ => false end.
Definition is_unlink (e : event) : bool :=
  match e with EvUnlink _ => true | _ => false end.

(** The order of the specification: the deck is saved first, and a
    temporary file is removed only afterwards. *)
Definition saved_before_removed (tr : list event) : bool :=
  match first_index is_save tr, first_index is_unlink tr with
  | Some i, Some j => (i <? j)%nat
  | _, _ => false
  end.

Section Decks.
Context (H : host).

(** The verse map of combined mode. *)
Definition verse_map_of (verses verses_alt : list Scripture.verse_entry)
  : gmap Z Scripture.texts :=
  Scripture.alternate_map (Scripture.primary_map verses) verses_alt.

(** The slides of the scripture deck. *)
Definition scripture_deck (fs : gmap string content) (path : option string)
    (ref : Scripture.reference) (verses : list Scripture.verse_entry)
    (verses_alt : option (list Scripture.verse_entry)) : list slide :=
  match verses_alt with
  | Some (v :: alt) =>
      flat_map (combined_slides H fs path ref (verse_map_of verses (v :: alt)))
        (Scripture.sorted_keys (verse_map_of verses (v :: alt)))
  | _ => flat_map (single_slides H fs path ref) verses
  end.

(** The lyric slides of the hymn deck. *)
Definition lyric_slides (fs : gmap string content) (path : option string)
    (d : Hymn.hymn_data) : list slide :=
  flat_map (section_slides H fs path d) (Hymn.lyrics d).

(** The slides of the hymn deck. *)
Definition hymn_deck (fs : gmap string content) (path : option string)
    (d : Hymn.hymn_data) (include_cover : bool) : list slide :=
  (if include_cover then [hymn_cover H fs path d] else [])
  ++ lyric_slides fs path d.

(** The message returned by [create_hymn_slides]. *)
Definition hymn_message (d : Hymn.hymn_data) (include_cover : bool) (n : nat) : string :=
  if include_cover
  then "Created " +:+ Py.str_of_nat n +:+ " slides for " +:+ Hymn.title d
       +:+ " (1 cover + " +:+ Py.str_of_nat (n - 1) +:+ " hymn slides)"
  else "Created " +:+ Py.str_of_nat n +:+ " hymn slides for " +:+ Hymn.title d.

End Decks.

(** The text a verse list gives for the verse number [n]: the trimmed text
    of its last entry with that number, if it has one.  Entries without a
    number, or with the number 0, give no text. *)
Fixpoint last_text (vs : list Scripture.verse_entry) (n : Z) : option string :=
  match vs with
  | [] => None
  | v :: rest =>
      match last_text rest n with
      | Some t => Some t
      | None =>
          if decide (Scripture.usable_verse v = Some n)
          then Some (Scripture.stripped_text v)
          else None
      end
  end.

(** A verse with text that is not blank. *)
Definition has_text (v : Scripture.verse_entry) : Prop :=
  Py.truthy (Py.strip (default "" (Scripture.text v))) = true.

Global Instance has_text_dec v : Decision (has_text v).
Proof. unfold has_text. apply _. Defined.

(** ** Observations on call-to-worship slides *)

(** The texts of the runs of the [i]-th paragraph of the content box. *)
Definition body_runs (s : slide) (i : nat) : list string :=
  match content_paragraphs s !! i with
  | Some p => map run_text (runs p)
  | None => []
  end.

(** The text rendered after the label ["Leader: "], and after ["People: "]. *)
Definition leader_line (s : slide) : option string := body_runs s 0 !! 1%nat.
Definition people_line (s : slide) : option string := body_runs s 1 !! 1%nat.

(** The text kept from the last line that starts with [prefix], whatever
    the case of its letters: the line is trimmed, the prefix taken off, and
    the rest trimmed again. *)
Fixpoint last_match (prefix : string) (lines : list string) : option string :=
  match lines with
  | [] => None
  | line :: rest =>
      match last_match prefix rest with
      | Some kept => Some kept
      | None =>
          if Py.startswith prefix (Py.lower (Py.strip line))
          then Some (Py.strip (Py.drop (String.length prefix) (Py.strip line)))
          else None
      end
  end.

(** The pair the endpoint builds from a free text. *)
Definition pair_of_text (text : string) : CallToWorship.pair :=
  let lines := Py.split Py.newline text in
  let leader := default "" (last_match "leader:" lines) in
  let people := default "" (last_match "people:" lines) in
  if Py.truthy leader || Py.truthy people
  then {| CallToWorship.Leader := leader; CallToWorship.People := people |}
  else {| CallToWorship.Leader := text; CallToWorship.People := "" |}.

(** The pair of the specification: the texts kept from the last matching
    lines whenever a line matches, the whole text otherwise. *)
Definition spec_pair_of_text (text : string) : CallToWorship.pair :=
  let lines := Py.split Py.newline text in
  match last_match "leader:" lines, last_match "people:" lines with
  | None, None => {| CallToWorship.Leader := text; CallToWorship.People := "" |}
  | leader, people =>
      {| CallToWorship.Leader := default "" leader;
         CallToWorship.People := default "" people |}
  end.

(** ** More observations *)

(** The text of a paragraph: the texts of its runs, one after the other. *)
Definition paragraph_text (p : paragraph) : string :=
  String.concat "" (map run_text (runs p)).

(** The lines of a text box, one for each paragraph. *)
Definition box_lines (sh : shape) : list string :=
  match sh with
  | TextBox _ _ _ _ frame => map paragraph_text (paragraphs frame)
  | Picture _ _ _ _ _ => []
  end.

Definition is_text_box (sh : shape) : bool :=
  match sh with
  | TextBox _ _ _ _ _ => true
  | Picture _ _ _ _ _ => false
  end.

(** The text boxes of a slide, and the lines of the first and of the last:
    the title and the content. *)
Definition text_boxes (s : slide) : list shape :=
  filter (λ sh, is_text_box sh = true) (shapes s).

Definition title_lines (s : slide) : list string :=
  match text_boxes s with
  | box :: _ => box_lines box
  | [] => []
  end.

Definition content_lines (s : slide) : list string :=
  map paragraph_text (content_paragraphs s).

(** The value of an attribute. *)
Fixpoint get_attr (key : string) (attrs : list (string * string)) : option string :=
  match attrs with
  | [] => None
  | (k, v) :: rest => if String.eqb k key then Some v else get_attr key rest
  end.

(** The last character of a text. *)
Fixpoint last_char (s : string) : option ascii :=
  match s with
  | "" => None
  | String c s' =>
      match last_char s' with
      | Some x => Some x
      | None => Some c
      end
  end.

(** The value of a hexadecimal digit, and of a text of such digits. *)
Definition hex_value (c : ascii) : option N :=
  let n := N_of_ascii c in
  if ((48 <=? n) && (n <=? 57))%N then Some (n - 48)%N
  else if ((65 <=? n) && (n <=? 70))%N then Some (n - 55)%N
  else None.

Fixpoint hex_parse (acc : N) (s : string) : option N :=
  match s with
  | "" => Some acc
  | String c s' =>
      match hex_value c with
      | Some d => hex_parse (acc * 16 + d) s'
      | None => None
      end
  end.

(** A colour whose three components are bytes. *)
Definition byte_colour (c : rgb) : Prop :=
  let '(r, g, b) := c in (r < 256 ∧ g < 256 ∧ b < 256)%N.

(** The test of [add_end_paragraph_glow_and_highlight] for the element that
    holds the properties of the end of a paragraph. *)
Definition is_endParaRPr (child : xml) : bool :=
  Py.endswith "endParaRPr" (xml_tag child).

(** The nodes that a call of [add_end_paragraph_glow_and_highlight] adds
    to that element when the radius, in EMU, is [emu] and nothing fails. *)
Definition end_paragraph_nodes (scheme : string) (emu : Z)
    (highlight_rgb : option rgb) : list xml :=
  effectLst [glow (Z.max 1 emu) (schemeClr scheme)]
  :: match highlight_rgb with
     | Some c => [highlight c]
     | None => []
     end.

(** The number of children of a paragraph's [a:pPr] that [test] accepts. *)
Definition count_kids (test : xml → bool) (p : paragraph) : nat :=
  length (filter (λ child, test child = true) (pPr_kids p)).

(** The two digits [format(n, '02X')] writes for a byte. *)
Definition two_digits (n : N) : bool :=
  match Py.format_02X n with
  | String a (String b "") =>
      bool_decide (hex_value a = Some (n / 16)%N)
      && bool_decide (hex_value b = Some (n mod 16)%N)
  | _ => false
  end.

(** The slide [s] was built on the slide [b]: the background fill is that
    of [b], and the shapes of [b] lie below the shapes added since. *)
Definition built_on (b s : slide) : Prop :=
  background s = background b ∧ ∃ rest, shapes s = shapes b ++ rest.


(** The lyric section that [convert_verses_to_lyrics] makes of the element
    at position [i] of a legacy ['verses'] array. *)
Definition lyric_of_verse (i : nat) (v : Hymn.verse_item) : Hymn.lyric :=
  match v with
  | Hymn.VerseDict pn t =>
      {| Hymn.page_name := Some (default ("Verse " +:+ Py.str_of_nat (i + 1)) pn);
         Hymn.text := Some (default "" t) |}
  | Hymn.VerseStr s =>
      {| Hymn.page_name := Some ("Verse " +:+ Py.str_of_nat (i + 1));
         Hymn.text := Some s |}
  end.


(** A year from 1800 to 1922 is written somewhere in [text]. *)
Definition old_year_in (text : string) : Prop :=
  ∃ year, (1800 ≤ year ≤ 1922)%nat ∧ Py.contains (Py.str_of_nat year) text = true.

(** The copyright lines that are stated in the hymn data. *)
Definition stated_copyright (d : Hymn.hymn_data) : list string :=
  (if Hymn.filled (Hymn.text_copyright d)
   then ["Text: " +:+ Hymn.text_copyright d] else [])
  ++ (if Hymn.filled (Hymn.tune_copyright d)
      then ["Music: " +:+ Hymn.tune_copyright d] else []).

(** What a call of [add_end_paragraph_glow_and_highlight] appends to the
    element before it returns: the glow and the highlight, or nothing when
    the conversion of the radius or the parsing of the glow raises. *)
Definition end_paragraph_added (scheme : string) (glow_radius_pt : Q)
    (highlight_rgb : option rgb) : list xml :=
  match Py.int_of_product glow_radius_pt 12700 with
  | Some emu =>
      if attribute_text scheme
      then end_paragraph_nodes scheme emu highlight_rgb
      else []
  | None => []
  end.



(** A character that [paragraph.text = text] keeps as it is: no control
    character but the tab (a line feed or a vertical tab would start a new
    run after a line break, and the others are written in an escaped
    form). *)
Definition plain_char (c : ascii) : bool :=
  let n := N_of_ascii c in ((32 <=? n) || (n =? 9))%N.

(** A text that a paragraph shows in one run, as it is. *)
Fixpoint plain (s : string) : bool :=
  match s with
  | "" => true
  | String c s' => plain_char c && negb (refused_at s) && plain s'
  end.


(** * A host for the examples

    The properties below hold for every [host].  The examples run the
    routers on this one: a Base64 decoder for the standard alphabet, pictures
    recognised by their signature, and the usual temporary directory. *)

Module Example.

(** The value of a Base64 digit. *)
Definition b64_value (c : ascii) : option N :=
  let n := N_of_ascii c in
  if ((65 <=? n) && (n <=? 90))%N then Some (n - 65)%N
  else if ((97 <=? n) && (n <=? 122))%N then Some (n - 71)%N
  else if ((48 <=? n) && (n <=? 57))%N then Some (n + 4)%N
  else if (n =? 43)%N then Some 62%N
  else if (n =? 47)%N then Some 63%N
  else None.

(** The decoding loop of a decoder that does not validate: characters
    outside the alphabet are passed over, padding that completes a group ends
    the data, and the data must fill whole groups.  [quad_pos] is the position
    in the group of four digits, [leftchar] the bits not yet written, [pads]
    the padding characters seen in a row; the output is built in reverse. *)
Fixpoint b64_loop (s : string) (quad_pos : nat) (leftchar : N) (pads : nat)
    (out : list ascii) : option (list ascii) :=
  match s with
  | "" => if (quad_pos =? 0)%nat then Some out else None
  | String c s' =>
      if Ascii.eqb c "=" then
        if (2 <=? quad_pos)%nat
        then if (4 <=? quad_pos + S pads)%nat then Some out
             else b64_loop s' quad_pos leftchar (S pads) out
        else b64_loop s' quad_pos leftchar pads out
      else
        match b64_value c with
        | None => b64_loop s' quad_pos leftchar pads out
        | Some v =>
            match quad_pos with
            | 0%nat => b64_loop s' 1 v 0 out
            | 1%nat =>
                b64_loop s' 2 (v mod 16)%N 0
                  (ascii_of_N (leftchar * 4 + v / 16) :: out)
            | 2%nat =>
                b64_loop s' 3 (v mod 4)%N 0
                  (ascii_of_N (leftchar * 16 + v / 4) :: out)
            | _ => b64_loop s' 0 0%N 0 (ascii_of_N (leftchar * 64 + v) :: out)
            end
        end
  end.

Fixpoint all_ascii (s : string) : bool :=
  match s with
  | "" => true
  | String c s' => (N_of_ascii c <? 128)%N && all_ascii s'
  end.

Definition decode_base64 (s : string) : option string :=
  if all_ascii s
  then match b64_loop s 0 0%N 0 [] with
       | Some out => Some (string_of_list_ascii (rev out))
       | None => None
       end
  else None.

(** The first bytes of a PNG and of a JPEG file. *)
Definition png_signature : string :=
  string_of_list_ascii (map ascii_of_N [137; 80; 78; 71; 13; 10; 26; 10]%N).
Definition jpeg_signature : string :=
  string_of_list_ascii (map ascii_of_N [255; 216; 255]%N).

Definition has_signature (bytes : string) : bool :=
  Py.startswith png_signature bytes || Py.startswith jpeg_signature bytes.

(** [str.upper] and [str.title] on the letters A to Z. *)
Definition is_lower_letter (c : ascii) : bool :=
  let n := N_of_ascii c in ((97 <=? n) && (n <=? 122))%N.
Definition is_upper_letter (c : ascii) : bool :=
  let n := N_of_ascii c in ((65 <=? n) && (n <=? 90))%N.

Definition upper_char (c : ascii) : ascii :=
  if is_lower_letter c then ascii_of_N (N_of_ascii c - 32) else c.

Fixpoint ascii_upper (s : string) : string :=
  match s with
  | "" => ""
  | String c s' => String (upper_char c) (ascii_upper s')
  end.

Fixpoint title_from (inside_word : bool) (s : string) : string :=
  match s with
  | "" => ""
  | String c s' =>
      String (if inside_word then Py.lower_char c else upper_char c)
        (title_from (is_lower_letter c || is_upper_letter c) s')
  end.

Definition ascii_title (s : string) : string := title_from false s.

Definition message (e : exn) : string :=
  match e with
  | BinasciiError => "Incorrect padding"
  | IndexError => "list index out of range"
  | KeyError => "key"
  | ImageError => "cannot identify image file"
  | HTTPException status_code detail => Py.str_of_Z status_code +:+ ": " +:+ detail
  end.

Definition server : host :=
  {| b64decode := decode_base64;
     image_ok := has_signature;
     gettempdir := "/tmp";
     tmp_rand := λ _, "k3v9x61q";
     root_dir := "/srv";
     str_upper := ascii_upper;
     str_title := ascii_title;
     str_exn := message |}.

(** A world with no file and no call yet. *)
Definition empty_world : world := {| files := ∅; trace := [] |}.

(** A world with the three placeholder pictures in place. *)
Definition furnished_world : world :=
  {| files :=
       <[placeholder_path server "scripture-placeholder.jpg" := Blob jpeg_signature]>
         (<[placeholder_path server "hymn-placeholder.jpg" := Blob jpeg_signature]>
            (<[placeholder_path server "flower-placholder.jpg" := Blob jpeg_signature]>
               ∅));
     trace := [] |}.

(** A data URL that carries the eight bytes of the PNG signature. *)
Definition png_data_url : string := "data:image/png;base64,iVBORw0KGgo=".

(** A data URL whose data is a single Base64 digit: it cannot be decoded. *)
Definition broken_data_url : string := "data:image/png;base64,Q".

(** The free text of a call to worship, and one whose two lines are empty
    after their prefixes. *)
Definition rejoice : string := "Leader: Rejoice" +:+ Py.newline +:+ "People: Amen".
Definition bare_roles : string := "Leader:" +:+ Py.newline +:+ "People:".

Definition free_text_request (text : string) : CallToWorship.CallToWorshipRequest :=
  {| CallToWorship.pairs := None; CallToWorship.text := Some text;
     CallToWorship.background_image := None |}.

Definition psalm_23 : Scripture.reference :=
  {| Scripture.book := "PSA"; Scripture.chapter := 23 |}.

Definition shepherd : Scripture.verse_entry :=
  {| Scripture.verse := Some 1; Scripture.text := Some "The Lord is my shepherd" |}.

End Example.

(** * Requests for the examples *)

Module Sample.

(** The fields of a hymn with no ['lyrics'], and a legacy ['verses'] array. *)
Definition grace_fields : Hymn.hymn_fields :=
  {| Hymn.f_title := Some "Amazing Grace"; Hymn.f_number := Some "378";
     Hymn.f_hymnal := Some "UMH"; Hymn.f_author := None; Hymn.f_composer := None;
     Hymn.f_tune_name := None; Hymn.f_text_copyright := None;
     Hymn.f_tune_copyright := None; Hymn.f_copyright := None;
     Hymn.f_lyrics := None;
     Hymn.f_verses := Some [Hymn.VerseStr "Amazing grace! How sweet the sound"] |}.

(** The fields under the ['hymn'] key, and the same fields beside it. *)
Definition nested_grace : Hymn.request :=
  {| Hymn.nested := Some grace_fields; Hymn.flat := grace_fields;
     Hymn.background_image := None |}.

(** A hymn with an author, and a tune name that is only white space. *)
Definition grace : Hymn.hymn_data :=
  {| Hymn.title := "Amazing Grace"; Hymn.hymn_number := "378"; Hymn.hymnal := "umh";
     Hymn.author := "John Newton"; Hymn.composer := ""; Hymn.tune_name := "  ";
     Hymn.text_copyright := ""; Hymn.tune_copyright := ""; Hymn.lyrics := [] |}.

(** A hymn with no field filled in. *)
Definition untitled : Hymn.hymn_data :=
  {| Hymn.title := ""; Hymn.hymn_number := ""; Hymn.hymnal := "";
     Hymn.author := ""; Hymn.composer := ""; Hymn.tune_name := "";
     Hymn.text_copyright := ""; Hymn.tune_copyright := ""; Hymn.lyrics := [] |}.

(** A call to worship with an empty list of pairs and an empty text. *)
Definition nothing_given : CallToWorship.CallToWorshipRequest :=
  {| CallToWorship.pairs := Some []; CallToWorship.text := Some "";
     CallToWorship.background_image := Some Example.png_data_url |}.

(** A call to worship with one pair, and a text beside it. *)
Definition one_pair : CallToWorship.CallToWorshipRequest :=
  {| CallToWorship.pairs :=
       Some [{| CallToWorship.Leader := "Leader: Rejoice";
                CallToWorship.People := "Amen" |}];
     CallToWorship.text := Some "People: not read";
     CallToWorship.background_image := None |}.

(** A verse with a text and no number. *)
Definition unnumbered : Scripture.verse_entry :=
  {| Scripture.verse := None; Scripture.text := Some "In the beginning" |}.




(** A verse in Tongan: 100 characters, held in 106 bytes. *)
Definition still_waters : string :=
  "ʻOku ne fakatokoto au ʻi he ngaahi ngoue lau maʻuiʻui: ʻoku ne tataki au ki he ngaahi vai tafe mālie".

End Sample.

(** * Properties *)

(** ** Strings *)

Section Strings.

Lemma append_cons (c : ascii) (s t : string) :
  String c s +:+ t = String c (s +:+ t).
Proof. reflexivity. Qed.

Lemma append_nil_l (s : string) : "" +:+ s = s.
Proof. reflexivity. Qed.

Lemma append_nil_r (s : string) : s +:+ "" = s.
Proof.
  induction s as [|c s IH]; [reflexivity|]. by rewrite append_cons, IH.
Qed.

Lemma append_assoc (a b c : string) : (a +:+ b) +:+ c = a +:+ (b +:+ c).
Proof.
  induction a as [|x a IH]; [reflexivity|]. by rewrite !append_cons, IH.
Qed.

Lemma length_drop (n : nat) (s : string) :
  String.length (Py.drop n s) = (String.length s - n)%nat.
Proof.
  revert s. induction n as [|n IH]; intros [|c s]; cbn; auto.
Qed.

Lemma startswith_append (p s : string) : Py.startswith p (p +:+ s) = true.
Proof.
  induction p as [|c p IH]; [reflexivity|].
  rewrite append_cons. cbn. by rewrite Ascii.eqb_refl, IH.
Qed.

Lemma startswith_drop (p s : string) :
  Py.startswith p s = true → s = p +:+ Py.drop (String.length p) s.
Proof.
  revert s. induction p as [|c p IH]; intros s Hp; [reflexivity|].
  destruct s as [|x s]; cbn in Hp; [discriminate|].
  apply andb_true_iff in Hp as [Hc Hp]. apply Ascii.eqb_eq in Hc. subst x.
  cbn [String.length Py.drop]. rewrite append_cons. f_equal. by apply IH.
Qed.

Lemma has_char_append (c : ascii) (a b : string) :
  has_char c (a +:+ b) = has_char c a || has_char c b.
Proof.
  induction a as [|x a IH]; [reflexivity|].
  rewrite append_cons. cbn. by rewrite IH, orb_assoc.
Qed.

Lemma has_char_startswith (c : ascii) (p s : string) :
  Py.startswith p s = true → has_char c p = true → has_char c s = true.
Proof.
  intros Hp Hc. rewrite (startswith_drop p s Hp), has_char_append, Hc. reflexivity.
Qed.

Lemma contains_char (c : ascii) (s : string) :
  Py.contains (String c "") s = has_char c s.
Proof.
  induction s as [|x s IH]; [reflexivity|].
  cbn. rewrite IH. by rewrite andb_true_r.
Qed.

Lemma has_char_lstrip (c : ascii) (s : string) :
  has_char c (Py.lstrip s) = true → has_char c s = true.
Proof.
  induction s as [|x s IH]; cbn; [done|].
  destruct (Py.is_space x); cbn; [|done].
  intros Hc. rewrite IH by done. apply orb_true_r.
Qed.

Lemma has_char_rstrip (c : ascii) (s : string) :
  has_char c (Py.rstrip s) = true → has_char c s = true.
Proof.
  induction s as [|x s IH]; cbn; [done|].
  destruct (Py.rstrip s) as [|y r] eqn:Er.
  - destruct (Py.is_space x); cbn; [done|].
    rewrite orb_false_r. intros ->. reflexivity.
  - cbn [has_char] in *. intros Hc. apply orb_true_iff in Hc as [Hc|Hc].
    + by rewrite Hc.
    + rewrite IH by done. apply orb_true_r.
Qed.

Lemma has_char_strip (c : ascii) (s : string) :
  has_char c (Py.strip s) = true → has_char c s = true.
Proof. intros Hc. by apply has_char_rstrip, has_char_lstrip. Qed.

Lemma lower_char_colon (x : ascii) :
  Ascii.eqb ":" (Py.lower_char x) = Ascii.eqb ":" x.
Proof.
  destruct x as [[] [] [] [] [] [] [] []]; reflexivity.
Qed.

Lemma has_colon_lower (s : string) : has_char ":" (Py.lower s) = has_char ":" s.
Proof.
  induction s as [|x s IH]; [reflexivity|].
  cbn [Py.lower has_char]. by rewrite lower_char_colon, IH.
Qed.

(** [cut] on a separator of one character. *)
Lemma cut_char_step (c x : ascii) (s : string) :
  Py.cut (String c "") (String x s)
  = if Ascii.eqb c x then Some ("", s)
    else match Py.cut (String c "") s with
         | Some (before, after) => Some (String x before, after)
         | None => None
         end.
Proof.
  cbn. rewrite andb_true_r. destruct (Ascii.eqb c x); reflexivity.
Qed.

Lemma cut_char_nil (c : ascii) : Py.cut (String c "") "" = None.
Proof. reflexivity. Qed.

Lemma cut_char_Some (c : ascii) (s a b : string) :
  Py.cut (String c "") s = Some (a, b) →
  s = a +:+ String c b ∧ has_char c a = false.
Proof.
  revert a. induction s as [|x s IH]; intros a Hcut; [discriminate|].
  rewrite cut_char_step in Hcut. destruct (Ascii.eqb c x) eqn:Ex.
  - apply Ascii.eqb_eq in Ex. inversion Hcut; subst. done.
  - destruct (Py.cut (String c "") s) as [[a' b']|]; [|discriminate].
    inversion Hcut; subst. destruct (IH a' eq_refl) as [-> Ha].
    split; [by rewrite append_cons|]. cbn. by rewrite Ex, Ha.
Qed.

Lemma cut_char_None (c : ascii) (s : string) :
  Py.cut (String c "") s = None ↔ has_char c s = false.
Proof.
  induction s as [|x s IH]; [done|].
  rewrite cut_char_step. cbn [has_char]. destruct (Ascii.eqb c x); cbn; [done|].
  destruct (Py.cut (String c "") s) as [[a b]|]; [|tauto].
  split; [done|]. intros Hc. apply IH in Hc. done.
Qed.

Lemma cut_char_has (c : ascii) (s : string) :
  has_char c s = true → ∃ a b, Py.cut (String c "") s = Some (a, b).
Proof.
  intros Hc. destruct (Py.cut (String c "") s) as [[a b]|] eqn:E; [eauto|].
  apply cut_char_None in E. congruence.
Qed.

(** [split] on a separator of one character, by the first occurrence. *)
Lemma split_char_step (c x : ascii) (s : string) :
  Py.split (String c "") (String x s)
  = if Ascii.eqb c x then "" :: Py.split (String c "") s
    else match Py.split (String c "") s with
         | piece :: rest => String x piece :: rest
         | [] => [String x ""]
         end.
Proof.
  unfold Py.split. cbn. rewrite andb_true_r. destruct (Ascii.eqb c x); reflexivity.
Qed.

Lemma split_char_cut (c : ascii) (s : string) :
  Py.split (String c "") s
  = match Py.cut (String c "") s with
    | Some (before, after) => before :: Py.split (String c "") after
    | None => [s]
    end.
Proof.
  induction s as [|x s IH]; [reflexivity|].
  rewrite split_char_step, cut_char_step. destruct (Ascii.eqb c x); [reflexivity|].
  rewrite IH. destruct (Py.cut (String c "") s) as [[a b]|]; reflexivity.
Qed.





End Strings.

(** ** The monad and the helpers of [slides/utils.py] *)

Section Runs.
Context (H : host).

Lemma bind_ok {A B} (m : M A) (k : A → M B) (w w' : world) (a : A) :
  m w = (Ok a, w') → (m ≫= k) w = k a w'.
Proof. unfold mbind, M_bind. by intros ->. Qed.

Lemma bind_raise {A B} (m : M A) (k : A → M B) (w w' : world) (e : exn) :
  m w = (Raise e, w') → (m ≫= k) w = (Raise e, w').
Proof. unfold mbind, M_bind. by intros ->. Qed.

Lemma ret_ok {A} (a : A) (w : world) : (mret a : M A) w = (Ok a, w).
Proof. reflexivity. Qed.

Lemma events_nil (w : world) : events w [] = w.
Proof. destruct w. unfold events. cbn. by rewrite app_nil_r. Qed.

Lemma events_events (w : world) (es es' : list event) :
  events (events w es) es' = events w (es ++ es').
Proof. unfold events. cbn. by rewrite app_assoc. Qed.

Lemma log_ok (e : event) (w : world) : log e w = (Ok tt, events w [e]).
Proof. reflexivity. Qed.

Lemma path_exists_ok (path : string) (w : world) :
  path_exists path w = (Ok (bool_decide (is_Some (files w !! path))), w).
Proof. reflexivity. Qed.

Lemma add_picture_run (s : slide) (path : string) (left top width height : Q)
    (w : world) :
  add_picture H s path left top width height w
  = (match files w !! path with
     | Some (Blob bytes) =>
         if image_ok H bytes
         then Ok (add_shape s (Picture path left top width height))
         else Raise ImageError
     | _ => Raise ImageError
     end, w).
Proof.
  unfold add_picture, read_files, mbind, M_bind.
  destruct (files w !! path) as [[bytes|d]|]; [destruct (image_ok H bytes)| |];
    reflexivity.
Qed.

Lemma try_except_ok {A} (body : M A) (handler : exn → M A) (w w' : world) (a : A) :
  body w = (Ok a, w') → try_except body handler w = (Ok a, w').
Proof. unfold try_except. by intros ->. Qed.

Lemma try_except_raise {A} (body : M A) (handler : exn → M A) (w w' : world)
    (e : exn) :
  body w = (Raise e, w') → try_except body handler w = handler e w'.
Proof. unfold try_except. by intros ->. Qed.

Lemma set_slide_background_ok (prs : presentation) (s : slide)
    (path : option string) (w : world) :
  set_slide_background H prs s path w
  = (Ok (with_background H (files w) (slide_width prs) (slide_height prs) s path,
         image_loads H (files w) path),
     events w [EvBackground path]).
Proof.
  unfold set_slide_background, with_background, image_loads.
  erewrite bind_ok by apply log_ok.
  destruct path as [p|]; cbn [default]; [|reflexivity].
  destruct (Py.truthy p) eqn:Ep; cbn [andb]; [|reflexivity].
  erewrite bind_ok by apply path_exists_ok.
  set (w1 := events w [EvBackground (Some p)]).
  change (files w1) with (files w).
  pose proof (add_picture_run s p 0 0 (slide_width prs) (slide_height prs) w1) as Hap.
  change (files w1) with (files w) in Hap.
  destruct (files w !! p) as [c|] eqn:Ef.
  - rewrite bool_decide_true by eauto.
    destruct c as [bytes|d]; [destruct (image_ok H bytes)|].
    + erewrite bind_ok; cycle 1.
      { apply try_except_ok. erewrite bind_ok by exact Hap. reflexivity. }
      reflexivity.
    + erewrite bind_ok; cycle 1.
      { erewrite try_except_raise; cycle 1.
        { erewrite bind_raise by exact Hap. reflexivity. }
        reflexivity. }
      reflexivity.
    + erewrite bind_ok; cycle 1.
      { erewrite try_except_raise; cycle 1.
        { erewrite bind_raise by exact Hap. reflexivity. }
        reflexivity. }
      reflexivity.
  - rewrite bool_decide_false by (intros [? ?]; congruence). reflexivity.
Qed.

Lemma add_placeholder_image_ok (s : slide) (file : string) (w : world) :
  add_placeholder_image H s file w = (Ok (with_placeholder H (files w) s file), w).
Proof.
  unfold add_placeholder_image, with_placeholder.
  erewrite bind_ok by apply path_exists_ok.
  destruct (bool_decide _); reflexivity.
Qed.

(** A slide builder starts from the blank slide, sets the background and
    adds the placeholder: one call of [set_slide_background] is recorded. *)
Lemma base_slide_ok {A} (prs : presentation) (path : option string) (file : string)
    (k : slide → M A) (w : world) :
  ('(s, _) ← set_slide_background H prs blank_slide path;
   s ← add_placeholder_image H s file; k s) w
  = k (base_slide H (files w) (slide_width prs) (slide_height prs) path file)
      (events w [EvBackground path]).
Proof.
  erewrite bind_ok by apply set_slide_background_ok. cbv beta iota.
  erewrite bind_ok by apply add_placeholder_image_ok. reflexivity.
Qed.

End Runs.

Section UtilsRuns.
Context (H : host).

Lemma split_second (data : string) :
  Py.contains "," data = true →
  Py.split "," data !! 1%nat = Some (decoded_text data).
Proof.
  rewrite contains_char. intros Hc.
  destruct (cut_char_has _ _ Hc) as (a & b & Hcut).
  unfold decoded_text. rewrite split_char_cut, Hcut. cbn [lookup list_lookup].
  rewrite split_char_cut. destruct (Py.cut "," b) as [[piece rest]|]; reflexivity.
Qed.

Lemma decoded_text_no_comma (data : string) :
  Py.contains "," data = false → decoded_text data = data.
Proof.
  rewrite contains_char. intros Hc. apply cut_char_None in Hc.
  unfold decoded_text. by rewrite Hc.
Qed.

Lemma NamedTemporaryFile_ok (prefix suffix : string) (w : world) :
  NamedTemporaryFile H prefix suffix w
  = (Ok (temp_name H (files w) prefix suffix),
     {| files := <[temp_name H (files w) prefix suffix := Blob ""]> (files w);
        trace := trace w ++ [EvTempFile (temp_name H (files w) prefix suffix)] |}).
Proof. reflexivity. Qed.

Lemma process_background_image_ok (data : string) (w : world) :
  Py.truthy data = true →
  process_background_image H (Some data) w
  = (Ok (resolved_path H w data), resolved_world H w data).
Proof.
  intros Ht. unfold process_background_image, resolved_path, resolved_world.
  rewrite Ht. cbn [negb].
  assert (Hp : (if Py.contains "," data
                then match Py.split "," data !! 1%nat with
                     | Some piece => mret piece
                     | None => raise IndexError
                     end
                else mret data) w = (Ok (decoded_text data), w)).
  { destruct (Py.contains "," data) eqn:Ec.
    - by rewrite split_second.
    - by rewrite decoded_text_no_comma. }
  destruct (b64decode H (decoded_text data)) as [bytes|] eqn:Ed.
  - apply try_except_ok.
    erewrite bind_ok by exact Hp. erewrite bind_ok by apply log_ok.
    rewrite Ed. erewrite bind_ok by apply ret_ok.
    erewrite bind_ok by apply NamedTemporaryFile_ok.
    unfold write_file, mbind, M_bind, mret, M_ret, events. cbn.
    rewrite insert_insert_eq. rewrite <- app_assoc. reflexivity.
  - erewrite try_except_raise; [reflexivity|].
    erewrite bind_ok by exact Hp. erewrite bind_ok by apply log_ok.
    rewrite Ed. reflexivity.
Qed.

Lemma cleanup_temp_file_ok (path : option string) (w : world) :
  cleanup_temp_file H path w = (Ok tt, cleaned H w path).
Proof.
  unfold cleanup_temp_file, cleaned, removable.
  destruct path as [p|]; [|reflexivity].
  destruct (Py.truthy p); [|reflexivity]. cbn [andb default].
  erewrite bind_ok by apply path_exists_ok.
  destruct (bool_decide (is_Some (files w !! p))); cbn [andb]; [|reflexivity].
  destruct (Py.contains "tmp" p || Py.startswith (gettempdir H) p); reflexivity.
Qed.

Lemma save_presentation_ok (prs : presentation) (out : string) (w : world) :
  save_presentation prs out w
  = (Ok out, {| files := <[out := Deck prs]> (files w);
                trace := trace w ++ [EvSave out] |}).
Proof. reflexivity. Qed.

(** The head of every pipeline. *)
Lemma resolve_ok (background_image : option string) (w : world) :
  (if Py.given background_image
   then process_background_image H background_image
   else mret None) w
  = (Ok (resolved H w background_image).2, (resolved H w background_image).1).
Proof.
  unfold resolved, Py.given. destruct background_image as [data|]; [|reflexivity].
  destruct (Py.truthy data) eqn:Et; [|reflexivity].
  by rewrite process_background_image_ok.
Qed.

(** The tail of every pipeline. *)
Lemma cleanup_ok (background_image path : option string) (w : world) :
  (if Py.given background_image then cleanup_temp_file H path else mret tt) w
  = (Ok tt, if Py.given background_image then cleaned H w path else w).
Proof.
  destruct (Py.given background_image); [apply cleanup_temp_file_ok | reflexivity].
Qed.

Lemma extend_nil (prs : presentation) : extend prs [] = prs.
Proof. destruct prs. unfold extend. cbn. by rewrite app_nil_r. Qed.

Lemma extend_extend (prs : presentation) (a b : list slide) :
  extend (extend prs a) b = extend prs (a ++ b).
Proof. unfold extend. cbn. by rewrite app_assoc. Qed.

Lemma add_slide_extend (prs : presentation) (s : slide) :
  add_slide prs s = extend prs [s].
Proof. reflexivity. Qed.

(** A loop whose every step appends the slides [emit x] to the deck, counts
    them, and records one call of [set_slide_background] for each. *)
Lemma foldM_slides {A} (body : presentation * nat → A → M (presentation * nat))
    (emit : A → list slide) (path : option string) (fs : gmap string content)
    (l : list A) :
  (∀ x ss c w, x ∈ l → files w = fs →
     body (extend empty_deck ss, c) x w
     = (Ok (extend empty_deck (ss ++ emit x), (c + length (emit x))%nat),
        events w (replicate (length (emit x)) (EvBackground path)))) →
  ∀ ss c w, files w = fs →
    foldM body (extend empty_deck ss, c) l w
    = (Ok (extend empty_deck (ss ++ flat_map emit l),
           (c + length (flat_map emit l))%nat),
       events w (replicate (length (flat_map emit l)) (EvBackground path))).
Proof.
  induction l as [|x l IH]; intros Hbody ss c w Hfs.
  - cbn. rewrite app_nil_r, Nat.add_0_r, events_nil. reflexivity.
  - cbn [foldM flat_map].
    erewrite bind_ok by (apply Hbody; [left | exact Hfs]).
    rewrite IH; [| intros; apply Hbody; [by right | done] | exact Hfs].
    rewrite events_events, <- replicate_add, <- app_assoc, length_app.
    by rewrite Nat.add_assoc.
Qed.

End UtilsRuns.

(** ** The scripture pipeline *)

Section ScriptureRuns.
Context (H : host).

Lemma files_events (w : world) (es : list event) : files (events w es) = files w.
Proof. reflexivity. Qed.

Lemma verse_slide_ok (ss : list slide) (ref : Scripture.reference)
    (path : option string) (verse_num : option Z) (text : string)
    (label : option string) (w : world) :
  Scripture.verse_slide H (extend empty_deck ss) ref path verse_num text label w
  = (Ok (extend empty_deck
           (ss ++ [scripture_slide H (files w) path ref verse_num text label])),
     events w [EvBackground path]).
Proof.
  unfold Scripture.verse_slide. rewrite base_slide_ok.
  rewrite add_slide_extend, extend_extend. reflexivity.
Qed.

Lemma single_step_ok (ref : Scripture.reference) (path : option string)
    (ss : list slide) (c : nat) (v : Scripture.verse_entry) (w : world) :
  Scripture.single_step H ref path (extend empty_deck ss, c) v w
  = (Ok (extend empty_deck (ss ++ single_slides H (files w) path ref v),
         (c + length (single_slides H (files w) path ref v))%nat),
     events w (replicate (length (single_slides H (files w) path ref v))
                 (EvBackground path))).
Proof.
  unfold Scripture.single_step, single_slides.
  destruct (Py.truthy (Scripture.stripped_text v)); cbn [negb length replicate].
  - erewrite bind_ok by apply verse_slide_ok. by rewrite Nat.add_1_r.
  - by rewrite app_nil_r, Nat.add_0_r, events_nil.
Qed.

Lemma combined_step_ok (ref : Scripture.reference) (path : option string)
    (verse_map : gmap Z Scripture.texts) (ss : list slide) (c : nat)
    (verse_num : Z) (w : world) :
  is_Some (verse_map !! verse_num) →
  Scripture.combined_step H ref path verse_map (extend empty_deck ss, c) verse_num w
  = (Ok (extend empty_deck
           (ss ++ combined_slides H (files w) path ref verse_map verse_num),
         (c + length (combined_slides H (files w) path ref verse_map verse_num))%nat),
     events w
       (replicate (length (combined_slides H (files w) path ref verse_map verse_num))
          (EvBackground path))).
Proof.
  intros [t Ht]. unfold Scripture.combined_step, combined_slides. rewrite Ht.
  erewrite bind_ok by apply ret_ok.
  destruct (Py.truthy (Scripture.nrsvue t)), (Py.truthy (Scripture.tmb t)).
  - erewrite bind_ok; cycle 1.
    { erewrite bind_ok by apply verse_slide_ok. reflexivity. }
    cbv beta iota. erewrite bind_ok by apply verse_slide_ok.
    rewrite events_events, <- app_assoc. cbn [app length replicate].
    by rewrite Nat.add_comm.
  - erewrite bind_ok; cycle 1.
    { erewrite bind_ok by apply verse_slide_ok. reflexivity. }
    cbv beta iota. cbn [app length replicate]. by rewrite Nat.add_1_r.
  - erewrite bind_ok by apply ret_ok. cbv beta iota.
    erewrite bind_ok by apply verse_slide_ok.
    cbn [app length replicate]. by rewrite Nat.add_1_r.
  - erewrite bind_ok by apply ret_ok. cbv beta iota.
    cbn [app length replicate]. by rewrite app_nil_r, Nat.add_0_r, events_nil.
Qed.

Lemma elem_of_sorted_keys (verse_map : gmap Z Scripture.texts) (n : Z) :
  n ∈ Scripture.sorted_keys verse_map ↔ is_Some (verse_map !! n).
Proof.
  unfold Scripture.sorted_keys. rewrite merge_sort_Permutation.
  rewrite list_elem_of_fmap. split.
  - intros [[k t] [-> Hkt]]. apply elem_of_map_to_list in Hkt. eauto.
  - intros [t Ht]. exists (n, t). split; [reflexivity|].
    by apply elem_of_map_to_list.
Qed.

(** The run of the scripture pipeline, in full. *)
Lemma create_scripture_slides_ok (ref : Scripture.reference)
    (verses : list Scripture.verse_entry) (out : string)
    (background_image : option string)
    (verses_alt : option (list Scripture.verse_entry)) (w : world) :
  let w1 := (resolved H w background_image).1 in
  let path := (resolved H w background_image).2 in
  let deck := scripture_deck H (files w1) path ref verses verses_alt in
  Scripture.create_scripture_slides H ref verses out background_image verses_alt w
  = (Ok ("Created " +:+ Py.str_of_nat (length deck) +:+ " scripture slides"),
     finished H w1 background_image path deck out).
Proof.
  intros w1 path deck. unfold Scripture.create_scripture_slides.
  erewrite bind_ok by apply resolve_ok. fold w1 path.
  assert (Hloop :
    match verses_alt with
    | Some (v :: alt) =>
        foldM (Scripture.combined_step H ref path
                 (Scripture.alternate_map (Scripture.primary_map verses) (v :: alt)))
          (create_presentation 13.33 7.5, 0%nat)
          (Scripture.sorted_keys
             (Scripture.alternate_map (Scripture.primary_map verses) (v :: alt)))
    | _ => foldM (Scripture.single_step H ref path)
             (create_presentation 13.33 7.5, 0%nat) verses
    end w1
    = (Ok (extend empty_deck deck, length deck),
       events w1 (replicate (length deck) (EvBackground path)))).
  { change (create_presentation 13.33 7.5) with (extend empty_deck []).
    subst deck. unfold scripture_deck, verse_map_of.
    destruct verses_alt as [[|v alt]|].
    - refine (foldM_slides _ (single_slides H (files w1) path ref) path (files w1)
                verses _ [] 0%nat w1 eq_refl).
      intros x ss c w' _ <-. apply single_step_ok.
    - refine (foldM_slides _ (combined_slides H (files w1) path ref _) path (files w1)
                _ _ [] 0%nat w1 eq_refl).
      intros x ss c w' Hx <-. apply combined_step_ok. by apply elem_of_sorted_keys.
    - refine (foldM_slides _ (single_slides H (files w1) path ref) path (files w1)
                verses _ [] 0%nat w1 eq_refl).
      intros x ss c w' _ <-. apply single_step_ok. }
  erewrite bind_ok by exact Hloop. cbv beta iota.
  erewrite bind_ok by apply cleanup_ok.
  erewrite bind_ok by apply save_presentation_ok.
  reflexivity.
Qed.

End ScriptureRuns.

(** ** The hymn pipeline *)

Section HymnRuns.
Context (H : host).

Lemma flat_map_enumerate {A B} (f : A → list B) (l : list A) :
  flat_map (λ item : nat * A, f item.2) (enumerate l) = flat_map f l.
Proof.
  unfold enumerate. generalize 0%nat.
  induction l as [|x l IH]; intros k; [reflexivity|].
  cbn [length seq zip zip_with flat_map snd]. by rewrite IH.
Qed.

Lemma flat_map_fragments {B} (g : string → B) (l : list string) :
  flat_map (λ t, if Py.truthy (Py.strip t) then [g (Py.strip t)] else []) l
  = map g (filter (λ t, Py.truthy t = true) (map Py.strip l)).
Proof.
  induction l as [|t l IH]; [reflexivity|].
  cbn [flat_map map]. rewrite filter_cons, IH.
  destruct (decide (Py.truthy (Py.strip t) = true)) as [E|E].
  - by rewrite E.
  - apply not_true_is_false in E. by rewrite E.
Qed.

Lemma add_hymn_cover_slide_ok (d : Hymn.hymn_data) (path : option string) (w : world) :
  Hymn.add_hymn_cover_slide H empty_deck d path w
  = (Ok (extend empty_deck [hymn_cover H (files w) path d]),
     events w [EvBackground path]).
Proof.
  unfold Hymn.add_hymn_cover_slide.
  erewrite bind_ok by apply set_slide_background_ok. reflexivity.
Qed.

Lemma add_hymn_slide_ok (ss : list slide) (d : Hymn.hymn_data)
    (slide_text page_name : string) (verse_num slide_in_verse total : nat)
    (path : option string) (w : world) :
  Hymn.add_hymn_slide H (extend empty_deck ss) d slide_text page_name verse_num
    slide_in_verse total path w
  = (Ok (extend empty_deck (ss ++ [hymn_slide H (files w) path d page_name slide_text])),
     events w [EvBackground path]).
Proof.
  unfold Hymn.add_hymn_slide. rewrite base_slide_ok.
  rewrite add_slide_extend, extend_extend. reflexivity.
Qed.

Lemma fragment_step_ok (d : Hymn.hymn_data) (page_name : string)
    (verse_idx total : nat) (path : option string) (ss : list slide) (c : nat)
    (item : nat * string) (w : world) :
  Hymn.fragment_step H d page_name verse_idx total path (extend empty_deck ss, c) item w
  = (Ok (extend empty_deck (ss ++ fragment_slides H (files w) path d page_name item),
         (c + length (fragment_slides H (files w) path d page_name item))%nat),
     events w
       (replicate (length (fragment_slides H (files w) path d page_name item))
          (EvBackground path))).
Proof.
  destruct item as [slide_idx slide_text].
  unfold Hymn.fragment_step, fragment_slides. cbn [snd].
  destruct (Py.truthy (Py.strip slide_text)); cbn [negb length replicate].
  - erewrite bind_ok by apply add_hymn_slide_ok. by rewrite Nat.add_1_r.
  - by rewrite app_nil_r, Nat.add_0_r, events_nil.
Qed.

Lemma section_slides_fragments (fs : gmap string content) (path : option string)
    (d : Hymn.hymn_data) (l : Hymn.lyric) :
  flat_map (fragment_slides H fs path d (default "" (Hymn.page_name l)))
    (enumerate (Py.split "<br>" (default "" (Hymn.text l))))
  = section_slides H fs path d l.
Proof.
  unfold fragment_slides, section_slides, fragments.
  rewrite (flat_map_enumerate
             (λ t, if Py.truthy (Py.strip t)
                   then [hymn_slide H fs path d (default "" (Hymn.page_name l))
                           (Py.strip t)]
                   else [])).
  apply flat_map_fragments.
Qed.

Lemma section_step_ok (d : Hymn.hymn_data) (path : option string) (ss : list slide)
    (c : nat) (item : nat * Hymn.lyric) (w : world) :
  Hymn.section_step H d path (extend empty_deck ss, c) item w
  = (Ok (extend empty_deck (ss ++ section_slides H (files w) path d item.2),
         (c + length (section_slides H (files w) path d item.2))%nat),
     events w
       (replicate (length (section_slides H (files w) path d item.2))
          (EvBackground path))).
Proof.
  destruct item as [verse_idx l]. unfold Hymn.section_step. cbn [snd].
  rewrite <- section_slides_fragments.
  refine (foldM_slides _ (fragment_slides H (files w) path d _) path (files w)
            _ _ ss c w eq_refl).
  intros x ss' c' w' _ <-. apply fragment_step_ok.
Qed.

(** The run of the hymn pipeline, in full. *)
Lemma create_hymn_slides_ok (d : Hymn.hymn_data) (out : string)
    (background_image : option string) (include_cover : bool) (w : world) :
  let w1 := (resolved H w background_image).1 in
  let path := (resolved H w background_image).2 in
  let deck := hymn_deck H (files w1) path d include_cover in
  Hymn.create_hymn_slides H d out background_image include_cover w
  = (Ok (hymn_message d include_cover (length deck)),
     finished H w1 background_image path deck out).
Proof.
  intros w1 path deck. unfold Hymn.create_hymn_slides.
  erewrite bind_ok by apply resolve_ok. fold w1 path.
  set (cover := if include_cover then [hymn_cover H (files w1) path d] else []).
  assert (Hcover :
    (if include_cover
     then prs' ← Hymn.add_hymn_cover_slide H (create_presentation 13.33 7.5) d path;
          mret (prs', 1%nat)
     else mret (create_presentation 13.33 7.5, 0%nat)) w1
    = (Ok (extend empty_deck cover, length cover),
       events w1 (replicate (length cover) (EvBackground path)))).
  { subst cover. destruct include_cover.
    - change (create_presentation 13.33 7.5) with empty_deck.
      erewrite bind_ok by apply add_hymn_cover_slide_ok. reflexivity.
    - by rewrite events_nil. }
  erewrite bind_ok by exact Hcover. cbv beta iota.
  assert (Hloop :
    foldM (Hymn.section_step H d path) (extend empty_deck cover, length cover)
      (enumerate (Hymn.lyrics d))
      (events w1 (replicate (length cover) (EvBackground path)))
    = (Ok (extend empty_deck deck, length deck),
       events w1 (replicate (length deck) (EvBackground path)))).
  { rewrite (foldM_slides _ (λ item, section_slides H (files w1) path d item.2) path
               (files w1) (enumerate (Hymn.lyrics d))); [|intros x ss c w' _ <-;
               apply section_step_ok | reflexivity].
    rewrite (flat_map_enumerate (section_slides H (files w1) path d)).
    subst deck. unfold hymn_deck, lyric_slides. fold cover.
    rewrite events_events, <- replicate_add, <- length_app. reflexivity. }
  erewrite bind_ok by exact Hloop. cbv beta iota.
  erewrite bind_ok by apply cleanup_ok.
  erewrite bind_ok by apply save_presentation_ok.
  unfold hymn_message. destruct include_cover; reflexivity.
Qed.

End HymnRuns.

(** ** The call-to-worship pipeline *)

Section WorshipRuns.
Context (H : host).

Lemma add_call_to_worship_slide_ok (ss : list slide) (p : CallToWorship.pair)
    (path : option string) (w : world) :
  CallToWorship.add_call_to_worship_slide H (extend empty_deck ss)
    (CallToWorship.Leader p) (CallToWorship.People p) path w
  = (Ok (extend empty_deck (ss ++ [worship_slide_of H (files w) path p])),
     events w [EvBackground path]).
Proof.
  unfold CallToWorship.add_call_to_worship_slide. rewrite base_slide_ok.
  rewrite add_slide_extend, extend_extend. reflexivity.
Qed.

Lemma worship_loop_ok (path : option string) (pairs_list : list CallToWorship.pair)
    (ss : list slide) (w : world) :
  foldM (λ prs p,
           CallToWorship.add_call_to_worship_slide H prs (CallToWorship.Leader p)
             (CallToWorship.People p) path)
    (extend empty_deck ss) pairs_list w
  = (Ok (extend empty_deck (ss ++ map (worship_slide_of H (files w) path) pairs_list)),
     events w (replicate (length pairs_list) (EvBackground path))).
Proof.
  revert ss w. induction pairs_list as [|p l IH]; intros ss w.
  - cbn. by rewrite app_nil_r, events_nil.
  - cbn [foldM map length replicate].
    erewrite bind_ok by apply add_call_to_worship_slide_ok.
    rewrite IH, events_events, <- app_assoc. reflexivity.
Qed.

(** The run of the call-to-worship pipeline, in full. *)
Lemma create_call_to_worship_slides_ok (pairs_list : list CallToWorship.pair)
    (out : string) (background_image : option string) (w : world) :
  let w1 := (resolved H w background_image).1 in
  let path := (resolved H w background_image).2 in
  let deck := map (worship_slide_of H (files w1) path) pairs_list in
  CallToWorship.create_call_to_worship_slides_from_dict H pairs_list out
    background_image w
  = (Ok ("Created " +:+ Py.str_of_nat (length pairs_list)
         +:+ " Call to Worship slides"),
     finished H w1 background_image path deck out).
Proof.
  intros w1 path deck. unfold CallToWorship.create_call_to_worship_slides_from_dict.
  erewrite bind_ok by apply resolve_ok. fold w1 path.
  change (create_presentation 13.33 7.5) with (extend empty_deck []).
  erewrite bind_ok by apply worship_loop_ok. cbn [app].
  erewrite bind_ok by apply cleanup_ok.
  erewrite bind_ok by apply save_presentation_ok.
  unfold finished. subst deck. rewrite length_map. reflexivity.
Qed.

End WorshipRuns.



(** ** The font size of the verse text (C1) *)




(** The length is counted in characters, not in bytes: a text of letters
    below 128 has as many characters as bytes, and the Tongan verse of 100
    characters, which takes 106 bytes, is set in 58pt. *)
Lemma len_letters (n : nat) : Py.len (letters n) = n.
Proof.
  unfold Py.len. induction n as [|n IH]; [reflexivity|].
  cbn [letters Py.len_from]. change (Py.following_bytes "a") with 0%nat.
  cbn [Py.continued]. by rewrite IH.
Qed.

Lemma tongan_verse_in_58pt :
  Py.len Sample.still_waters = 100%nat
  ∧ String.length Sample.still_waters = 106%nat
  ∧ content_size
      (Scripture._add_verse_content blank_slide "PSA" 23 (Some 2) Sample.still_waters
         (Some "TMB"))
    = Some 58.
Proof. vm_compute. auto. Qed.

(** ** Replacing effects and highlights (C6) *)

Section Restyle.

Lemma filter_remove_all (test : xml → bool) (kids : list xml) :
  filter (λ child, test child = true) (remove_all test kids) = [].
Proof.
  unfold remove_all. induction kids as [|x kids IH]; [reflexivity|].
  rewrite filter_cons. destruct (decide (test x = false)) as [E|E].
  - rewrite filter_cons, decide_False by congruence. exact IH.
  - exact IH.
Qed.

Lemma remove_all_idem (test : xml → bool) (kids : list xml) :
  remove_all test (remove_all test kids) = remove_all test kids.
Proof.
  unfold remove_all. induction kids as [|x kids IH]; [reflexivity|].
  rewrite filter_cons. destruct (decide (test x = false)) as [E|E].
  - rewrite filter_cons, decide_True by done. by rewrite IH.
  - exact IH.
Qed.

Lemma remove_all_snoc_true (test : xml → bool) (kids : list xml) (x : xml) :
  test x = true → remove_all test (kids ++ [x]) = remove_all test kids.
Proof.
  intros E. unfold remove_all. rewrite filter_app, filter_cons, decide_False by congruence.
  rewrite filter_nil. apply app_nil_r.
Qed.

Lemma remove_all_snoc_false (test : xml → bool) (kids : list xml) (x : xml) :
  test x = false → remove_all test (kids ++ [x]) = remove_all test kids ++ [x].
Proof.
  intros E. unfold remove_all. by rewrite filter_app, filter_cons, decide_True.
Qed.

Lemma count_snoc (test : xml → bool) (r : run) (kids : list xml) (x : xml) :
  count_nodes test (with_rPr r (kids ++ [x]))
  = (length (filter (λ child, test child = true) kids)
     + (if test x then 1 else 0))%nat.
Proof.
  unfold count_nodes. cbn [rPr with_rPr]. rewrite filter_app, length_app, filter_cons.
  destruct (test x); [rewrite decide_True by done | rewrite decide_False by done];
    reflexivity.
Qed.

Lemma is_effectLst_effectLst parts : is_effectLst (effectLst parts) = true.
Proof. reflexivity. Qed.

Lemma is_highlight_highlight c : is_highlight (highlight c) = true.
Proof. reflexivity. Qed.

Lemma is_highlight_effectLst parts : is_highlight (effectLst parts) = false.
Proof. reflexivity. Qed.

Lemma is_effectLst_highlight c : is_effectLst (highlight c) = false.
Proof. reflexivity. Qed.

Lemma effect_parts_some_colour e : some_colour e = true → effect_parts e ≠ [].
Proof.
  unfold some_colour, effect_parts.
  destruct (glow_rgb e), (inner_shadow_rgb e), (outer_shadow_rgb e);
    cbn; congruence.
Qed.

Lemma set_run_effects_eq r e :
  some_colour e = true →
  set_run_effects r e
  = with_rPr r (remove_all is_effectLst (rPr r) ++ [effectLst (effect_parts e)]).
Proof.
  intros Hc. apply effect_parts_some_colour in Hc. unfold set_run_effects.
  destruct (effect_parts e); [congruence | reflexivity].
Qed.

(** One application leaves a single effect list, whatever the run held. *)
Lemma count_set_run_effects r e :
  some_colour e = true → count_nodes is_effectLst (set_run_effects r e) = 1%nat.
Proof.
  intros Hc. rewrite set_run_effects_eq by done.
  by rewrite count_snoc, filter_remove_all, is_effectLst_effectLst.
Qed.

Lemma count_set_run_highlight r c :
  count_nodes is_highlight (set_run_highlight r c) = 1%nat.
Proof.
  unfold set_run_highlight.
  by rewrite count_snoc, filter_remove_all, is_highlight_highlight.
Qed.

(** A second application changes nothing. *)
Lemma set_run_effects_twice r e :
  some_colour e = true →
  set_run_effects (set_run_effects r e) e = set_run_effects r e.
Proof.
  intros Hc. rewrite !set_run_effects_eq by done. cbn [rPr with_rPr].
  rewrite remove_all_snoc_true by apply is_effectLst_effectLst.
  by rewrite remove_all_idem.
Qed.

Lemma set_run_highlight_twice r c :
  set_run_highlight (set_run_highlight r c) c = set_run_highlight r c.
Proof.
  unfold set_run_highlight. cbn [rPr with_rPr].
  rewrite remove_all_snoc_true by apply is_highlight_highlight.
  by rewrite remove_all_idem.
Qed.

Lemma iter_idempotent {A} (f : A → A) (x : A) (n : nat) :
  (∀ y, f (f y) = f y) → (1 ≤ n)%nat → Nat.iter n f x = f x.
Proof.
  intros Hf Hn. induction n as [|n IH]; [lia|].
  destruct n as [|n]; [reflexivity|].
  change (Nat.iter (S (S n)) f x) with (f (Nat.iter (S n) f x)).
  rewrite IH by lia. apply Hf.
Qed.

(** No tag ends both ways, so the highlight does not touch the effect list,
    nor the effect list the highlight. *)
Lemma endswith_exclusive (p q t : string) :
  String.length p = String.length q → p ≠ q →
  Py.endswith p t = true → Py.endswith q t = false.
Proof.
  unfold Py.endswith. intros Hl Hne Hp.
  apply andb_true_iff in Hp as [_ Hp]. apply String.eqb_eq in Hp.
  apply andb_false_iff. right. apply String.eqb_neq.
  rewrite <- Hl, Hp. exact Hne.
Qed.

Lemma filter_remove_all_other (test other : xml → bool) (kids : list xml) :
  (∀ x, other x = true → test x = false) →
  filter (λ child, test child = true) (remove_all other kids)
  = filter (λ child, test child = true) kids.
Proof.
  intros Hx. unfold remove_all. induction kids as [|x kids IH]; [reflexivity|].
  rewrite !filter_cons. destruct (decide (other x = false)) as [E|E].
  - rewrite filter_cons. destruct (decide (test x = true)); by rewrite IH.
  - rewrite decide_False; [exact IH|].
    apply not_false_iff_true in E. apply Hx in E. congruence.
Qed.

Lemma count_effectLst_set_run_highlight r c :
  count_nodes is_effectLst (set_run_highlight r c) = count_nodes is_effectLst r.
Proof.
  unfold set_run_highlight. rewrite count_snoc, is_effectLst_highlight, Nat.add_0_r.
  unfold count_nodes. f_equal. apply filter_remove_all_other.
  intros x. unfold is_highlight, is_effectLst. by apply endswith_exclusive.
Qed.

Lemma count_highlight_set_run_effects r e :
  count_nodes is_highlight (set_run_effects r e) = count_nodes is_highlight r.
Proof.
  assert (Hk : length (filter (λ child, is_highlight child = true)
                         (remove_all is_effectLst (rPr r)))
               = count_nodes is_highlight r).
  { unfold count_nodes. f_equal. apply filter_remove_all_other.
    intros x. unfold is_highlight, is_effectLst. by apply endswith_exclusive. }
  unfold set_run_effects. destruct (effect_parts e) as [|part parts].
  - exact Hk.
  - by rewrite count_snoc, is_highlight_effectLst, Nat.add_0_r.
Qed.

(** C6: applying [set_run_effects] (with a colour given) or
    [set_run_highlight] any number [n >= 1] of times to a run, whatever its
    [a:rPr] held before, leaves exactly one effect list, respectively
    exactly one highlight, and yields the run of a single application;
    applying both, in turn and repeatedly, leaves exactly one of each. *)
Theorem restyle_idempotent (r : run) (e : effects) (c : rgb) (n : nat) :
  some_colour e = true →
  (1 ≤ n)%nat →
  let effects_n := Nat.iter n (λ r', set_run_effects r' e) r in
  let highlight_n := Nat.iter n (λ r', set_run_highlight r' c) r in
  let both_n := Nat.iter n (λ r', set_run_highlight (set_run_effects r' e) c) r in
  count_nodes is_effectLst effects_n = 1%nat
  ∧ effects_n = set_run_effects r e
  ∧ count_nodes is_highlight highlight_n = 1%nat
  ∧ highlight_n = set_run_highlight r c
  ∧ count_nodes is_effectLst both_n = 1%nat
  ∧ count_nodes is_highlight both_n = 1%nat.
Proof.
  intros Hc Hn effects_n highlight_n both_n.
  assert (He : effects_n = set_run_effects r e).
  { apply (iter_idempotent (λ r', set_run_effects r' e) r n); [|done].
    intros y. by apply set_run_effects_twice. }
  assert (Hh : highlight_n = set_run_highlight r c).
  { apply (iter_idempotent (λ r', set_run_highlight r' c) r n); [|done].
    intros y. apply set_run_highlight_twice. }
  assert (Hb : ∃ r', both_n = set_run_highlight (set_run_effects r' e) c).
  { subst both_n. destruct n as [|n]; [lia|]. eexists. reflexivity. }
  destruct Hb as [r' Hb].
  repeat split.
  - rewrite He. by apply count_set_run_effects.
  - exact He.
  - rewrite Hh. apply count_set_run_highlight.
  - exact Hh.
  - rewrite Hb, count_effectLst_set_run_highlight. by apply count_set_run_effects.
  - rewrite Hb. apply count_set_run_highlight.
Qed.

(** The theorem at a run that already carries two effect lists and a
    highlight, after three applications. *)
Lemma restyle_idempotent_witness :
  let r := add_run_highlight
             (add_run_outer_shadow (add_run_glow (new_run "People: ") white None 6)
                white 2.0 0.5 0)
             yellow in
  let e := CallToWorship.people_effects 6 in
  count_nodes is_effectLst r = 2%nat
  ∧ count_nodes is_effectLst (Nat.iter 3 (λ r', set_run_effects r' e) r) = 1%nat
  ∧ count_nodes is_highlight (Nat.iter 3 (λ r', set_run_highlight r' yellow) r) = 1%nat.
Proof.
  intros r e. split; [reflexivity|].
  pose proof (restyle_idempotent r e yellow 3 eq_refl ltac:(lia)) as Hw.
  cbv zeta in Hw. destruct Hw as (H1 & _ & H3 & _). split; [exact H1 | exact H3].
Defined.

End Restyle.

(** ** The scripture deck (C4, C3) *)

Section ScriptureDeck.
Context (H : host).

Lemma files_finished (w1 : world) (background_image path : option string)
    (deck : list slide) (out : string) :
  files (finished H w1 background_image path deck out) !! out
  = Some (Deck (extend empty_deck deck)).
Proof. unfold finished. cbn [files]. apply lookup_insert_eq. Qed.

Lemma slides_extend_empty (deck : list slide) :
  slides (extend empty_deck deck) = deck.
Proof. reflexivity. Qed.

Lemma length_single_slides (fs : gmap string content) (path : option string)
    (ref : Scripture.reference) (verses : list Scripture.verse_entry) :
  length (flat_map (single_slides H fs path ref) verses)
  = length (filter has_text verses).
Proof.
  induction verses as [|v verses IH]; [reflexivity|].
  cbn [flat_map]. rewrite length_app, filter_cons, IH.
  unfold single_slides, Scripture.stripped_text.
  destruct (decide (has_text v)) as [Ht|Ht]; unfold has_text in Ht.
  - by rewrite Ht.
  - apply not_true_is_false in Ht. by rewrite Ht.
Qed.

(** C4: without an alternate translation (none, or an empty list), the
    deck saved at the output path has one slide for each verse whose text is
    not blank, and the message reports that number. *)
Theorem single_translation_slide_count (ref : Scripture.reference)
    (verses : list Scripture.verse_entry) (out : string)
    (background_image : option string) (w : world) :
  let n := length (filter has_text verses) in
  let run_with := λ verses_alt,
    ∃ w' prs,
      Scripture.create_scripture_slides H ref verses out background_image verses_alt w
      = (Ok ("Created " +:+ Py.str_of_nat n +:+ " scripture slides"), w')
      ∧ files w' !! out = Some (Deck prs)
      ∧ length (slides prs) = n in
  run_with None ∧ run_with (Some []).
Proof.
  intros n run_with. subst run_with. cbv beta.
  split; eexists _, _; rewrite create_scripture_slides_ok;
    (split; [|split; [apply files_finished|]]);
    rewrite ?slides_extend_empty; unfold scripture_deck;
    rewrite ?length_single_slides; reflexivity.
Qed.

(** *** Combined mode *)

Lemma primary_map_lookup_from (m0 : gmap Z Scripture.texts)
    (verses : list Scripture.verse_entry) (n : Z) :
  foldl (λ verse_map v,
           match Scripture.usable_verse v with
           | Some verse_num =>
               <[verse_num := {| Scripture.nrsvue := Scripture.stripped_text v;
                                 Scripture.tmb := "" |}]> verse_map
           | None => verse_map
           end) m0 verses !! n
  = match last_text verses n with
    | Some t => Some {| Scripture.nrsvue := t; Scripture.tmb := "" |}
    | None => m0 !! n
    end.
Proof.
  revert m0. induction verses as [|v verses IH]; intros m0; [reflexivity|].
  cbn [foldl last_text]. rewrite IH.
  destruct (last_text verses n) as [t|]; [reflexivity|].
  destruct (Scripture.usable_verse v) as [k|] eqn:Ek.
  - destruct (decide (Some k = Some n)) as [E|E].
    + inversion E; subst. by rewrite lookup_insert_eq.
    + rewrite lookup_insert_ne; [reflexivity | congruence].
  - by rewrite decide_False.
Qed.

Lemma primary_map_lookup (verses : list Scripture.verse_entry) (n : Z) :
  Scripture.primary_map verses !! n
  = (λ t, {| Scripture.nrsvue := t; Scripture.tmb := "" |}) <$> last_text verses n.
Proof.
  unfold Scripture.primary_map. rewrite primary_map_lookup_from.
  destruct (last_text verses n); [reflexivity | apply lookup_empty].
Qed.

Lemma alternate_map_lookup (m : gmap Z Scripture.texts)
    (verses_alt : list Scripture.verse_entry) (n : Z) :
  Scripture.alternate_map m verses_alt !! n
  = (λ t, {| Scripture.nrsvue := Scripture.nrsvue t;
             Scripture.tmb := default (Scripture.tmb t) (last_text verses_alt n) |})
    <$> m !! n.
Proof.
  revert m. induction verses_alt as [|v alt IH]; intros m.
  - cbn. destruct (m !! n) as [[a b]|]; reflexivity.
  - unfold Scripture.alternate_map in *. cbn [foldl last_text]. rewrite IH. clear IH.
    destruct (Scripture.usable_verse v) as [k|] eqn:Ek.
    + destruct (decide (Some k = Some n)) as [E|E].
      * inversion E; subst k. destruct (m !! n) as [t|] eqn:Em.
        -- rewrite lookup_insert_eq. cbn. by destruct (last_text alt n).
        -- rewrite Em. reflexivity.
      * assert (Hm : (match m !! k with
                      | Some t =>
                          <[k := {| Scripture.nrsvue := Scripture.nrsvue t;
                                    Scripture.tmb := Scripture.stripped_text v |}]> m
                      | None => m
                      end) !! n = m !! n).
        { destruct (m !! k); [|reflexivity].
          rewrite lookup_insert_ne; [reflexivity | congruence]. }
        rewrite Hm. destruct (m !! n) as [t|]; [|reflexivity].
        cbn. by destruct (last_text alt n).
    + rewrite decide_False by done. destruct (m !! n) as [t|]; [|reflexivity].
      cbn. by destruct (last_text alt n).
Qed.

(** The verse map holds exactly the verse numbers of the primary list, each
    with the last text of either list. *)
Lemma verse_map_of_lookup (verses verses_alt : list Scripture.verse_entry) (n : Z) :
  verse_map_of verses verses_alt !! n
  = (λ t, {| Scripture.nrsvue := t;
             Scripture.tmb := default "" (last_text verses_alt n) |})
    <$> last_text verses n.
Proof.
  unfold verse_map_of. rewrite alternate_map_lookup, primary_map_lookup.
  by destruct (last_text verses n).
Qed.

Lemma last_text_is_Some (vs : list Scripture.verse_entry) (n : Z) :
  is_Some (last_text vs n)
  ↔ n ≠ 0 ∧ ∃ v, v ∈ vs ∧ Scripture.verse v = Some n.
Proof.
  assert (Hu : ∀ v, Scripture.usable_verse v = Some n
                    ↔ n ≠ 0 ∧ Scripture.verse v = Some n).
  { intros v. unfold Scripture.usable_verse.
    destruct (Scripture.verse v) as [k|]; [|split; [done | by intros [_ ?]]].
    case_bool_decide as Hk.
    - split; [done|]. intros [Hn E]. congruence.
    - split; [intros E; split; congruence | by intros [_ ?]]. }
  induction vs as [|v vs IH]; cbn [last_text].
  - split; [by intros [? ?] | intros (_ & v & Hv & _); by apply elem_of_nil in Hv].
  - destruct (last_text vs n) as [t|].
    + split; [|eauto]. intros _. destruct IH as [IH _].
      destruct (IH (mk_is_Some _ _ eq_refl)) as (Hn & v' & Hv' & E).
      split; [done|]. exists v'. split; [by right | done].
    + destruct (decide (Scripture.usable_verse v = Some n)) as [E|E].
      * split; [|eauto]. intros _. apply Hu in E as [Hn E].
        split; [done|]. exists v. split; [by left | done].
      * split; [by intros [? ?]|]. intros (Hn & v' & Hv' & E').
        apply elem_of_cons in Hv' as [->|Hv'].
        -- exfalso. apply E, Hu. done.
        -- apply IH. eauto.
Qed.

Lemma StronglySorted_le_lt (l : list Z) :
  StronglySorted Z.le l → NoDup l → StronglySorted Z.lt l.
Proof.
  induction 1 as [|x l Hs IH Hall]; intros Hnd; [constructor|].
  apply NoDup_cons in Hnd as [Hx Hnd]. constructor; [by apply IH|].
  apply Forall_forall. intros y Hy.
  assert (Hle : x ≤ y). { rewrite Forall_forall in Hall. by apply Hall. }
  assert (Hne : x ≠ y). { intros E. apply Hx. by rewrite E. }
  lia.
Qed.

Lemma sorted_keys_ascending (verse_map : gmap Z Scripture.texts) :
  StronglySorted Z.lt (Scripture.sorted_keys verse_map).
Proof.
  apply StronglySorted_le_lt.
  - apply StronglySorted_merge_sort; apply _.
  - unfold Scripture.sorted_keys. rewrite merge_sort_Permutation.
    apply NoDup_fst_map_to_list.
Qed.

Lemma flat_map_ext_elem {A B} (f g : A → list B) (l : list A) :
  (∀ x, x ∈ l → f x = g x) → flat_map f l = flat_map g l.
Proof.
  induction l as [|x l IH]; intros Hfg; [reflexivity|].
  cbn [flat_map]. rewrite Hfg by left. rewrite IH; [reflexivity|].
  intros y Hy. apply Hfg. by right.
Qed.

(** C3: with an alternate translation, the deck saved at the output path is
    laid out along the verse numbers [keys] of the primary list, in strictly
    ascending order; each number gives the slide of the primary translation
    (when that text is not blank), then the slide of the alternate one (when
    that text is not blank); a number that only the alternate list has is
    not among [keys] and gives no slide. *)
Theorem combined_mode_order (ref : Scripture.reference)
    (verses : list Scripture.verse_entry) (first_alt : Scripture.verse_entry)
    (more_alt : list Scripture.verse_entry) (out : string)
    (background_image : option string) (w : world) :
  let verses_alt := first_alt :: more_alt in
  let fs := files (resolved H w background_image).1 in
  let path := (resolved H w background_image).2 in
  let translation := λ (n : Z) (label : string) (text : option string),
    if Py.truthy (default "" text)
    then [scripture_slide H fs path ref (Some n) (default "" text) (Some label)]
    else [] in
  ∃ w' prs keys,
    Scripture.create_scripture_slides H ref verses out background_image
      (Some verses_alt) w
    = (Ok ("Created " +:+ Py.str_of_nat (length (slides prs)) +:+ " scripture slides"),
       w')
    ∧ files w' !! out = Some (Deck prs)
    ∧ StronglySorted Z.lt keys
    ∧ (∀ n, n ∈ keys ↔ n ≠ 0 ∧ ∃ v, v ∈ verses ∧ Scripture.verse v = Some n)
    ∧ slides prs
      = flat_map (λ n, translation n "NRSVUE" (last_text verses n)
                       ++ translation n "TMB" (last_text verses_alt n))
          keys
    ∧ (∀ n, last_text verses n = None → n ∉ keys).
Proof.
  intros verses_alt fs path translation.
  set (m := verse_map_of verses verses_alt).
  assert (Hkeys : ∀ n, n ∈ Scripture.sorted_keys m ↔ is_Some (last_text verses n)).
  { intros n. rewrite elem_of_sorted_keys. subst m. rewrite verse_map_of_lookup.
    by rewrite fmap_is_Some. }
  exists (finished H (resolved H w background_image).1 background_image path
            (scripture_deck H fs path ref verses (Some verses_alt)) out),
    (extend empty_deck (scripture_deck H fs path ref verses (Some verses_alt))),
    (Scripture.sorted_keys m).
  rewrite create_scripture_slides_ok.
  split; [reflexivity|]. split; [apply files_finished|].
  split; [apply sorted_keys_ascending|].
  split; [intros n; by rewrite Hkeys, last_text_is_Some|].
  split.
  - rewrite slides_extend_empty. unfold scripture_deck. fold verses_alt m fs path.
    apply flat_map_ext_elem. intros n Hn. apply Hkeys in Hn as [t Ht].
    unfold combined_slides. subst m. rewrite verse_map_of_lookup, Ht.
    subst translation. cbn [fmap option_fmap option_map default Scripture.nrsvue
                              Scripture.tmb].
    reflexivity.
  - intros n Hn Hin. apply Hkeys in Hin as [t Ht]. congruence.
Qed.

End ScriptureDeck.

(** ** The hymn deck (C5, C8) *)

Section HymnDeck.
Context (H : host).

Lemma length_flat_map {A B} (f : A → list B) (l : list A) :
  length (flat_map f l) = sum_list (map (λ x, length (f x)) l).
Proof.
  induction l as [|x l IH]; [reflexivity|].
  cbn [flat_map map sum_list sum_list_with]. by rewrite length_app, IH.
Qed.

Lemma length_lyric_slides (fs : gmap string content) (path : option string)
    (d : Hymn.hymn_data) :
  length (lyric_slides H fs path d)
  = sum_list (map (λ l, length (fragments l)) (Hymn.lyrics d)).
Proof.
  unfold lyric_slides. rewrite length_flat_map. f_equal.
  apply map_ext. intros l. unfold section_slides. by rewrite length_map.
Qed.

(** C5: the deck saved at the output path is the cover slide, when it is
    requested, followed by the lyric slides, and the number of lyric slides
    is the sum over the sections of the number of their fragments that are
    not blank. *)
Theorem hymn_slide_count (d : Hymn.hymn_data) (out : string)
    (background_image : option string) (include_cover : bool) (w : world) :
  let fs := files (resolved H w background_image).1 in
  let path := (resolved H w background_image).2 in
  ∃ w' prs lyric_part,
    Hymn.create_hymn_slides H d out background_image include_cover w
    = (Ok (hymn_message d include_cover (length (slides prs))), w')
    ∧ files w' !! out = Some (Deck prs)
    ∧ slides prs
      = (if include_cover then [hymn_cover H fs path d] else []) ++ lyric_part
    ∧ length lyric_part
      = sum_list (map (λ l, length (fragments l)) (Hymn.lyrics d)).
Proof.
  intros fs path.
  exists (finished H (resolved H w background_image).1 background_image path
            (hymn_deck H fs path d include_cover) out),
    (extend empty_deck (hymn_deck H fs path d include_cover)),
    (lyric_slides H fs path d).
  rewrite create_hymn_slides_ok.
  split; [reflexivity|]. split; [apply files_finished|].
  split; [reflexivity | apply length_lyric_slides].
Qed.

Lemma create_temp_file_ok (suffix : string) (w : world) :
  create_temp_file H suffix w
  = (Ok (temp_name H (files w) "tmp_" suffix),
     {| files := <[temp_name H (files w) "tmp_" suffix := Blob ""]> (files w);
        trace := trace w ++ [EvTempFile (temp_name H (files w) "tmp_" suffix)] |}).
Proof. reflexivity. Qed.

(** C8: the endpoint asks for the cover.  Every request is answered with a
    file; the deck saved there begins with the cover slide, the lyric slides
    follow, and the message of [create_hymn_slides] reports one slide more
    than the [k] lyric slides. *)
Theorem hymn_endpoint_cover_first (data : Hymn.request) (w : world) :
  let d := Hymn.hymn_info data in
  let k := sum_list (map (λ l, length (fragments l)) (Hymn.lyrics d)) in
  ∃ out filename w0 w' prs cover lyric_part,
    Hymn.generate_hymn_slides_endpoint H data w
    = (Ok (FileResponse out filename pptx_media_type), w')
    ∧ create_temp_file H ".pptx" w = (Ok out, w0)
    ∧ Hymn.create_hymn_slides H d out (Hymn.background_image data) true w0
      = (Ok ("Created " +:+ Py.str_of_nat (1 + k) +:+ " slides for " +:+ Hymn.title d
             +:+ " (1 cover + " +:+ Py.str_of_nat k +:+ " hymn slides)"), w')
    ∧ files w' !! out = Some (Deck prs)
    ∧ slides prs = cover :: lyric_part
    ∧ cover
      = hymn_cover H (files (resolved H w0 (Hymn.background_image data)).1)
          (resolved H w0 (Hymn.background_image data)).2 d
    ∧ length lyric_part = k
    ∧ length (slides prs) = (1 + k)%nat.
Proof.
  intros d k.
  set (out := temp_name H (files w) "tmp_" ".pptx").
  set (w0 := {| files := <[out := Blob ""]> (files w);
                trace := trace w ++ [EvTempFile out] |}).
  set (bg := Hymn.background_image data).
  set (fs := files (resolved H w0 bg).1).
  set (path := (resolved H w0 bg).2).
  assert (Hlen : length (hymn_deck H fs path d true) = (1 + k)%nat).
  { unfold hymn_deck. cbn [app length]. by rewrite length_lyric_slides. }
  assert (Hrun : Hymn.create_hymn_slides H d out bg true w0
                 = (Ok ("Created " +:+ Py.str_of_nat (1 + k) +:+ " slides for "
                        +:+ Hymn.title d +:+ " (1 cover + " +:+ Py.str_of_nat k
                        +:+ " hymn slides)"),
                    finished H (resolved H w0 bg).1 bg path
                      (hymn_deck H fs path d true) out)).
  { rewrite create_hymn_slides_ok. fold fs path. rewrite Hlen.
    unfold hymn_message. by rewrite Nat.add_1_l, Nat.sub_succ, Nat.sub_0_r. }
  eexists out, _, w0, _, (extend empty_deck (hymn_deck H fs path d true)),
    (hymn_cover H fs path d), (lyric_slides H fs path d).
  split.
  { unfold Hymn.generate_hymn_slides_endpoint. apply try_except_ok.
    erewrite bind_ok by apply create_temp_file_ok. fold out w0.
    erewrite bind_ok by exact Hrun. reflexivity. }
  split; [reflexivity|]. split; [exact Hrun|].
  split; [apply files_finished|]. split; [reflexivity|]. split; [reflexivity|].
  split; [apply length_lyric_slides | exact Hlen].
Qed.

End HymnDeck.

(** ** The call-to-worship slide and the free text (C10, C9) *)

Section WorshipDeck.
Context (H : host).

Lemma content_paragraphs_worship_slide (leader_text people_text : string) (s : slide) :
  map (λ p, map run_text (runs p))
    (content_paragraphs (CallToWorship.worship_slide leader_text people_text s))
  = [["Leader: "; leader_text]; ["People: "; people_text]].
Proof.
  unfold content_paragraphs, CallToWorship.worship_slide, add_shape.
  cbn [shapes]. rewrite last_snoc. reflexivity.
Qed.

Lemma body_runs_worship_slide (leader_text people_text : string) (s : slide) :
  body_runs (CallToWorship.worship_slide leader_text people_text s) 0
  = ["Leader: "; leader_text]
  ∧ body_runs (CallToWorship.worship_slide leader_text people_text s) 1
    = ["People: "; people_text].
Proof.
  pose proof (content_paragraphs_worship_slide leader_text people_text s) as Hc.
  unfold body_runs.
  destruct (content_paragraphs (CallToWorship.worship_slide leader_text people_text s))
    as [|p1 [|p2 [|p3 ps]]]; try discriminate Hc.
  cbn in Hc. inversion Hc. split; reflexivity.
Qed.

(** When the trimmed value starts with the role prefix, whatever the case
    of its letters, [sanitize] drops the value up to its first colon, and
    the white space after it. *)
Lemma sanitize_prefixed (prefix value : string) :
  has_char ":" prefix = true →
  Py.startswith prefix (Py.lower (Py.strip value)) = true →
  ∃ pre suf,
    value = pre +:+ ":" +:+ suf
    ∧ has_char ":" pre = false
    ∧ CallToWorship.sanitize prefix value = Py.lstrip suf.
Proof.
  intros Hp Hs.
  assert (Hc : has_char ":" value = true).
  { apply has_char_strip. rewrite <- has_colon_lower.
    by apply (has_char_startswith _ prefix). }
  destruct (cut_char_has _ _ Hc) as (pre & suf & Hcut).
  exists pre, suf. destruct (cut_char_Some _ _ _ _ Hcut) as [Hv Hpre].
  split; [exact Hv|]. split; [exact Hpre|].
  unfold CallToWorship.sanitize, CallToWorship.after_first_colon, Py.split1.
  rewrite Hs. change ":" with (String ":" ""). rewrite Hcut. reflexivity.
Qed.

Lemma sanitize_other (prefix value : string) :
  Py.startswith prefix (Py.lower (Py.strip value)) = false →
  CallToWorship.sanitize prefix value = value.
Proof. intros Hs. unfold CallToWorship.sanitize. by rewrite Hs. Qed.

(** C10: on the slide added for a pair, the Leader paragraph is the label
    ["Leader: "] followed by one run of text, and likewise for People.  When
    the Leader value, trimmed and in lower case, starts with ["leader:"],
    that text is the value without everything up to and including its first
    colon (and without the white space that follows); otherwise it is the
    value itself.  The same holds for the People value and ["people:"]. *)
Theorem role_prefix_stripped (prs : presentation) (leader_text people_text : string)
    (path : option string) (w : world) :
  ∃ s w',
    CallToWorship.add_call_to_worship_slide H prs leader_text people_text path w
    = (Ok (add_slide prs s), w')
    ∧ (∃ shown, body_runs s 0 = ["Leader: "; shown] ∧ leader_line s = Some shown)
    ∧ (∃ shown, body_runs s 1 = ["People: "; shown] ∧ people_line s = Some shown)
    ∧ (Py.startswith "leader:" (Py.lower (Py.strip leader_text)) = true →
       ∃ pre suf,
         leader_text = pre +:+ ":" +:+ suf
         ∧ has_char ":" pre = false
         ∧ leader_line s = Some (Py.lstrip suf))
    ∧ (Py.startswith "people:" (Py.lower (Py.strip people_text)) = true →
       ∃ pre suf,
         people_text = pre +:+ ":" +:+ suf
         ∧ has_char ":" pre = false
         ∧ people_line s = Some (Py.lstrip suf))
    ∧ (Py.startswith "leader:" (Py.lower (Py.strip leader_text)) = false →
       leader_line s = Some leader_text)
    ∧ (Py.startswith "people:" (Py.lower (Py.strip people_text)) = false →
       people_line s = Some people_text).
Proof.
  eexists _, _. split.
  { unfold CallToWorship.add_call_to_worship_slide. rewrite base_slide_ok.
    reflexivity. }
  match goal with
  | |- context [body_runs (CallToWorship.worship_slide ?l ?p ?s) 0] =>
      destruct (body_runs_worship_slide l p s) as [Hl Hp]
  end.
  unfold leader_line, people_line. rewrite Hl, Hp. cbn [lookup list_lookup].
  split; [eauto|]. split; [eauto|].
  split.
  { intros Hs. destruct (sanitize_prefixed "leader:" leader_text eq_refl Hs)
      as (pre & suf & Hv & Hpre & Hsan).
    exists pre, suf. by rewrite Hsan. }
  split.
  { intros Hs. destruct (sanitize_prefixed "people:" people_text eq_refl Hs)
      as (pre & suf & Hv & Hpre & Hsan).
    exists pre, suf. by rewrite Hsan. }
  split; intros Hs; by rewrite sanitize_other.
Qed.

(** *** The free text *)

Lemma startswith_cons (c x : ascii) (p s : string) :
  Py.startswith (String c p) (String x s) = Ascii.eqb c x && Py.startswith p s.
Proof. reflexivity. Qed.

Lemma leader_not_people (s : string) :
  Py.startswith "leader:" s = true → Py.startswith "people:" s = false.
Proof.
  destruct s as [|x s]; [discriminate|].
  change "leader:" with (String "l" "eader:").
  change "people:" with (String "p" "eople:").
  rewrite !startswith_cons. intros Hl. apply andb_true_iff in Hl as [Hl _].
  apply Ascii.eqb_eq in Hl. subst x. reflexivity.
Qed.

Lemma parse_lines_from (lines : list string) (leader people : string) :
  foldl CallToWorship.parse_step (leader, people) lines
  = (default leader (last_match "leader:" lines),
     default people (last_match "people:" lines)).
Proof.
  revert leader people. induction lines as [|line lines IH]; intros leader people.
  - reflexivity.
  - cbn [foldl last_match]. unfold CallToWorship.parse_step at 2.
    destruct (Py.startswith "leader:" (Py.lower (Py.strip line))) eqn:El.
    + rewrite (leader_not_people _ El), IH.
      destruct (last_match "leader:" lines), (last_match "people:" lines);
        reflexivity.
    + destruct (Py.startswith "people:" (Py.lower (Py.strip line))) eqn:Ep;
        rewrite IH;
        destruct (last_match "leader:" lines), (last_match "people:" lines);
        reflexivity.
Qed.

Lemma pairs_of_text_eq (text : string) :
  CallToWorship.pairs_of_text text = [pair_of_text text].
Proof.
  unfold CallToWorship.pairs_of_text, CallToWorship.parse_lines, pair_of_text.
  rewrite parse_lines_from.
  destruct (Py.truthy (default "" (last_match "leader:" (Py.split Py.newline text)))
            || Py.truthy (default "" (last_match "people:" (Py.split Py.newline text))));
    reflexivity.
Qed.

(** C9, as the code has it: a request without pairs and with a free text
    that is not empty is answered with a file whose deck has exactly one
    slide, the slide of one pair.  When the text kept from the last
    ["leader:"] line or from the last ["people:"] line is not empty, the pair
    holds these two texts.  Otherwise, and so whenever no line starts with
    either prefix, the whole text is the Leader value and the People value
    is empty. *)
Theorem free_text_one_slide (request : CallToWorship.CallToWorshipRequest)
    (text : string) (w : world) :
  default [] (CallToWorship.pairs request) = [] →
  CallToWorship.text request = Some text →
  Py.truthy text = true →
  let lines := Py.split Py.newline text in
  let leader := default "" (last_match "leader:" lines) in
  let people := default "" (last_match "people:" lines) in
  ∃ out w0 w' prs p,
    CallToWorship.generate_call_to_worship_endpoint H request w
    = (Ok (FileResponse out "call_to_worship.pptx" pptx_media_type), w')
    ∧ create_temp_file H ".pptx" w = (Ok out, w0)
    ∧ files w' !! out = Some (Deck prs)
    ∧ slides prs
      = [worship_slide_of H
           (files (resolved H w0 (CallToWorship.background_image request)).1)
           (resolved H w0 (CallToWorship.background_image request)).2 p]
    ∧ (Py.truthy leader || Py.truthy people = true →
       p = {| CallToWorship.Leader := leader; CallToWorship.People := people |})
    ∧ (Py.truthy leader || Py.truthy people = false →
       p = {| CallToWorship.Leader := text; CallToWorship.People := "" |})
    ∧ (last_match "leader:" lines = None → last_match "people:" lines = None →
       p = {| CallToWorship.Leader := text; CallToWorship.People := "" |}).
Proof.
  intros Hpairs Htext Htruthy lines leader people.
  set (out := temp_name H (files w) "tmp_" ".pptx").
  set (w0 := {| files := <[out := Blob ""]> (files w);
                trace := trace w ++ [EvTempFile out] |}).
  set (bg := CallToWorship.background_image request).
  eexists out, w0, _, _, (pair_of_text text).
  split.
  { unfold CallToWorship.generate_call_to_worship_endpoint. apply try_except_ok.
    cbv zeta. rewrite Hpairs, Htext. cbn [default from_option id]. rewrite Htruthy.
    cbn [negb].
    erewrite bind_ok by apply ret_ok.
    erewrite bind_ok by apply create_temp_file_ok. fold out w0.
    erewrite bind_ok by apply create_call_to_worship_slides_ok.
    reflexivity. }
  split; [reflexivity|]. split; [apply files_finished|].
  split; [by rewrite slides_extend_empty, pairs_of_text_eq|].
  unfold pair_of_text. fold lines leader people.
  split; [by intros ->|]. split; [by intros ->|].
  intros Hl Hp. subst leader people. rewrite Hl, Hp. reflexivity.
Qed.

End WorshipDeck.

(** ** The background picture (C7, C2) *)

Section Background.
Context (H : host).

Lemma cut_char_first (c : ascii) (header rest : string) :
  has_char c header = false →
  Py.cut (String c "") (header +:+ String c rest) = Some (header, rest).
Proof.
  induction header as [|x header IH]; intros Hh.
  - rewrite append_nil_l, cut_char_step, Ascii.eqb_refl. reflexivity.
  - cbn [has_char] in Hh. apply orb_false_iff in Hh as [Hx Hh].
    rewrite append_cons, cut_char_step, Hx, IH by done. reflexivity.
Qed.

(** What is decoded from a payload with a header: the text after the first
    comma, as far as the next comma. *)
Lemma decoded_text_header (header rest : string) :
  has_char "," header = false →
  ∃ piece more,
    rest = piece +:+ more
    ∧ has_char "," piece = false
    ∧ (more = "" ∨ ∃ tail, more = "," +:+ tail)
    ∧ decoded_text (header +:+ "," +:+ rest) = piece.
Proof.
  intros Hh. unfold decoded_text.
  change (header +:+ "," +:+ rest) with (header +:+ String "," rest).
  change "," with (String "," "").
  rewrite (cut_char_first _ _ _ Hh).
  destruct (Py.cut (String "," "") rest) as [[piece tail]|] eqn:Ecut.
  - destruct (cut_char_Some _ _ _ _ Ecut) as [-> Hp].
    exists piece, (String "," tail). repeat split; [done|]. right. by exists tail.
  - exists rest, "". apply cut_char_None in Ecut.
    split; [by rewrite append_nil_r|]. split; [done|]. split; [by left | done].
Qed.

Lemma truthy_append_cons (a b : string) (c : ascii) :
  Py.truthy (a +:+ String c b) = true.
Proof. destruct a; reflexivity. Qed.

Lemma truthy_temp_name (fs : gmap string content) (prefix suffix : string) :
  Py.truthy (temp_name H fs prefix suffix) = true.
Proof. unfold temp_name. apply truthy_append_cons. Qed.

(** *** Every slide on the white background *)

Lemma background_add_shape (s : slide) (sh : shape) :
  background (add_shape s sh) = background s.
Proof. reflexivity. Qed.

Lemma background_base_slide_None (fs : gmap string content) (width height : Q)
    (file : string) :
  background (base_slide H fs width height None file) = Some white.
Proof.
  unfold base_slide, with_placeholder, with_background. cbn [image_loads].
  destruct (bool_decide _); reflexivity.
Qed.

Lemma scripture_deck_white (fs : gmap string content) (ref : Scripture.reference)
    (verses : list Scripture.verse_entry)
    (verses_alt : option (list Scripture.verse_entry)) :
  Forall (λ s, background s = Some white) (scripture_deck H fs None ref verses verses_alt).
Proof.
  assert (Hs : ∀ n t l, background (scripture_slide H fs None ref n t l) = Some white).
  { intros. unfold scripture_slide, Scripture._add_verse_content.
    rewrite !background_add_shape. apply background_base_slide_None. }
  assert (Hflat : ∀ {A} (f : A → list slide) (l : list A),
             (∀ x, Forall (λ s, background s = Some white) (f x)) →
             Forall (λ s, background s = Some white) (flat_map f l)).
  { intros A f l Hf. induction l as [|x l IH]; [constructor|].
    cbn [flat_map]. apply Forall_app. by split. }
  unfold scripture_deck. destruct verses_alt as [[|v alt]|]; apply Hflat.
  - intros x. unfold single_slides. destruct (Py.truthy _); repeat constructor.
    apply Hs.
  - intros x. unfold combined_slides. destruct (_ !! x) as [t|]; [|constructor].
    apply Forall_app. split.
    + destruct (Py.truthy (Scripture.nrsvue t)); repeat constructor. apply Hs.
    + destruct (Py.truthy (Scripture.tmb t)); repeat constructor. apply Hs.
  - intros x. unfold single_slides. destruct (Py.truthy _); repeat constructor.
    apply Hs.
Qed.

Lemma hymn_deck_white (fs : gmap string content) (d : Hymn.hymn_data)
    (include_cover : bool) :
  Forall (λ s, background s = Some white) (hymn_deck H fs None d include_cover).
Proof.
  unfold hymn_deck. apply Forall_app. split.
  - destruct include_cover; repeat constructor.
  - unfold lyric_slides. induction (Hymn.lyrics d) as [|l ls IH]; [constructor|].
    cbn [flat_map]. apply Forall_app. split; [|exact IH].
    unfold section_slides. apply Forall_fmap, Forall_forall. intros t _.
    unfold hymn_slide, Hymn.lyric_slide. cbn [compose].
    rewrite !background_add_shape. apply background_base_slide_None.
Qed.

Lemma worship_deck_white (fs : gmap string content)
    (pairs_list : list CallToWorship.pair) :
  Forall (λ s, background s = Some white)
    (map (worship_slide_of H fs None) pairs_list).
Proof.
  apply Forall_fmap, Forall_forall. intros p _.
  unfold worship_slide_of, CallToWorship.worship_slide. cbn [compose].
  rewrite !background_add_shape. apply background_base_slide_None.
Qed.

(** C7: for every payload that is given, the text handed to the decoder
    leaves out the header: with a header that ends at the first comma, the
    decoded text starts right after that comma (and stops at a further comma,
    if there is one); without a comma the whole payload is decoded.  When
    decoding fails, [process_background_image] returns no path and does not
    raise; [set_slide_background] without a path fills the slide with white
    and returns [False]; and each of the three pipelines then still saves its
    deck, every slide of which has the white background. *)
Theorem background_resolution (data : string) (w : world) :
  Py.truthy data = true →
  (∀ header rest,
     data = header +:+ "," +:+ rest → has_char "," header = false →
     ∃ piece more,
       rest = piece +:+ more
       ∧ has_char "," piece = false
       ∧ (more = "" ∨ ∃ tail, more = "," +:+ tail)
       ∧ decoded_text data = piece)
  ∧ (has_char "," data = false → decoded_text data = data)
  ∧ (∀ bytes, b64decode H (decoded_text data) = Some bytes →
     ∃ w', process_background_image H (Some data) w
           = (Ok (Some (temp_name H (files w) "tmp" ".png")), w')
           ∧ files w' !! temp_name H (files w) "tmp" ".png" = Some (Blob bytes))
  ∧ (b64decode H (decoded_text data) = None →
     process_background_image H (Some data) w
     = (Ok None, events w [EvDecode (decoded_text data)])
     ∧ (∀ prs s w2,
          set_slide_background H prs s None w2
          = (Ok ({| background := Some white; shapes := shapes s |}, false),
             events w2 [EvBackground None]))
     ∧ (∀ ref verses out verses_alt, ∃ msg w' prs,
          Scripture.create_scripture_slides H ref verses out (Some data) verses_alt w
          = (Ok msg, w')
          ∧ files w' !! out = Some (Deck prs)
          ∧ Forall (λ s, background s = Some white) (slides prs))
     ∧ (∀ d out include_cover, ∃ msg w' prs,
          Hymn.create_hymn_slides H d out (Some data) include_cover w = (Ok msg, w')
          ∧ files w' !! out = Some (Deck prs)
          ∧ Forall (λ s, background s = Some white) (slides prs))
     ∧ (∀ pairs_list out, ∃ msg w' prs,
          CallToWorship.create_call_to_worship_slides_from_dict H pairs_list out
            (Some data) w
          = (Ok msg, w')
          ∧ files w' !! out = Some (Deck prs)
          ∧ Forall (λ s, background s = Some white) (slides prs))).
Proof.
  intros Ht.
  split; [intros header rest -> Hh; by apply decoded_text_header|].
  split; [intros Hc; apply decoded_text_no_comma; by rewrite contains_char|].
  split.
  { intros bytes Hb. eexists. rewrite process_background_image_ok by done.
    unfold resolved_path, resolved_world. rewrite Hb.
    split; [reflexivity|]. cbn [files]. apply lookup_insert_eq. }
  intros Hb.
  assert (Hres : resolved H w (Some data) = (events w [EvDecode (decoded_text data)], None)).
  { unfold resolved, resolved_world, resolved_path. by rewrite Ht, Hb. }
  split.
  { rewrite process_background_image_ok by done.
    unfold resolved_path, resolved_world. by rewrite Hb. }
  split; [intros; by rewrite set_slide_background_ok|].
  split; [|split].
  - intros ref verses out verses_alt. eexists _, _, _.
    rewrite create_scripture_slides_ok, Hres.
    split; [reflexivity|]. split; [apply files_finished|].
    rewrite slides_extend_empty. apply scripture_deck_white.
  - intros d out include_cover. eexists _, _, _.
    rewrite create_hymn_slides_ok, Hres.
    split; [reflexivity|]. split; [apply files_finished|].
    rewrite slides_extend_empty. apply hymn_deck_white.
  - intros pairs_list out. eexists _, _, _.
    rewrite create_call_to_worship_slides_ok, Hres.
    split; [reflexivity|]. split; [apply files_finished|].
    rewrite slides_extend_empty. apply worship_deck_white.
Qed.

(** *** The order of the calls *)

Lemma trace_finished (data : string) (deck : list slide) (out : string) (w : world) :
  Py.truthy data = true →
  trace (finished H (resolved H w (Some data)).1 (Some data)
           (resolved H w (Some data)).2 deck out)
  = trace w ++ lifecycle H w data (length deck) out.
Proof.
  intros Ht. unfold finished, resolved, lifecycle, resolved_world, resolved_path.
  rewrite Ht. cbn [Py.given]. rewrite Ht.
  destruct (b64decode H (decoded_text data)) as [bytes|]; cbn [fst snd].
  - set (p := temp_name H (files w) "tmp" ".png").
    unfold cleaned. cbn [files events]. cbn [trace events].
    assert (Hr : removable H (<[p := Blob bytes]> (files w)) (Some p) = true).
    { unfold removable, p. rewrite truthy_temp_name, lookup_insert_eq.
      rewrite bool_decide_true by eauto.
      unfold temp_name. rewrite startswith_append. by rewrite orb_true_r. }
    rewrite Hr. cbn [trace default from_option id].
    rewrite <- !app_assoc. reflexivity.
  - unfold cleaned. cbn [removable]. cbn [trace events].
    rewrite <- !app_assoc. reflexivity.
Qed.

(** C2, as the code has it: in each of the three pipelines, when a payload
    is given, the payload is resolved once, before the first slide; every
    slide's [set_slide_background] receives the one path that came out of it
    (or none, when decoding failed); after the last slide the temporary file
    is removed, when one was written; and the deck is saved last, after the
    removal.  The calls of a run are exactly those of [lifecycle]:
    [EvDecode], [EvTempFile], one [EvBackground] for each slide of the deck,
    [EvUnlink], [EvSave]. *)
Theorem background_lifecycle (data : string) (w : world) :
  Py.truthy data = true →
  (∀ ref verses out verses_alt, ∃ msg w' prs,
     Scripture.create_scripture_slides H ref verses out (Some data) verses_alt w
     = (Ok msg, w')
     ∧ files w' !! out = Some (Deck prs)
     ∧ trace w' = trace w ++ lifecycle H w data (length (slides prs)) out)
  ∧ (∀ d out include_cover, ∃ msg w' prs,
       Hymn.create_hymn_slides H d out (Some data) include_cover w = (Ok msg, w')
       ∧ files w' !! out = Some (Deck prs)
       ∧ trace w' = trace w ++ lifecycle H w data (length (slides prs)) out)
  ∧ (∀ pairs_list out, ∃ msg w' prs,
       CallToWorship.create_call_to_worship_slides_from_dict H pairs_list out
         (Some data) w
       = (Ok msg, w')
       ∧ files w' !! out = Some (Deck prs)
       ∧ trace w' = trace w ++ lifecycle H w data (length (slides prs)) out).
Proof.
  intros Ht. split; [|split].
  - intros ref verses out verses_alt. eexists _, _, _.
    rewrite create_scripture_slides_ok.
    split; [reflexivity|]. split; [apply files_finished|].
    rewrite slides_extend_empty. by apply trace_finished.
  - intros d out include_cover. eexists _, _, _.
    rewrite create_hymn_slides_ok.
    split; [reflexivity|]. split; [apply files_finished|].
    rewrite slides_extend_empty. by apply trace_finished.
  - intros pairs_list out. eexists _, _, _.
    rewrite create_call_to_worship_slides_ok.
    split; [reflexivity|]. split; [apply files_finished|].
    rewrite slides_extend_empty. by apply trace_finished.
Qed.

End Background.

(** ** The properties on the example host *)

(** The theorem of C2 at the psalm, with a picture given. *)
Lemma background_lifecycle_witness :
  Py.truthy Example.png_data_url = true
  ∧ ∃ msg w' prs,
      Scripture.create_scripture_slides Example.server Example.psalm_23
        [Example.shepherd] "/tmp/out.pptx" (Some Example.png_data_url) None
        Example.furnished_world
      = (Ok msg, w')
      ∧ files w' !! "/tmp/out.pptx" = Some (Deck prs)
      ∧ trace w'
        = trace Example.furnished_world
          ++ lifecycle Example.server Example.furnished_world Example.png_data_url
               (length (slides prs)) "/tmp/out.pptx".
Proof.
  split; [reflexivity|].
  exact (proj1 (background_lifecycle Example.server Example.png_data_url
                  Example.furnished_world eq_refl)
           Example.psalm_23 [Example.shepherd] "/tmp/out.pptx" None).
Defined.

(** C2, as stated, fails: the run of the psalm removes the temporary
    picture before it saves the deck; nothing is removed after the save. *)
Lemma removal_precedes_save :
  let w' :=
    (Scripture.create_scripture_slides Example.server Example.psalm_23
       [Example.shepherd] "/tmp/out.pptx" (Some Example.png_data_url) None
       Example.furnished_world).2 in
  trace w'
  = [EvDecode "iVBORw0KGgo="; EvTempFile "/tmp/tmpk3v9x61q.png";
     EvBackground (Some "/tmp/tmpk3v9x61q.png");
     EvUnlink "/tmp/tmpk3v9x61q.png"; EvSave "/tmp/out.pptx"]
  ∧ first_index is_unlink (trace w') = Some 3%nat
  ∧ first_index is_save (trace w') = Some 4%nat
  ∧ saved_before_removed (trace w') = false.
Proof. vm_compute. repeat split. Qed.

(** The theorem of C7 at a payload that cannot be decoded. *)
Lemma background_resolution_witness :
  Py.truthy Example.broken_data_url = true
  ∧ decoded_text Example.broken_data_url = "Q"
  ∧ b64decode Example.server (decoded_text Example.broken_data_url) = None
  ∧ process_background_image Example.server (Some Example.broken_data_url)
      Example.furnished_world
    = (Ok None, events Example.furnished_world [EvDecode "Q"]).
Proof.
  split; [reflexivity|]. split; [reflexivity|]. split; [reflexivity|].
  destruct (background_resolution Example.server Example.broken_data_url
              Example.furnished_world eq_refl) as (_ & _ & _ & Hfail).
  exact (proj1 (Hfail eq_refl)).
Defined.

(** The theorem of C9 at the free text "Leader: Rejoice / People: Amen":
    one slide, with the leader line "Rejoice" and the people line "Amen". *)
Lemma free_text_one_slide_witness :
  default [] (CallToWorship.pairs (Example.free_text_request Example.rejoice)) = []
  ∧ Py.truthy Example.rejoice = true
  ∧ ∃ out w' prs s,
      CallToWorship.generate_call_to_worship_endpoint Example.server
        (Example.free_text_request Example.rejoice) Example.furnished_world
      = (Ok (FileResponse out "call_to_worship.pptx" pptx_media_type), w')
      ∧ files w' !! out = Some (Deck prs)
      ∧ slides prs = [s]
      ∧ leader_line s = Some "Rejoice"
      ∧ people_line s = Some "Amen".
Proof.
  split; [reflexivity|]. split; [reflexivity|].
  destruct (free_text_one_slide Example.server
              (Example.free_text_request Example.rejoice) Example.rejoice
              Example.furnished_world eq_refl eq_refl eq_refl)
    as (out & w0 & w' & prs & p & Hrun & _ & Hfile & Hslides & Hp & _).
  rewrite (Hp eq_refl) in Hslides.
  exists out, w', prs. eexists.
  split; [exact Hrun|]. split; [exact Hfile|]. split; [exact Hslides|].
  unfold worship_slide_of, leader_line, people_line.
  match goal with
  | |- context [body_runs (CallToWorship.worship_slide ?l ?q ?s) 0] =>
      destruct (body_runs_worship_slide l q s) as [Hl Hq]
  end.
  rewrite Hl, Hq. split; reflexivity.
Defined.

(** C9, as stated, fails: in the text "Leader: / People:" both lines start
    with their prefix, yet the pair is not made of the texts kept from them;
    the whole text becomes the Leader value, and the slide shows "People:" as
    the leader line. *)
Lemma bare_roles_fall_back :
  let lines := Py.split Py.newline Example.bare_roles in
  last_match "leader:" lines = Some ""
  ∧ last_match "people:" lines = Some ""
  ∧ spec_pair_of_text Example.bare_roles
    = {| CallToWorship.Leader := ""; CallToWorship.People := "" |}
  ∧ CallToWorship.pairs_of_text Example.bare_roles
    = [{| CallToWorship.Leader := Example.bare_roles; CallToWorship.People := "" |}]
  ∧ CallToWorship.pairs_of_text Example.bare_roles
    ≠ [spec_pair_of_text Example.bare_roles]
  ∧ leader_line
      (worship_slide_of Example.server ∅ None
         {| CallToWorship.Leader := Example.bare_roles; CallToWorship.People := "" |})
    = Some "People:".
Proof.
  vm_compute. repeat split. intros E. discriminate E.
Qed.

(** C10 on a pair given with its role prefixes. *)
Example prefixed_pair_rendered :
  CallToWorship.sanitize "leader:" "  LEADER:  Rejoice" = "Rejoice"
  ∧ CallToWorship.sanitize "people:" "People: Amen: amen" = "Amen: amen"
  ∧ CallToWorship.sanitize "leader:" "The leader: speaks" = "The leader: speaks".
Proof. vm_compute. repeat split. Qed.

(** C5 and C8 on a hymn of two sections, the first in two fragments. *)
Example hymn_of_two_sections :
  let data :=
    {| Hymn.nested := None;
       Hymn.flat :=
         {| Hymn.f_title := Some "amazing grace"; Hymn.f_number := Some "378";
            Hymn.f_hymnal := Some "UMH"; Hymn.f_author := Some "John Newton, 1779";
            Hymn.f_composer := None; Hymn.f_tune_name := None;
            Hymn.f_text_copyright := None; Hymn.f_tune_copyright := None;
            Hymn.f_copyright := None;
            Hymn.f_lyrics :=
              Some [{| Hymn.page_name := Some "Verse 1";
                       Hymn.text := Some "Amazing grace<br>how sweet the sound<br> " |};
                    {| Hymn.page_name := Some "Verse 2";
                       Hymn.text := Some "'Twas grace" |}];
            Hymn.f_verses := None |};
       Hymn.background_image := None |} in
  let run := Hymn.generate_hymn_slides_endpoint Example.server data Example.empty_world in
  run.1 = Ok (FileResponse "/tmp/tmp_k3v9x61q.pptx" "hymn_umh_378.pptx" pptx_media_type)
  ∧ (∃ prs, files run.2 !! "/tmp/tmp_k3v9x61q.pptx" = Some (Deck prs)
            ∧ length (slides prs) = 4%nat).
Proof. vm_compute. split; [reflexivity|]. eexists. split; reflexivity. Qed.

(** * Further properties

    ** Text effects of [slides/utils.py] *)

Section Effects.

Lemma count_append_rPr (test : xml → bool) (r : run) (node : xml) :
  count_nodes test (append_rPr r node)
  = (count_nodes test r + (if test node then 1 else 0))%nat.
Proof. unfold append_rPr. by rewrite count_snoc. Qed.

Lemma add_run_glow_appends (r : run) (c : rgb) (scheme : option string) (pt : Q) :
  ∃ parts, add_run_glow r c scheme pt = append_rPr r (effectLst parts).
Proof.
  unfold add_run_glow. destruct scheme as [name|]; [destruct (Py.truthy name)|];
    eauto.
Qed.

Lemma map_count_append (test : xml → bool) (node : xml) (rs : list run) (k : nat) :
  test node = true →
  map (count_nodes test) (map (λ r, append_rPr r node) rs)
  = map (λ r, S (count_nodes test r)) rs.
Proof.
  intros E. rewrite map_map. apply map_ext. intros r.
  rewrite count_append_rPr, E. lia.
Qed.

(** X1: The helpers that append: [add_text_glow], [add_text_glow_scheme],
    [add_text_highlight] and [add_run_glow] never replace what is there.
    After [n] calls every run carries [n] more nodes of the kind (effect
    lists, or highlights) than before, and the texts of the runs are the
    same; so a second call doubles the glow, unlike [set_run_effects]. *)
Theorem appended_effects_accumulate (p : paragraph) (r : run) (radius : Z)
    (colour : rgb) (scheme : string) (use_scheme : option string) (pt : Q)
    (n : nat) :
  let glowing := Nat.iter n (λ q, add_text_glow q radius colour) p in
  let schemed := Nat.iter n (λ q, add_text_glow_scheme q scheme pt) p in
  let marked := Nat.iter n (λ q, add_text_highlight q colour) p in
  let single := Nat.iter n (λ x, add_run_glow x colour use_scheme pt) r in
  (map run_text (runs glowing) = map run_text (runs p)
   ∧ map (count_nodes is_effectLst) (runs glowing)
     = map (λ x, (count_nodes is_effectLst x + n)%nat) (runs p))
  ∧ (map run_text (runs schemed) = map run_text (runs p)
     ∧ map (count_nodes is_effectLst) (runs schemed)
       = map (λ x, (count_nodes is_effectLst x + n)%nat) (runs p))
  ∧ (map run_text (runs marked) = map run_text (runs p)
     ∧ map (count_nodes is_highlight) (runs marked)
       = map (λ x, (count_nodes is_highlight x + n)%nat) (runs p))
  ∧ (run_text single = run_text r
     ∧ count_nodes is_effectLst single = (count_nodes is_effectLst r + n)%nat).
Proof.
  assert (Hgen : ∀ (test : xml → bool) (node : xml) (f : paragraph → paragraph),
    test node = true →
    (∀ q, runs (f q) = map (λ x, append_rPr x node) (runs q)) →
    map run_text (runs (Nat.iter n f p)) = map run_text (runs p)
    ∧ map (count_nodes test) (runs (Nat.iter n f p))
      = map (λ x, (count_nodes test x + n)%nat) (runs p)).
  { intros test node f E Hf. induction n as [|k [IH1 IH2]].
    - split; [reflexivity|]. cbn. apply map_ext. intros x. lia.
    - rewrite Nat.iter_succ, Hf. split.
      + rewrite map_map. cbn [append_rPr with_rPr run_text]. exact IH1.
      + rewrite (map_count_append test node _ k E).
        rewrite <- (map_map (count_nodes test) S), IH2, map_map.
        apply map_ext. intros x. lia. }
  cbv zeta. repeat split.
  - eapply (Hgen is_effectLst); [apply is_effectLst_effectLst | reflexivity].
  - eapply (Hgen is_effectLst); [apply is_effectLst_effectLst | reflexivity].
  - eapply (Hgen is_effectLst); [apply is_effectLst_effectLst | reflexivity].
  - eapply (Hgen is_effectLst); [apply is_effectLst_effectLst | reflexivity].
  - eapply (Hgen is_highlight); [apply is_highlight_highlight | reflexivity].
  - eapply (Hgen is_highlight); [apply is_highlight_highlight | reflexivity].
  - clear Hgen. induction n as [|k IH]; [reflexivity|]. rewrite Nat.iter_succ.
    destruct (add_run_glow_appends
                (Nat.iter k (λ x, add_run_glow x colour use_scheme pt) r)
                colour use_scheme pt) as [parts ->].
    exact IH.
  - clear Hgen. induction n as [|k IH]; [cbn; lia|]. rewrite Nat.iter_succ.
    destruct (add_run_glow_appends
                (Nat.iter k (λ x, add_run_glow x colour use_scheme pt) r)
                colour use_scheme pt) as [parts ->].
    rewrite count_append_rPr, is_effectLst_effectLst, IH. lia.
Qed.

Lemma remove_all_remove_all_app (test : xml → bool) (kids : list xml) (x : xml) :
  test x = true →
  remove_all test (remove_all test kids ++ [x]) = remove_all test kids.
Proof.
  intros E. by rewrite remove_all_snoc_true, remove_all_idem.
Qed.

Lemma some_colour_false (e : effects) :
  some_colour e = false → effect_parts e = [].
Proof.
  unfold some_colour, effect_parts.
  destruct (glow_rgb e), (inner_shadow_rgb e), (outer_shadow_rgb e);
    cbn; congruence.
Qed.

(** X2: [set_run_effects] and [set_run_highlight] touch nothing but the nodes
    of their own kind: the other children of the run (fill, outline, and the
    highlight, resp. the effect list) stay, in their order, and so does the
    text.  A call of [set_run_effects] with no colour leaves no effect list
    at all; with a colour it leaves one. *)
Theorem restyle_keeps_the_rest (r : run) (e : effects) (c : rgb) :
  (remove_all is_effectLst (rPr (set_run_effects r e))
   = remove_all is_effectLst (rPr r)
   ∧ count_nodes is_effectLst (set_run_effects r e)
     = (if some_colour e then 1 else 0)%nat
   ∧ run_text (set_run_effects r e) = run_text r)
  ∧ (remove_all is_highlight (rPr (set_run_highlight r c))
     = remove_all is_highlight (rPr r)
     ∧ run_text (set_run_highlight r c) = run_text r).
Proof.
  split; [|split; [|reflexivity]].
  - destruct (some_colour e) eqn:Hc.
    + rewrite set_run_effects_eq by done. cbn [rPr with_rPr run_text].
      split; [|split; [|reflexivity]].
      * apply remove_all_remove_all_app, is_effectLst_effectLst.
      * by rewrite count_snoc, filter_remove_all, is_effectLst_effectLst.
    + unfold set_run_effects. rewrite (some_colour_false e Hc).
      cbn [rPr with_rPr run_text]. split; [|split; [|reflexivity]].
      * apply remove_all_idem.
      * unfold count_nodes. cbn [rPr with_rPr]. by rewrite filter_remove_all.
  - unfold set_run_highlight. cbn [rPr with_rPr].
    apply remove_all_remove_all_app, is_highlight_highlight.
Qed.

(** *** The hanging indent *)

Lemma get_set_attr_eq (key value : string) (attrs : list (string * string)) :
  get_attr key (set_attr key value attrs) = Some value.
Proof.
  induction attrs as [|[k v] attrs IH]; cbn.
  - by rewrite String.eqb_refl.
  - destruct (String.eqb k key) eqn:E; cbn.
    + by rewrite String.eqb_refl.
    + by rewrite E.
Qed.

Lemma get_set_attr_ne (key other value : string) (attrs : list (string * string)) :
  other ≠ key →
  get_attr other (set_attr key value attrs) = get_attr other attrs.
Proof.
  intros Hne. induction attrs as [|[k v] attrs IH]; cbn.
  - destruct (String.eqb key other) eqn:E; [|reflexivity].
    apply String.eqb_eq in E. congruence.
  - destruct (String.eqb k key) eqn:E; cbn.
    + apply String.eqb_eq in E. subst k.
      destruct (String.eqb key other) eqn:E'; [|reflexivity].
      apply String.eqb_eq in E'. congruence.
    + by rewrite IH.
Qed.

Lemma set_attr_twice (key v1 v2 : string) (attrs : list (string * string)) :
  set_attr key v2 (set_attr key v1 attrs) = set_attr key v2 attrs.
Proof.
  induction attrs as [|[k v] attrs IH]; cbn.
  - by rewrite String.eqb_refl.
  - destruct (String.eqb k key) eqn:E; cbn.
    + by rewrite String.eqb_refl.
    + by rewrite E, IH.
Qed.

Lemma set_attr_swap (k1 k2 v1 v2 : string) (attrs : list (string * string)) :
  k1 ≠ k2 → is_Some (get_attr k1 attrs) →
  set_attr k1 v1 (set_attr k2 v2 attrs) = set_attr k2 v2 (set_attr k1 v1 attrs).
Proof.
  intros Hne.
  assert (E12 : String.eqb k1 k2 = false) by (by apply String.eqb_neq).
  assert (E21 : String.eqb k2 k1 = false) by (apply String.eqb_neq; congruence).
  induction attrs as [|[k v] attrs IH]; intros H1.
  - by destruct H1.
  - cbn [set_attr get_attr] in *.
    destruct (String.eqb k k2) eqn:E2, (String.eqb k k1) eqn:E1.
    + apply String.eqb_eq in E1, E2. congruence.
    + cbn [set_attr]. rewrite ?E1, ?E2, ?E21. reflexivity.
    + cbn [set_attr]. rewrite ?E1, ?E2, ?E12. reflexivity.
    + cbn [set_attr]. rewrite ?E1, ?E2, IH by done. reflexivity.
Qed.

Lemma set_hanging_indent_eq (p : paragraph) (x : Q) (emu : Z) :
  Py.int_of_product x 914400 = Some emu →
  set_hanging_indent p x
  = with_pPr p
      (set_attr "indent" (Py.str_of_Z (- emu))
         (set_attr "marL" (Py.str_of_Z emu) (pPr_attrs p)))
      (pPr_kids p).
Proof. unfold set_hanging_indent. by intros ->. Qed.

(** X3: [set_hanging_indent] takes the left margin in EMU to be
    [int(left_inches * 914400)], the product computed in binary64 and cut
    towards zero.  It writes this number as [marL] and its negation as
    [indent], so that the first line starts at the edge; it leaves every
    other attribute, the children of [a:pPr] and the runs as they are; and a
    second call replaces the two values: the last call wins.  When the
    conversion raises, the paragraph is left as it was.  At the 2.2 inches of
    the routers the number is 2011680; at 0.57 inches it is 521207, one less
    than the exact product. *)
Theorem hanging_indent_overwrites (p : paragraph) (a b : Q) (key : string) :
  match Py.int_of_product b 914400 with
  | Some emu =>
      get_attr "marL" (pPr_attrs (set_hanging_indent p b)) = Some (Py.str_of_Z emu)
      ∧ get_attr "indent" (pPr_attrs (set_hanging_indent p b))
        = Some (Py.str_of_Z (- emu))
      ∧ (key ≠ "marL" → key ≠ "indent" →
         get_attr key (pPr_attrs (set_hanging_indent p b)) = get_attr key (pPr_attrs p))
      ∧ pPr_kids (set_hanging_indent p b) = pPr_kids p
      ∧ runs (set_hanging_indent p b) = runs p
      ∧ set_hanging_indent (set_hanging_indent p a) b = set_hanging_indent p b
  | None => set_hanging_indent p b = p
  end
  ∧ Py.int_of_product 2.2 914400 = Some 2011680
  ∧ Py.int_of_product 0.57 914400 = Some 521207.
Proof.
  split; [|split; vm_compute; reflexivity].
  destruct (Py.int_of_product b 914400) as [emu|] eqn:Eb.
  - rewrite (set_hanging_indent_eq _ _ _ Eb).
    cbn [pPr_attrs pPr_kids runs with_pPr].
    split; [|split; [|split; [|split; [|split]]]]; try reflexivity.
    + rewrite get_set_attr_ne by done. by rewrite get_set_attr_eq.
    + by rewrite get_set_attr_eq.
    + intros H1 H2. by rewrite !get_set_attr_ne by done.
    + rewrite (set_hanging_indent_eq _ b emu Eb).
      destruct (Py.int_of_product a 914400) as [emu_a|] eqn:Ea.
      * rewrite (set_hanging_indent_eq _ _ _ Ea).
        unfold with_pPr. cbn [pPr_attrs pPr_kids runs para_font alignment level
          space_after space_before left_indent first_line_indent]. f_equal.
        set (l1 := set_attr "marL" (Py.str_of_Z emu_a) (pPr_attrs p)).
        rewrite (set_attr_swap "marL" "indent"); [| done |].
        -- rewrite set_attr_twice. subst l1. by rewrite set_attr_twice.
        -- subst l1. rewrite get_set_attr_eq. eauto.
      * assert (Hpa : set_hanging_indent p a = p)
          by (unfold set_hanging_indent; by rewrite Ea).
        by rewrite Hpa.
  - unfold set_hanging_indent. by rewrite Eb.
Qed.

(** *** The end of a paragraph *)

Lemma update_first_filter (test : xml → bool) (f : xml → xml) (l : list xml) :
  (∀ x, test (f x) = test x) →
  length (filter (λ child, test child = true) (update_first test f l))
  = length (filter (λ child, test child = true) l).
Proof.
  intros Hf. induction l as [|x l IH]; [reflexivity|]. cbn [update_first].
  destruct (test x) eqn:E.
  - rewrite !filter_cons, !decide_True by (by rewrite ?Hf). reflexivity.
  - rewrite !filter_cons, !decide_False by congruence. exact IH.
Qed.

Lemma existsb_filter_length (test : xml → bool) (l : list xml) :
  existsb test l = negb (length (filter (λ child, test child = true) l) =? 0)%nat.
Proof.
  induction l as [|x l IH]; [reflexivity|]. cbn [existsb]. rewrite filter_cons.
  destruct (test x) eqn:E.
  - by rewrite decide_True.
  - by rewrite decide_False by congruence.
Qed.

Lemma add_end_paragraph_eq (p : paragraph) (scheme : string) (pt : Q)
    (colour : option rgb) :
  add_end_paragraph_glow_and_highlight p scheme pt colour
  = with_pPr p (pPr_attrs p)
      (if existsb is_endParaRPr (pPr_kids p)
       then update_first is_endParaRPr
              (λ child, let 'Elem t a k := child in
                        Elem t a (k ++ end_paragraph_added scheme pt colour))
              (pPr_kids p)
       else pPr_kids p
            ++ [Elem (a_tag "endParaRPr") [] (end_paragraph_added scheme pt colour)]).
Proof. reflexivity. Qed.

Lemma concat_replicate_snoc {A} (x : list A) (m : nat) :
  concat (replicate m x) ++ x = concat (replicate (S m) x).
Proof.
  induction m as [|m IH]; [cbn; by rewrite app_nil_r|].
  cbn [replicate concat] in *. by rewrite <- app_assoc, IH.
Qed.

Lemma iter_end_paragraph (scheme : string) (pt : Q) (colour : option rgb)
    (p : paragraph) (n : nat) :
  pPr_kids p = [] →
  pPr_kids
    (Nat.iter (S n)
       (λ q, add_end_paragraph_glow_and_highlight q scheme pt colour) p)
  = [Elem (a_tag "endParaRPr") []
       (concat (replicate (S n) (end_paragraph_added scheme pt colour)))].
Proof.
  intros Hp. induction n as [|k IH].
  - rewrite Nat.iter_succ. cbn [Nat.iter nat_rect].
    rewrite add_end_paragraph_eq. cbn [pPr_kids with_pPr]. rewrite Hp.
    cbn [existsb app replicate concat]. by rewrite app_nil_r.
  - rewrite Nat.iter_succ, add_end_paragraph_eq.
    cbn [pPr_kids with_pPr]. rewrite IH.
    change (existsb _ [Elem (a_tag "endParaRPr") [] ?k0]) with true.
    cbv iota.
    change (update_first ?t ?f [Elem (a_tag "endParaRPr") [] ?k0])
      with [f (Elem (a_tag "endParaRPr") [] k0)].
    cbv beta iota. by rewrite concat_replicate_snoc.
Qed.

Lemma concat_replicate_nil {A} (m : nat) : concat (replicate m ([] : list A)) = [].
Proof. induction m as [|m IH]; [reflexivity|]. exact IH. Qed.

(** X4: [add_end_paragraph_glow_and_highlight] keeps a single element for the
    end of the paragraph: the first one found is extended, one is created
    only when there is none, and the attributes and the runs are not touched,
    whatever the arguments.  What is put inside accumulates: for a scheme
    that stands between double quotes as the value of an attribute
    ([attribute_text]), [n + 1] calls on a new paragraph leave one element
    that holds [n + 1] copies of the glow (and of the highlight), the radius
    being [max(1, int(radius * 12700))] with the product in binary64; when
    [int] raises, the exception is passed over and the element, which was
    created before, stays empty. *)
Theorem end_paragraph_element_reused (p : paragraph) (scheme : string) (pt : Q)
    (colour : option rgb) (n : nat) :
  let f := λ q, add_end_paragraph_glow_and_highlight q scheme pt colour in
  count_kids is_endParaRPr (f p) = Nat.max 1 (count_kids is_endParaRPr p)
  ∧ pPr_attrs (f p) = pPr_attrs p
  ∧ runs (f p) = runs p
  ∧ (pPr_kids p = [] →
     attribute_text scheme = true →
     pPr_kids (Nat.iter (S n) f p)
     = [Elem (a_tag "endParaRPr") []
          match Py.int_of_product pt 12700 with
          | Some emu => concat (replicate (S n) (end_paragraph_nodes scheme emu colour))
          | None => []
          end]).
Proof.
  cbv zeta. split; [|split; [reflexivity | split; [reflexivity|]]].
  - rewrite add_end_paragraph_eq. unfold count_kids. cbn [pPr_kids with_pPr].
    rewrite (existsb_filter_length is_endParaRPr).
    destruct (length (filter (λ child, is_endParaRPr child = true) (pPr_kids p)))
      as [|k] eqn:E; cbn [Nat.eqb negb].
    + rewrite filter_app, length_app, E. reflexivity.
    + rewrite update_first_filter; [rewrite E; lia|]. by intros [t a k0].
  - intros Hp Hs. rewrite iter_end_paragraph by done. do 2 f_equal.
    unfold end_paragraph_added. rewrite Hs.
    destruct (Py.int_of_product pt 12700) as [emu|];
      [reflexivity | apply concat_replicate_nil].
Qed.

(** At the arguments of the routers, the scheme ["bg1"] and the radius 10.0,
    one call on a new paragraph adds the glow of radius 127000 and the yellow
    highlight; with a double quote in the scheme [parse_xml] raises, and the
    element stays empty. *)
Lemma end_paragraph_at_the_routers :
  pPr_kids (add_end_paragraph_glow_and_highlight empty_paragraph "bg1" 10.0 (Some yellow))
  = [Elem (a_tag "endParaRPr") []
       [effectLst [glow 127000 (schemeClr "bg1")]; highlight yellow]]
  ∧ pPr_kids
      (add_end_paragraph_glow_and_highlight empty_paragraph
         ("bg" +:+ Py.double_quote +:+ "1") 10.0 (Some yellow))
    = [Elem (a_tag "endParaRPr") [] []].
Proof. vm_compute. auto. Qed.

End Effects.

(** ** Colour values *)

Section Colours.

Lemma two_digits_byte (n : N) : (n < 256)%N → two_digits n = true.
Proof.
  intros Hn.
  assert (Hall : forallb two_digits (map N.of_nat (seq 0 256)) = true)
    by (vm_compute; reflexivity).
  rewrite forallb_forall in Hall. apply Hall.
  apply in_map_iff. exists (N.to_nat n). split; [lia|].
  apply in_seq. lia.
Qed.

Lemma format_02X_byte (n : N) :
  (n < 256)%N →
  ∃ a b, Py.format_02X n = String a (String b "")
         ∧ hex_value a = Some (n / 16)%N ∧ hex_value b = Some (n mod 16)%N.
Proof.
  intros Hn. pose proof (two_digits_byte n Hn) as Ht. unfold two_digits in Ht.
  destruct (Py.format_02X n) as [|a [|b [|c s]]]; try discriminate Ht.
  apply andb_prop in Ht as [Ha Hb].
  apply bool_decide_eq_true in Ha, Hb. eauto.
Qed.

(** X5: For a colour whose components are bytes, [srgb_val] is six hexadecimal
    digits (capital letters) that read back as the colour: red, green and
    blue in this order, two digits each.  Distinct colours are written
    differently. *)
Theorem srgb_val_reads_back (c c' : rgb) :
  byte_colour c →
  String.length (srgb_val c) = 6%nat
  ∧ hex_parse 0 (srgb_val c) = Some (c.1.1 * 65536 + c.1.2 * 256 + c.2)%N
  ∧ (byte_colour c' → srgb_val c = srgb_val c' → c = c').
Proof.
  assert (Hparse : ∀ x : rgb, byte_colour x →
    String.length (srgb_val x) = 6%nat
    ∧ hex_parse 0 (srgb_val x) = Some (x.1.1 * 65536 + x.1.2 * 256 + x.2)%N).
  { intros [[r g] b] (Hr & Hg & Hb). unfold srgb_val.
    destruct (format_02X_byte r Hr) as (r1 & r2 & -> & Hr1 & Hr2).
    destruct (format_02X_byte g Hg) as (g1 & g2 & -> & Hg1 & Hg2).
    destruct (format_02X_byte b Hb) as (b1 & b2 & -> & Hb1 & Hb2).
    rewrite !append_cons, !append_nil_l. split; [reflexivity|].
    cbn [hex_parse fst snd]. rewrite Hr1, Hr2, Hg1, Hg2, Hb1, Hb2.
    f_equal.
    pose proof (N.div_mod r 16). pose proof (N.div_mod g 16).
    pose proof (N.div_mod b 16). lia. }
  intros Hc. destruct (Hparse c Hc) as [Hlen Hval]. split; [exact Hlen|].
  split; [exact Hval|]. intros Hc' Heq.
  destruct (Hparse c' Hc') as [_ Hval']. rewrite Heq, Hval' in Hval.
  destruct c as [[r g] b], c' as [[r' g'] b'].
  destruct Hc as (Hr & Hg & Hb), Hc' as (Hr' & Hg' & Hb').
  cbn [fst snd] in Hval. injection Hval as Hval.
  assert (r = r' ∧ g = g' ∧ b = b') as (-> & -> & ->) by lia. reflexivity.
Qed.

(** The theorem of X5 at yellow: FFFF00. *)
Lemma srgb_val_reads_back_witness :
  byte_colour yellow
  ∧ String.length (srgb_val yellow) = 6%nat
  ∧ hex_parse 0 (srgb_val yellow) = Some 16776960%N.
Proof.
  assert (Hy : byte_colour yellow) by (cbn; lia).
  split; [exact Hy|].
  destruct (srgb_val_reads_back yellow white Hy) as (Hlen & Hval & _).
  split; [exact Hlen | exact Hval].
Defined.

End Colours.

(** ** Removing temporary files *)

Section Cleanup.
Context (H : host).

(** X6: [cleanup_temp_file] of [slides/utils.py] never raises and never touches
    a file other than the one it is given.  It leaves the world as it is for
    [None], for the empty path, for a path with no file, and for a file whose
    path neither contains ["tmp"] nor starts with the temporary directory;
    otherwise the file is removed, by one call of [os.unlink]. *)
Theorem cleanup_temp_file_guarded (path : option string) (w : world) :
  ∃ w', cleanup_temp_file H path w = (Ok tt, w')
    ∧ (∀ q, path ≠ Some q → files w' !! q = files w !! q)
    ∧ (path = None ∨ path = Some "" → w' = w)
    ∧ (∀ p, path = Some p → files w !! p = None → w' = w)
    ∧ (∀ p, path = Some p → Py.contains "tmp" p = false →
         Py.startswith (gettempdir H) p = false → w' = w)
    ∧ (∀ p, path = Some p → p ≠ "" → is_Some (files w !! p) →
         Py.contains "tmp" p = true ∨ Py.startswith (gettempdir H) p = true →
         files w' !! p = None ∧ trace w' = trace w ++ [EvUnlink p]).
Proof.
  exists (cleaned H w path). split; [apply cleanup_temp_file_ok|].
  unfold cleaned, removable. destruct path as [p|]; [|repeat split; done].
  cbn [default from_option id].
  destruct (Py.truthy p) eqn:Et; cbn [andb].
  - destruct (bool_decide (is_Some (files w !! p))) eqn:Ef; cbn [andb].
    + apply bool_decide_eq_true in Ef.
      destruct (Py.contains "tmp" p || Py.startswith (gettempdir H) p) eqn:Eg.
      * split; [|split; [|split; [|split]]].
        -- intros q Hq. cbn [files]. apply lookup_delete_ne. congruence.
        -- intros [Hn|Hn]; [discriminate Hn|]. injection Hn as ->. discriminate Et.
        -- intros p' [= <-] Hn. rewrite Hn in Ef. by destruct Ef.
        -- intros p' [= <-] Hc Hs. rewrite Hc, Hs in Eg. discriminate Eg.
        -- intros p' [= <-] _ _ _. cbn [files trace]. split; [apply lookup_delete_eq | done].
      * split; [done|]. split; [done|]. split; [done|]. split; [done|].
        intros p' [= <-] _ _ [Hc|Hs]; rewrite ?Hc, ?Hs, ?orb_true_r in Eg;
          discriminate Eg.
    + apply bool_decide_eq_false in Ef.
      split; [done|]. split; [done|]. split; [done|]. split; [done|].
      intros p' [= <-] _ Hs. contradiction.
  - split; [done|]. split; [done|]. split; [done|]. split; [done|].
    intros p' [= <-] Hp. unfold Py.truthy in Et.
    apply negb_false_iff, String.eqb_eq in Et. contradiction.
Qed.

(** X7: [cleanup_temp_file] of [core/files.py] has no such guard: whatever the
    path, it never raises, no file is left at the path afterwards, and every
    other file is untouched. *)
Theorem files_cleanup_removes_any_path (p : string) (w : world) :
  ∃ w', files_cleanup_temp_file p w = (Ok tt, w')
    ∧ files w' !! p = None
    ∧ (∀ q, q ≠ p → files w' !! q = files w !! q)
    ∧ (files w !! p = None → w' = w).
Proof.
  unfold files_cleanup_temp_file, try_except.
  erewrite bind_ok by apply path_exists_ok.
  destruct (files w !! p) as [c|] eqn:Ef.
  - rewrite bool_decide_true by eauto.
    eexists. split; [reflexivity|]. cbn [files]. split; [apply lookup_delete_eq|].
    split; [|done]. intros q Hq. by apply lookup_delete_ne.
  - rewrite bool_decide_false by (intros [? ?]; congruence).
    exists w. split; [reflexivity|]. split; [exact Ef|]. split; done.
Qed.

End Cleanup.

(** ** Backgrounds and files of the pipelines *)

Section PipelineFacts.
Context (H : host).

(** X8: [set_slide_background] never raises and changes no file.  The picture
    is put on the slide when the path is given and not empty, a file is
    there, and the file loads as a picture: it then covers the whole slide,
    above the shapes the slide already had, the fill of the slide is left
    alone, and the answer is [True].  In every other case, a missing file
    and a file that is no picture included, the slide is filled with white,
    no shape is added, and the answer is [False]. *)
Theorem set_slide_background_total (prs : presentation) (s : slide)
    (path : option string) (w : world) :
  ∃ s' flag,
    set_slide_background H prs s path w = (Ok (s', flag), events w [EvBackground path])
    ∧ (flag = true ↔
       ∃ p bytes, path = Some p ∧ p ≠ "" ∧ files w !! p = Some (Blob bytes)
                  ∧ image_ok H bytes = true)
    ∧ (flag = true →
       background s' = background s
       ∧ shapes s'
         = shapes s ++ [Picture (default "" path) 0 0 (slide_width prs) (slide_height prs)])
    ∧ (flag = false → background s' = Some white ∧ shapes s' = shapes s).
Proof.
  eexists _, _. split; [apply set_slide_background_ok|].
  unfold with_background. split; [|split].
  - unfold image_loads. split.
    + destruct path as [p|]; [|discriminate].
      intros [Ht Hl]%andb_prop.
      destruct (files w !! p) as [[bytes|d]|] eqn:Ef; try discriminate Hl.
      exists p, bytes. repeat split; try done. intros ->. discriminate Ht.
    + intros (p & bytes & -> & Hp & -> & Hok). rewrite Hok, andb_true_r.
      unfold Py.truthy. apply negb_true_iff, String.eqb_neq. exact Hp.
  - intros ->. split; reflexivity.
  - intros ->. split; reflexivity.
Qed.

Lemma built_on_refl (b : slide) : built_on b b.
Proof. split; [reflexivity|]. exists []. by rewrite app_nil_r. Qed.

Lemma built_on_add_shape (b s : slide) (sh : shape) :
  built_on b s → built_on b (add_shape s sh).
Proof.
  intros [Hb [rest Hs]]. split; [exact Hb|]. exists (rest ++ [sh]).
  cbn [shapes add_shape]. by rewrite Hs, app_assoc.
Qed.

Lemma built_on_with_placeholder (fs : gmap string content) (b s : slide)
    (file : string) :
  built_on b s → built_on b (with_placeholder H fs s file).
Proof.
  intros Hs. unfold with_placeholder.
  destruct (bool_decide _); [by apply built_on_add_shape | exact Hs].
Qed.

Lemma built_on_base_slide (fs : gmap string content) (path : option string)
    (file : string) :
  built_on (with_background H fs 13.33 7.5 blank_slide path)
    (base_slide H fs 13.33 7.5 path file).
Proof. apply built_on_with_placeholder, built_on_refl. Qed.

Lemma Forall_flat_map {A B} (P : B → Prop) (f : A → list B) (l : list A) :
  (∀ x, Forall P (f x)) → Forall P (flat_map f l).
Proof.
  intros Hf. induction l as [|x l IH]; [constructor|].
  cbn [flat_map]. apply Forall_app. by split.
Qed.

Lemma scripture_deck_built_on (fs : gmap string content) (path : option string)
    (ref : Scripture.reference) (verses : list Scripture.verse_entry)
    (verses_alt : option (list Scripture.verse_entry)) :
  Forall (built_on (with_background H fs 13.33 7.5 blank_slide path))
    (scripture_deck H fs path ref verses verses_alt).
Proof.
  assert (Hs : ∀ n t l,
    built_on (with_background H fs 13.33 7.5 blank_slide path)
      (scripture_slide H fs path ref n t l)).
  { intros. unfold scripture_slide, Scripture._add_verse_content.
    do 2 apply built_on_add_shape. apply built_on_base_slide. }
  unfold scripture_deck. destruct verses_alt as [[|v alt]|]; apply Forall_flat_map.
  - intros x. unfold single_slides.
    destruct (Py.truthy _); [apply Forall_singleton, Hs | constructor].
  - intros x. unfold combined_slides. destruct (_ !! x) as [t|]; [|constructor].
    apply Forall_app. split.
    + destruct (Py.truthy (Scripture.nrsvue t));
        [apply Forall_singleton, Hs | constructor].
    + destruct (Py.truthy (Scripture.tmb t));
        [apply Forall_singleton, Hs | constructor].
  - intros x. unfold single_slides.
    destruct (Py.truthy _); [apply Forall_singleton, Hs | constructor].
Qed.

Lemma hymn_deck_built_on (fs : gmap string content) (path : option string)
    (d : Hymn.hymn_data) (include_cover : bool) :
  Forall (built_on (with_background H fs 13.33 7.5 blank_slide path))
    (hymn_deck H fs path d include_cover).
Proof.
  unfold hymn_deck. apply Forall_app. split.
  - destruct include_cover; [|constructor]. apply Forall_singleton.
    unfold hymn_cover, Hymn.cover_slide.
    do 2 apply built_on_add_shape. apply built_on_refl.
  - unfold lyric_slides. apply Forall_flat_map. intros l.
    unfold section_slides. apply Forall_fmap, Forall_forall. intros t _.
    unfold hymn_slide, Hymn.lyric_slide. cbn [compose].
    do 2 apply built_on_add_shape. apply built_on_base_slide.
Qed.

Lemma worship_deck_built_on (fs : gmap string content) (path : option string)
    (pairs_list : list CallToWorship.pair) :
  Forall (built_on (with_background H fs 13.33 7.5 blank_slide path))
    (map (worship_slide_of H fs path) pairs_list).
Proof.
  apply Forall_fmap, Forall_forall. intros p _.
  unfold worship_slide_of, CallToWorship.worship_slide. cbn [compose].
  do 2 apply built_on_add_shape. apply built_on_base_slide.
Qed.

(** *** The files a pipeline leaves *)


Lemma files_cleaned_other (w : world) (path : option string) (q : string) :
  path ≠ Some q → files (cleaned H w path) !! q = files w !! q.
Proof.
  intros Hq. unfold cleaned. destruct path as [p|]; [|reflexivity].
  destruct (removable H (files w) (Some p)); [|reflexivity].
  cbn [files default from_option id]. apply lookup_delete_ne. congruence.
Qed.



(** A pipeline changes no file but its output and the file of the
    background. *)
Lemma finished_other_files (w : world) (background_image : option string)
    (deck : list slide) (out q : string) :
  q ≠ out → q ≠ temp_name H (files w) "tmp" ".png" →
  files (finished H (resolved H w background_image).1 background_image
           (resolved H w background_image).2 deck out) !! q = files w !! q.
Proof.
  intros Hq Hne. unfold finished. cbn [files]. rewrite lookup_insert_ne by done.
  assert (Hres : files (resolved H w background_image).1 !! q = files w !! q).
  { unfold resolved, resolved_world.
    destruct background_image as [data|]; [|reflexivity].
    destruct (Py.truthy data); [|reflexivity]. cbn [fst].
    destruct (b64decode H (decoded_text data)); [|reflexivity].
    cbn [files]. by rewrite lookup_insert_ne. }
  assert (Hpath : (resolved H w background_image).2 ≠ Some q).
  { unfold resolved, resolved_path.
    destruct background_image as [data|]; [|done].
    destruct (Py.truthy data); [|done]. cbn [snd].
    destruct (b64decode H (decoded_text data)); [|done]. congruence. }
  destruct (Py.given background_image).
  - rewrite files_cleaned_other by done. exact Hres.
  - exact Hres.
Qed.





End PipelineFacts.



(** ** The background on the slides of a deck *)

Section Backgrounds.
Context (H : host).

Lemma resolved_not_given (background_image : option string) (w : world) :
  Py.given background_image = false → resolved H w background_image = (w, None).
Proof.
  unfold resolved, Py.given. destruct background_image as [data|]; [|done].
  by intros ->.
Qed.

Lemma finished_not_given (background_image : option string) (w : world)
    (deck : list slide) (out : string) :
  Py.given background_image = false →
  finished H w background_image None deck out
  = {| files := <[out := Deck (extend empty_deck deck)]> (files w);
       trace := trace w ++ replicate (length deck) (EvBackground None) ++ [EvSave out] |}.
Proof.
  intros Hg. unfold finished. rewrite Hg. cbn [files trace events].
  by rewrite <- app_assoc.
Qed.

(** X11: Without a payload ([None], or the empty text) a pipeline decodes
    nothing, creates no temporary file and removes none: its calls are one
    [set_slide_background] without a path for each slide, then the save, and
    the only file it changes is its output.  Every slide has the white
    background. *)
Theorem no_payload_no_temporary_file (background_image : option string)
    (ref : Scripture.reference) (verses : list Scripture.verse_entry)
    (verses_alt : option (list Scripture.verse_entry)) (d : Hymn.hymn_data)
    (include_cover : bool) (pairs_list : list CallToWorship.pair) (out : string)
    (w : world) :
  Py.given background_image = false →
  let saved deck :=
    {| files := <[out := Deck (extend empty_deck deck)]> (files w);
       trace := trace w ++ replicate (length deck) (EvBackground None)
                ++ [EvSave out] |} in
  let white_deck deck := Forall (λ s, background s = Some white) deck in
  (∃ msg deck,
     Scripture.create_scripture_slides H ref verses out background_image verses_alt w
     = (Ok msg, saved deck) ∧ white_deck deck)
  ∧ (∃ msg deck,
       Hymn.create_hymn_slides H d out background_image include_cover w
       = (Ok msg, saved deck) ∧ white_deck deck)
  ∧ (∃ msg deck,
       CallToWorship.create_call_to_worship_slides_from_dict H pairs_list out
         background_image w
       = (Ok msg, saved deck) ∧ white_deck deck).
Proof.
  intros Hg saved white_deck. subst saved white_deck. cbv beta.
  split; [|split]; eexists _, _.
  - rewrite create_scripture_slides_ok, resolved_not_given by done. cbn [fst snd].
    rewrite finished_not_given by done. split; [reflexivity|].
    apply scripture_deck_white.
  - rewrite create_hymn_slides_ok, resolved_not_given by done. cbn [fst snd].
    rewrite finished_not_given by done. split; [reflexivity|].
    apply hymn_deck_white.
  - rewrite create_call_to_worship_slides_ok, resolved_not_given by done.
    cbn [fst snd]. rewrite finished_not_given by done. split; [reflexivity|].
    apply worship_deck_white.
Qed.

Lemma resolved_decoded (data bytes : string) (w : world) :
  Py.truthy data = true → b64decode H (decoded_text data) = Some bytes →
  resolved H w (Some data)
  = ({| files := <[temp_name H (files w) "tmp" ".png" := Blob bytes]> (files w);
        trace := trace w ++ [EvDecode (decoded_text data);
                             EvTempFile (temp_name H (files w) "tmp" ".png")] |},
     Some (temp_name H (files w) "tmp" ".png")).
Proof.
  intros Ht Hb. unfold resolved, resolved_world, resolved_path. by rewrite Ht, Hb.
Qed.

Lemma placed_built_on (fs : gmap string content) (name bytes : string) (s : slide) :
  built_on
    (with_background H (<[name := Blob bytes]> fs) 13.33 7.5 blank_slide (Some name)) s →
  Py.truthy name = true →
  if image_ok H bytes
  then background s = None ∧ head (shapes s) = Some (Picture name 0 0 13.33 7.5)
  else background s = Some white.
Proof.
  intros [Hb [rest Hs]] Ht. unfold with_background, image_loads in Hb, Hs.
  rewrite Ht, lookup_insert_eq in Hb, Hs. cbn [andb] in Hb, Hs.
  destruct (image_ok H bytes).
  - split; [exact Hb|]. rewrite Hs. reflexivity.
  - exact Hb.
Qed.

Lemma files_finished_removed (w1 : world) (data : string) (deck : list slide)
    (out : string) (fs : gmap string content) :
  Py.truthy data = true →
  temp_name H fs "tmp" ".png" ≠ out →
  is_Some (files w1 !! temp_name H fs "tmp" ".png") →
  files (finished H w1 (Some data) (Some (temp_name H fs "tmp" ".png")) deck out)
    !! temp_name H fs "tmp" ".png" = None.
Proof.
  intros Ht Hne Hin. unfold finished. cbn [files Py.given]. rewrite Ht.
  rewrite lookup_insert_ne by done. unfold cleaned.
  assert (Hr : removable H (files w1) (Some (temp_name H fs "tmp" ".png")) = true).
  { unfold removable. rewrite truthy_temp_name, bool_decide_true by done.
    unfold temp_name. rewrite startswith_append. by rewrite orb_true_r. }
  cbn [files events]. rewrite Hr. cbn [files default from_option id].
  apply lookup_delete_eq.
Qed.

(** X12: When the payload decodes, the bytes are written to a temporary file and
    the same file is offered to every slide.  If the bytes load as a
    picture, every slide of the saved deck has that picture as its lowest
    shape, covering the slide, and no fill; if they do not, every slide has
    the white fill.  In both cases the temporary file is gone when the
    pipeline returns (it is removed before the deck is saved). *)
Theorem decoded_background_on_every_slide (data bytes : string) (w : world) :
  Py.truthy data = true →
  b64decode H (decoded_text data) = Some bytes →
  let name := temp_name H (files w) "tmp" ".png" in
  let placed (s : slide) : Prop :=
    if image_ok H bytes
    then background s = None ∧ head (shapes s) = Some (Picture name 0 0 13.33 7.5)
    else background s = Some white in
  (∀ ref verses out verses_alt, ∃ msg w' prs,
     Scripture.create_scripture_slides H ref verses out (Some data) verses_alt w
     = (Ok msg, w')
     ∧ files w' !! out = Some (Deck prs)
     ∧ Forall placed (slides prs)
     ∧ (name ≠ out → files w' !! name = None))
  ∧ (∀ d out include_cover, ∃ msg w' prs,
       Hymn.create_hymn_slides H d out (Some data) include_cover w = (Ok msg, w')
       ∧ files w' !! out = Some (Deck prs)
       ∧ Forall placed (slides prs)
       ∧ (name ≠ out → files w' !! name = None))
  ∧ (∀ pairs_list out, ∃ msg w' prs,
       CallToWorship.create_call_to_worship_slides_from_dict H pairs_list out
         (Some data) w
       = (Ok msg, w')
       ∧ files w' !! out = Some (Deck prs)
       ∧ Forall placed (slides prs)
       ∧ (name ≠ out → files w' !! name = None)).
Proof.
  intros Ht Hb name placed.
  pose proof (resolved_decoded data bytes w Ht Hb) as Hres. fold name in Hres.
  assert (Hplaced : ∀ deck,
    Forall (built_on (with_background H (<[name := Blob bytes]> (files w)) 13.33 7.5
                        blank_slide (Some name))) deck →
    Forall placed deck).
  { intros deck Hd. eapply Forall_impl; [exact Hd|]. intros s Hs.
    apply (placed_built_on _ _ _ _ Hs), truthy_temp_name. }
  assert (Hgone : ∀ deck out, name ≠ out →
    files (finished H
             {| files := <[name := Blob bytes]> (files w);
                trace := trace w ++ [EvDecode (decoded_text data); EvTempFile name] |}
             (Some data) (Some name) deck out) !! name = None).
  { intros deck out Hne. apply files_finished_removed; [done | done |].
    cbn [files]. rewrite lookup_insert_eq. eauto. }
  split; [|split].
  - intros ref verses out verses_alt. eexists _, _, _.
    rewrite create_scripture_slides_ok, Hres. cbn [fst snd files].
    split; [reflexivity|]. split; [apply files_finished|].
    rewrite slides_extend_empty.
    split; [apply Hplaced, scripture_deck_built_on | apply Hgone].
  - intros d out include_cover. eexists _, _, _.
    rewrite create_hymn_slides_ok, Hres. cbn [fst snd files].
    split; [reflexivity|]. split; [apply files_finished|].
    rewrite slides_extend_empty.
    split; [apply Hplaced, hymn_deck_built_on | apply Hgone].
  - intros pairs_list out. eexists _, _, _.
    rewrite create_call_to_worship_slides_ok, Hres. cbn [fst snd files].
    split; [reflexivity|]. split; [apply files_finished|].
    rewrite slides_extend_empty.
    split; [apply Hplaced, worship_deck_built_on | apply Hgone].
Qed.

End Backgrounds.

(** The theorem of X11 at the psalm, with the empty text for a payload. *)
Lemma no_payload_no_temporary_file_witness :
  Py.given (Some "") = false
  ∧ ∃ msg deck,
      Scripture.create_scripture_slides Example.server Example.psalm_23
        [Example.shepherd] "/tmp/out.pptx" (Some "") None Example.empty_world
      = (Ok msg,
         {| files := <["/tmp/out.pptx" := Deck (extend empty_deck deck)]> ∅;
            trace := replicate (length deck) (EvBackground None)
                     ++ [EvSave "/tmp/out.pptx"] |}).
Proof.
  split; [reflexivity|].
  destruct (no_payload_no_temporary_file Example.server (Some "") Example.psalm_23
              [Example.shepherd] None Sample.untitled true [] "/tmp/out.pptx"
              Example.empty_world eq_refl)
    as [(msg & deck & Hrun & _) _].
  exists msg, deck. exact Hrun.
Defined.

(** The theorem of X12 at the psalm, with a payload that holds the signature of a PNG file. *)
Lemma decoded_background_on_every_slide_witness :
  Py.truthy Example.png_data_url = true
  ∧ b64decode Example.server (decoded_text Example.png_data_url)
    = Some Example.png_signature
  ∧ ∃ msg w' prs,
      Scripture.create_scripture_slides Example.server Example.psalm_23
        [Example.shepherd] "/tmp/out.pptx" (Some Example.png_data_url) None
        Example.empty_world
      = (Ok msg, w')
      ∧ files w' !! "/tmp/out.pptx" = Some (Deck prs)
      ∧ Forall (λ s, background s = None
                     ∧ head (shapes s)
                       = Some (Picture "/tmp/tmpk3v9x61q.png" 0 0 13.33 7.5))
          (slides prs).
Proof.
  split; [reflexivity|]. split; [vm_compute; reflexivity|].
  destruct (decoded_background_on_every_slide Example.server Example.png_data_url
              Example.png_signature Example.empty_world eq_refl eq_refl)
    as [Hs _].
  destruct (Hs Example.psalm_23 [Example.shepherd] "/tmp/out.pptx" None)
    as (msg & w' & prs & Hrun & Hout & Hall & _).
  exists msg, w', prs. split; [exact Hrun|]. split; [exact Hout|]. exact Hall.
Defined.

(** ** The lines of the scripture slides *)

Section ScriptureLines.
Context (H : host).

Lemma paragraph_text_add_text_glow (p : paragraph) (radius : Z) (c : rgb) :
  paragraph_text (add_text_glow p radius c) = paragraph_text p.
Proof.
  unfold paragraph_text, add_text_glow. cbn [runs with_runs]. by rewrite map_map.
Qed.

Lemma paragraph_text_text_paragraph (t : string) (f : font) (al : align) :
  paragraph_text (text_paragraph t f al) = t.
Proof.
  unfold paragraph_text, text_paragraph, runs_of_text. cbn [runs].
  destruct t; reflexivity.
Qed.

Lemma paragraph_text_glowing (t : string) (f : font) (al : align) (radius : Z)
    (c : rgb) :
  paragraph_text (add_text_glow (text_paragraph t f al) radius c) = t.
Proof. by rewrite paragraph_text_add_text_glow, paragraph_text_text_paragraph. Qed.

Lemma text_boxes_add_text_box (s : slide) (l t w h : Q) (frame : text_frame) :
  text_boxes (add_shape s (TextBox l t w h frame))
  = text_boxes s ++ [TextBox l t w h frame].
Proof.
  unfold text_boxes, add_shape. cbn [shapes]. by rewrite filter_app.
Qed.

Lemma text_boxes_add_picture (s : slide) (path : string) (l t w h : Q) :
  text_boxes (add_shape s (Picture path l t w h)) = text_boxes s.
Proof.
  unfold text_boxes, add_shape. cbn [shapes]. rewrite filter_app.
  apply app_nil_r.
Qed.

Lemma text_boxes_base_slide (fs : gmap string content) (width height : Q)
    (path : option string) (file : string) :
  text_boxes (base_slide H fs width height path file) = [].
Proof.
  unfold base_slide, with_placeholder, with_background.
  destruct (bool_decide _); rewrite ?text_boxes_add_picture;
    destruct (image_loads H fs path); rewrite ?text_boxes_add_picture; reflexivity.
Qed.

Lemma content_paragraphs_add_text_box (s : slide) (l t w h : Q) (frame : text_frame) :
  content_paragraphs (add_shape s (TextBox l t w h frame)) = paragraphs frame.
Proof.
  unfold content_paragraphs, add_shape. cbn [shapes]. by rewrite last_snoc.
Qed.

Lemma scripture_slide_lines (fs : gmap string content) (path : option string)
    (ref : Scripture.reference) (verse_num : option Z) (text : string)
    (label : option string) :
  title_lines (scripture_slide H fs path ref verse_num text label)
  = (Scripture._get_book_name (Scripture.book ref) (bool_decide (label = Some "TMB"))
     +:+ " " +:+ Py.str_of_Z (Scripture.chapter ref) +:+ ":"
     +:+ Scripture.str_of_verse verse_num)
    :: match label with
       | Some l => if Py.truthy l then [l] else []
       | None => []
       end
  ∧ content_lines (scripture_slide H fs path ref verse_num text label) = [text].
Proof.
  unfold scripture_slide, Scripture._add_verse_content. split.
  - unfold title_lines.
    rewrite !text_boxes_add_text_box, text_boxes_base_slide. cbn [app box_lines].
    cbn [paragraphs map]. rewrite paragraph_text_glowing. f_equal.
    destruct label as [l|]; [|reflexivity].
    destruct (Py.truthy l); [|reflexivity]. cbn [map].
    by rewrite paragraph_text_glowing.
  - unfold content_lines. rewrite content_paragraphs_add_text_box.
    cbn [paragraphs map]. by rewrite paragraph_text_glowing.
Qed.

Lemma dict_get_missing (table : list (string * string)) (key dflt : string) :
  key ∉ map fst table → Py.dict_get table key dflt = dflt.
Proof.
  induction table as [|[k v] table IH]; [reflexivity|]. cbn [map fst Py.dict_get].
  intros Hn. apply not_elem_of_cons in Hn as [Hne Hn].
  destruct (String.eqb k key) eqn:E.
  - apply String.eqb_eq in E. congruence.
  - by apply IH.
Qed.

(** X13: The titles of the two translations, for a text and a book code that
    are plain (no control character but the tab, nothing the XML library
    refuses), so that each is shown in one run: the slide labelled ["TMB"]
    names the book in Tongan, the slide labelled ["NRSVUE"] in English, each
    followed by chapter and verse and, on a second line, by the label; the
    content is the text.  The Tongan names are those of the table, their
    letters from U+0100 on held as UTF-8.  The two tables know the same book
    codes, and a code that is not among them is shown as it is, in either
    language. *)
Theorem translation_titles (fs : gmap string content) (path : option string)
    (ref : Scripture.reference) (n : Z) (text : string) :
  plain text = true →
  plain (Scripture.book ref) = true →
  let place := " " +:+ Py.str_of_Z (Scripture.chapter ref) +:+ ":" +:+ Py.str_of_Z n in
  let english := scripture_slide H fs path ref (Some n) text (Some "NRSVUE") in
  let tongan := scripture_slide H fs path ref (Some n) text (Some "TMB") in
  title_lines english
  = [Py.dict_get Scripture.book_names (Scripture.book ref) (Scripture.book ref)
     +:+ place; "NRSVUE"]
  ∧ title_lines tongan
    = [Py.dict_get Scripture.tongan_book_names (Scripture.book ref) (Scripture.book ref)
       +:+ place; "TMB"]
  ∧ content_lines english = [text] ∧ content_lines tongan = [text]
  ∧ map fst Scripture.tongan_book_names = map fst Scripture.book_names
  ∧ (Scripture.book ref ∉ map fst Scripture.book_names →
     title_lines english = [Scripture.book ref +:+ place; "NRSVUE"]
     ∧ title_lines tongan = [Scripture.book ref +:+ place; "TMB"]).
Proof.
  intros _ _. cbv zeta.
  destruct (scripture_slide_lines fs path ref (Some n) text (Some "NRSVUE"))
    as [Ht1 Hc1].
  destruct (scripture_slide_lines fs path ref (Some n) text (Some "TMB"))
    as [Ht2 Hc2].
  rewrite Ht1, Ht2, Hc1, Hc2.
  rewrite bool_decide_false by discriminate. rewrite bool_decide_true by done.
  cbn [Scripture._get_book_name Scripture.str_of_verse].
  change (Py.truthy "NRSVUE") with true. change (Py.truthy "TMB") with true.
  cbv iota.
  split; [reflexivity|]. split; [reflexivity|]. split; [reflexivity|].
  split; [reflexivity|]. split; [reflexivity|].
  intros Hn. split.
  - by rewrite dict_get_missing.
  - rewrite dict_get_missing; [done|].
    change (map fst Scripture.tongan_book_names) with (map fst Scripture.book_names).
    exact Hn.
Qed.


End ScriptureLines.

(** The theorem of X13 at the second verse of the psalm, in Tongan. *)
Lemma translation_titles_witness :
  plain Sample.still_waters = true
  ∧ plain (Scripture.book Example.psalm_23) = true
  ∧ title_lines (scripture_slide Example.server ∅ None Example.psalm_23 (Some 2)
                   Sample.still_waters (Some "NRSVUE"))
    = ["Psalms 23:2"; "NRSVUE"]
  ∧ content_lines (scripture_slide Example.server ∅ None Example.psalm_23 (Some 2)
                     Sample.still_waters (Some "TMB"))
    = [Sample.still_waters].
Proof.
  assert (Ht : plain Sample.still_waters = true) by (vm_compute; reflexivity).
  assert (Hb : plain (Scripture.book Example.psalm_23) = true)
    by (vm_compute; reflexivity).
  split; [exact Ht|]. split; [exact Hb|].
  destruct (translation_titles Example.server ∅ None Example.psalm_23 2
              Sample.still_waters Ht Hb)
    as (Hen & _ & _ & Hto & _).
  split; [rewrite Hen; vm_compute; reflexivity | exact Hto].
Defined.


(** ** The hymn router: requests, copyright lines, lyric slides *)

Section HymnFacts.
Context (H : host).

Lemma lookup_enumerate {A} (l : list A) (i : nat) :
  enumerate l !! i = (λ x, (i, x)) <$> l !! i.
Proof.
  unfold enumerate. rewrite lookup_zip_with.
  destruct (l !! i) as [x|] eqn:E.
  - apply lookup_lt_Some in E. by rewrite lookup_seq_lt.
  - by destruct (seq 0 (length l) !! i).
Qed.

(** X15: What the endpoint reads from the request.  With a ['hymn'] object, every
    field comes from that object: the keys beside it are not looked at, a
    legacy ['verses'] array does not replace missing ['lyrics'], and
    ['copyright'] does not stand in for ['text_copyright'].  Without the
    object, ['text_copyright'] falls back on ['copyright'], and ['lyrics'],
    when absent, on the ['verses'] array: element [i] becomes a section with
    its own text, named as it says or else ["Verse i+1"], so that the
    sections keep the number and the order of the verses. *)
Theorem hymn_request_normalised (r flat flat' : Hymn.hymn_fields)
    (bg bg' : option string) (i : nat) :
  let nested := {| Hymn.nested := Some r; Hymn.flat := flat;
                   Hymn.background_image := bg |} in
  let nested' := {| Hymn.nested := Some r; Hymn.flat := flat';
                    Hymn.background_image := bg' |} in
  let direct := {| Hymn.nested := None; Hymn.flat := flat;
                   Hymn.background_image := bg |} in
  Hymn.hymn_info nested = Hymn.hymn_info nested'
  ∧ Hymn.lyrics (Hymn.hymn_info nested) = default [] (Hymn.f_lyrics r)
  ∧ Hymn.text_copyright (Hymn.hymn_info nested) = default "" (Hymn.f_text_copyright r)
  ∧ Hymn.text_copyright (Hymn.hymn_info direct)
    = match Hymn.f_text_copyright flat with
      | Some t => t
      | None => default "" (Hymn.f_copyright flat)
      end
  ∧ (∀ l, Hymn.f_lyrics flat = Some l → Hymn.lyrics (Hymn.hymn_info direct) = l)
  ∧ (Hymn.f_lyrics flat = None →
     length (Hymn.lyrics (Hymn.hymn_info direct))
     = length (default [] (Hymn.f_verses flat))
     ∧ Hymn.lyrics (Hymn.hymn_info direct) !! i
       = lyric_of_verse i <$> default [] (Hymn.f_verses flat) !! i).
Proof.
  cbv zeta. unfold Hymn.hymn_info. cbn [Hymn.nested Hymn.flat Hymn.lyrics
    Hymn.text_copyright].
  split; [reflexivity|]. split; [reflexivity|]. split; [reflexivity|].
  split; [by destruct (Hymn.f_text_copyright flat)|].
  split; [by intros l ->|].
  intros ->. cbn [default from_option id].
  unfold Hymn.convert_verses_to_lyrics. split.
  - rewrite length_map. unfold enumerate.
    by rewrite length_zip_with, length_seq, Nat.min_id.
  - change (map ?f ?l) with (f <$> l). rewrite list_lookup_fmap, lookup_enumerate.
    destruct (default [] (Hymn.f_verses flat) !! i) as [v|]; [|reflexivity].
    cbn. by destruct v.
Qed.

(** *** Copyright lines *)

Lemma no_year_in_space :
  existsb (λ year, Py.contains (Py.str_of_nat year) " ") (seq 1800 123) = false.
Proof. vm_compute. reflexivity. Qed.

Lemma existsb_year (text : string) :
  existsb (λ year, Py.contains (Py.str_of_nat year) text) (seq 1800 123) = true
  ↔ old_year_in text.
Proof.
  rewrite existsb_exists. unfold old_year_in. split.
  - intros (y & Hy & Hc). apply in_seq in Hy. exists y. split; [lia | done].
  - intros (y & Hy & Hc). exists y. split; [apply in_seq; lia | done].
Qed.

Lemma format_copyright_info_stated (d : Hymn.hymn_data) :
  stated_copyright d ≠ [] → Hymn.format_copyright_info d = stated_copyright d.
Proof.
  unfold Hymn.format_copyright_info, stated_copyright.
  destruct (_ ++ _); [done | reflexivity].
Qed.

Lemma format_copyright_info_guess (d : Hymn.hymn_data) :
  stated_copyright d = [] →
  Hymn.format_copyright_info d
  = if existsb (λ year, Py.contains (Py.str_of_nat year)
                          (Hymn.author d +:+ " " +:+ Hymn.composer d))
         (seq 1800 123)
    then ["Public Domain"] else [].
Proof.
  unfold Hymn.format_copyright_info, stated_copyright. intros ->.
  destruct (Py.truthy (Hymn.author d) || Py.truthy (Hymn.composer d)) eqn:E;
    [reflexivity|].
  apply orb_false_iff in E as [Ea Ec]. unfold Py.truthy in Ea, Ec.
  apply negb_false_iff, String.eqb_eq in Ea, Ec. rewrite Ea, Ec.
  change ("" +:+ " " +:+ "") with " ". by rewrite no_year_in_space.
Qed.

Lemma format_copyright_info_none (d : Hymn.hymn_data) :
  stated_copyright d = [] →
  ¬ old_year_in (Hymn.author d +:+ " " +:+ Hymn.composer d) →
  Hymn.format_copyright_info d = [].
Proof.
  intros Hs Hy. rewrite format_copyright_info_guess by done.
  destruct (existsb _ _) eqn:E; [|reflexivity]. by apply existsb_year in E.
Qed.

Lemma length_format_copyright_info (d : Hymn.hymn_data) :
  (length (Hymn.format_copyright_info d) ≤ 2)%nat.
Proof.
  destruct (decide (stated_copyright d = [])) as [Hs|Hs].
  - rewrite format_copyright_info_guess by done. destruct (existsb _ _); cbn; lia.
  - rewrite format_copyright_info_stated by done. unfold stated_copyright.
    destruct (Hymn.filled _), (Hymn.filled _); cbn; lia.
Qed.

(** X16: The copyright lines of the cover.  A copyright that is stated (not
    empty, not only white space) is shown, the text before the music, and
    then nothing is guessed.  With none stated the answer is
    ["Public Domain"] exactly when some year from 1800 to 1922 is written in
    the author or the composer field, and nothing otherwise; so there are
    never more than two lines, and ["Public Domain"] never stands beside a
    stated copyright. *)
Theorem copyright_lines (d : Hymn.hymn_data) :
  (stated_copyright d ≠ [] → Hymn.format_copyright_info d = stated_copyright d)
  ∧ (Hymn.format_copyright_info d = ["Public Domain"]
     ↔ stated_copyright d = []
       ∧ old_year_in (Hymn.author d +:+ " " +:+ Hymn.composer d))
  ∧ (stated_copyright d = []
     → ¬ old_year_in (Hymn.author d +:+ " " +:+ Hymn.composer d)
     → Hymn.format_copyright_info d = [])
  ∧ (length (Hymn.format_copyright_info d) ≤ 2)%nat.
Proof.
  split; [apply format_copyright_info_stated|].
  assert (Hnot : stated_copyright d ≠ [] → stated_copyright d ≠ ["Public Domain"]).
  { unfold stated_copyright.
    destruct (Hymn.filled (Hymn.text_copyright d)),
      (Hymn.filled (Hymn.tune_copyright d)); cbn [app]; try done.
    all: rewrite append_cons; intros _ [=]. }
  split; [|split].
  - split.
    + intros Hpd. destruct (decide (stated_copyright d = [])) as [Hs|Hs].
      * split; [exact Hs|]. rewrite format_copyright_info_guess in Hpd by done.
        apply existsb_year. destruct (existsb _ _); [done | discriminate Hpd].
      * rewrite format_copyright_info_stated in Hpd by done. by apply Hnot in Hs.
    + intros [Hs Hy]. rewrite format_copyright_info_guess by done.
      apply existsb_year in Hy. by rewrite Hy.
  - apply format_copyright_info_none.
  - apply length_format_copyright_info.
Qed.

(** *** The lines of the lyric slides *)






(** X18: A request with a ['hymn'] object that carries no ['lyrics'] is answered
    with a deck of one slide, the cover, whatever ['verses'] or ['lyrics']
    stand beside the object. *)
Theorem nested_request_without_lyrics (data : Hymn.request) (r : Hymn.hymn_fields)
    (w : world) :
  Hymn.nested data = Some r → Hymn.f_lyrics r = None →
  ∃ out filename w' prs cover,
    Hymn.generate_hymn_slides_endpoint H data w
    = (Ok (FileResponse out filename pptx_media_type), w')
    ∧ files w' !! out = Some (Deck prs)
    ∧ slides prs = [cover].
Proof.
  intros Hn Hl. eexists _, _, _, _, _. split; [|split].
  - unfold Hymn.generate_hymn_slides_endpoint. apply try_except_ok.
    erewrite bind_ok by apply create_temp_file_ok.
    erewrite bind_ok by apply create_hymn_slides_ok.
    reflexivity.
  - apply files_finished.
  - rewrite slides_extend_empty. unfold hymn_deck, lyric_slides, Hymn.hymn_info.
    rewrite Hn. cbn [Hymn.lyrics]. rewrite Hl. reflexivity.
Qed.

End HymnFacts.

(** The theorem of X18 at a request whose ['hymn'] object has a ['verses'] array and no ['lyrics']. *)
Lemma nested_request_without_lyrics_witness :
  Hymn.nested Sample.nested_grace = Some Sample.grace_fields
  ∧ Hymn.f_lyrics Sample.grace_fields = None
  ∧ ∃ out filename w' prs cover,
      Hymn.generate_hymn_slides_endpoint Example.server Sample.nested_grace
        Example.empty_world
      = (Ok (FileResponse out filename pptx_media_type), w')
      ∧ files w' !! out = Some (Deck prs)
      ∧ slides prs = [cover].
Proof.
  split; [reflexivity|]. split; [reflexivity|].
  exact (nested_request_without_lyrics Example.server Sample.nested_grace
           Sample.grace_fields Example.empty_world eq_refl eq_refl).
Defined.

(** ** The cover of a hymn *)

Section Cover.
Context (H : host).

Lemma paragraph_text_centered (text : string) (size radius : Z) :
  paragraph_text (Hymn.centered_run_paragraph text size radius) = text.
Proof.
  unfold Hymn.centered_run_paragraph. rewrite paragraph_text_add_text_glow.
  unfold paragraph_text. cbn [runs map Hymn.styled_run with_run_font new_run run_text].
  by destruct text.
Qed.

(** X19: The cover shows the title between double quotes and, below, at least
    one and at most six lines, the first of which is the hymnal and the
    number.  A field that is empty or only white space gets no line: when
    author, composer, tune name and both copyrights are blank, the hymnal
    and the number stand alone. *)
Theorem cover_lines (prs : presentation) (d : Hymn.hymn_data) (s : slide) :
  text_boxes s = [] →
  title_lines (Hymn.cover_slide H prs d s)
  = [Py.double_quote +:+ Hymn.title d +:+ Py.double_quote]
  ∧ ∃ rest,
      content_lines (Hymn.cover_slide H prs d s)
      = Hymn.format_hymn_number H (Hymn.hymnal d) (Hymn.hymn_number d) :: rest
      ∧ (length rest ≤ 5)%nat
      ∧ (Hymn.filled (Hymn.author d) = false →
         Hymn.filled (Hymn.composer d) = false →
         Hymn.filled (Hymn.tune_name d) = false →
         Hymn.filled (Hymn.text_copyright d) = false →
         Hymn.filled (Hymn.tune_copyright d) = false →
         ¬ old_year_in (Hymn.author d +:+ " " +:+ Hymn.composer d) →
         rest = []).
Proof.
  intros Hs. split.
  - unfold title_lines, Hymn.cover_slide.
    rewrite !text_boxes_add_text_box, Hs. cbn [app box_lines paragraphs map].
    by rewrite paragraph_text_centered.
  - unfold content_lines, Hymn.cover_slide. rewrite content_paragraphs_add_text_box.
    cbn [paragraphs app]. cbn [map Hymn.frame_paragraphs].
    rewrite paragraph_text_centered.
    exists ((if Hymn.filled (Hymn.author d) then ["Words: " +:+ Hymn.author d] else [])
            ++ (if Hymn.filled (Hymn.composer d)
                then ["Music: " +:+ Hymn.composer d] else [])
            ++ (if Hymn.filled (Hymn.tune_name d)
                then ["Tune: " +:+ Hymn.tune_name d] else [])
            ++ Hymn.format_copyright_info d).
    split.
    + f_equal. rewrite map_map. erewrite map_ext; [apply map_id|].
      intros line. apply paragraph_text_centered.
    + pose proof (length_format_copyright_info d) as Hlen. split.
      * rewrite !length_app.
        destruct (Hymn.filled (Hymn.author d)), (Hymn.filled (Hymn.composer d)),
          (Hymn.filled (Hymn.tune_name d)); cbn [length]; lia.
      * intros -> -> -> Ht Hu Hy. cbn [app].
        apply format_copyright_info_none; [|exact Hy].
        unfold stated_copyright. by rewrite Ht, Hu.
Qed.

End Cover.

(** The theorem of X19 on the blank slide. *)
Lemma cover_lines_witness :
  text_boxes blank_slide = []
  ∧ title_lines (Hymn.cover_slide Example.server empty_deck Sample.grace blank_slide)
    = [Py.double_quote +:+ "Amazing Grace" +:+ Py.double_quote].
Proof.
  split; [reflexivity|].
  exact (proj1 (cover_lines Example.server empty_deck Sample.grace blank_slide eq_refl)).
Defined.

(** ** The call-to-worship endpoint *)

Section WorshipEndpoint.
Context (H : host).

(** X20: A request with no pairs (absent, or the empty list) and no text (absent,
    or empty) is refused before anything is done: no temporary file is
    created and the world is as it was.  The status 400 raised for it does
    not reach the caller: it is raised inside the [try] block, so the
    handler for [Exception] turns it into the status 500, whose detail is the
    text of the first exception. *)
Theorem worship_endpoint_refuses_empty_request
    (request : CallToWorship.CallToWorshipRequest) (w : world) :
  default [] (CallToWorship.pairs request) = [] →
  Py.given (CallToWorship.text request) = false →
  CallToWorship.generate_call_to_worship_endpoint H request w
  = (Raise (HTTPException 500
              (str_exn H (HTTPException 400 "No pairs or text provided"))), w).
Proof.
  intros Hp Ht. unfold CallToWorship.generate_call_to_worship_endpoint.
  erewrite try_except_raise; [reflexivity|].
  rewrite Hp. erewrite bind_raise; [reflexivity|].
  unfold Py.given in Ht. destruct (CallToWorship.text request) as [t|].
  - cbn [default from_option id]. by rewrite Ht.
  - reflexivity.
Qed.

Lemma title_lines_worship_slide (leader_text people_text : string) (s : slide) :
  text_boxes s = [] →
  title_lines (CallToWorship.worship_slide leader_text people_text s)
  = ["CALL TO WORSHIP"].
Proof.
  intros Hs. unfold title_lines, CallToWorship.worship_slide.
  rewrite !text_boxes_add_text_box, Hs. reflexivity.
Qed.

(** X21: When the request carries pairs, the text is not looked at: the deck has
    one slide for each pair, in the order of the list.  Each slide is headed
    ["CALL TO WORSHIP"]; its first paragraph is the label ["Leader: "] and
    the leader's words, its second the label ["People: "] and the people's
    words, each with a role prefix of its own taken off. *)
Theorem worship_pairs_rendered (request : CallToWorship.CallToWorshipRequest)
    (p : CallToWorship.pair) (ps : list CallToWorship.pair) (w : world) :
  CallToWorship.pairs request = Some (p :: ps) →
  ∃ out w' prs,
    CallToWorship.generate_call_to_worship_endpoint H request w
    = (Ok (FileResponse out "call_to_worship.pptx" pptx_media_type), w')
    ∧ files w' !! out = Some (Deck prs)
    ∧ map (λ s, (title_lines s, body_runs s 0, body_runs s 1)) (slides prs)
      = map (λ q, (["CALL TO WORSHIP"],
                   ["Leader: "; CallToWorship.sanitize "leader:" (CallToWorship.Leader q)],
                   ["People: "; CallToWorship.sanitize "people:" (CallToWorship.People q)]))
          (p :: ps).
Proof.
  intros Hp. eexists _, _, _. split; [|split].
  - unfold CallToWorship.generate_call_to_worship_endpoint. apply try_except_ok.
    rewrite Hp. cbn [default from_option id].
    erewrite bind_ok by apply ret_ok.
    erewrite bind_ok by apply create_temp_file_ok.
    erewrite bind_ok by apply create_call_to_worship_slides_ok.
    reflexivity.
  - apply files_finished.
  - rewrite slides_extend_empty, map_map. apply map_ext. intros q.
    unfold worship_slide_of.
    rewrite title_lines_worship_slide by apply text_boxes_base_slide.
    match goal with
    | |- context [CallToWorship.worship_slide ?a ?b ?s] =>
        destruct (body_runs_worship_slide a b s) as [-> ->]
    end.
    reflexivity.
Qed.

End WorshipEndpoint.

(** The theorem of X20 at a request with an empty list of pairs, an empty text and a picture. *)
Lemma worship_endpoint_refuses_empty_request_witness :
  default [] (CallToWorship.pairs Sample.nothing_given) = []
  ∧ Py.given (CallToWorship.text Sample.nothing_given) = false
  ∧ CallToWorship.generate_call_to_worship_endpoint Example.server
      Sample.nothing_given Example.empty_world
    = (Raise (HTTPException 500 "400: No pairs or text provided"),
       Example.empty_world).
Proof.
  split; [reflexivity|]. split; [reflexivity|].
  exact (worship_endpoint_refuses_empty_request Example.server Sample.nothing_given
           Example.empty_world eq_refl eq_refl).
Defined.

(** The theorem of X21 at a request with one pair and a text beside it. *)
Lemma worship_pairs_rendered_witness :
  CallToWorship.pairs Sample.one_pair
  = Some [{| CallToWorship.Leader := "Leader: Rejoice"; CallToWorship.People := "Amen" |}]
  ∧ ∃ out w' prs,
      CallToWorship.generate_call_to_worship_endpoint Example.server Sample.one_pair
        Example.empty_world
      = (Ok (FileResponse out "call_to_worship.pptx" pptx_media_type), w')
      ∧ files w' !! out = Some (Deck prs)
      ∧ map (λ s, (title_lines s, body_runs s 0, body_runs s 1)) (slides prs)
        = [(["CALL TO WORSHIP"], ["Leader: "; "Rejoice"], ["People: "; "Amen"])].
Proof.
  split; [reflexivity|].
  exact (worship_pairs_rendered Example.server Sample.one_pair _ _
           Example.empty_world eq_refl).
Defined.

(** ** Edge cases of the pipelines *)

Section Edges.
Context (H : host).

Lemma primary_map_unnumbered (verses : list Scripture.verse_entry) :
  Forall (λ v, Scripture.usable_verse v = None) verses →
  Scripture.primary_map verses = ∅.
Proof.
  unfold Scripture.primary_map. generalize (∅ : gmap Z Scripture.texts).
  induction verses as [|v verses IH]; intros m Hall; [reflexivity|].
  apply Forall_cons in Hall as [Hv Hall]. cbn [foldl]. rewrite Hv. by apply IH.
Qed.

Lemma alternate_map_empty (verses_alt : list Scripture.verse_entry) :
  Scripture.alternate_map ∅ verses_alt = ∅.
Proof.
  unfold Scripture.alternate_map.
  induction verses_alt as [|v alt IH]; [reflexivity|]. cbn [foldl].
  destruct (Scripture.usable_verse v) as [n|]; [|exact IH].
  rewrite lookup_empty. exact IH.
Qed.

Lemma sorted_keys_empty : Scripture.sorted_keys ∅ = [].
Proof. unfold Scripture.sorted_keys. by rewrite map_to_list_empty. Qed.

(** X22: Combined mode goes by verse numbers.  When no entry of [verses] has a
    number (the key is missing, or the number is 0), the deck is saved
    without a slide, whatever the texts and whatever [verses_alt] holds;
    single mode would have shown every such verse that has a text. *)
Theorem combined_mode_needs_numbers (ref : Scripture.reference)
    (verses : list Scripture.verse_entry) (out : string)
    (background_image : option string) (a : Scripture.verse_entry)
    (alt : list Scripture.verse_entry) (w : world) :
  Forall (λ v, Scripture.usable_verse v = None) verses →
  ∃ w',
    Scripture.create_scripture_slides H ref verses out background_image
      (Some (a :: alt)) w
    = (Ok "Created 0 scripture slides", w')
    ∧ files w' !! out = Some (Deck empty_deck).
Proof.
  intros Hall. eexists. rewrite create_scripture_slides_ok.
  assert (Hdeck : ∀ fs path,
    scripture_deck H fs path ref verses (Some (a :: alt)) = []).
  { intros fs path. unfold scripture_deck, verse_map_of.
    by rewrite primary_map_unnumbered, alternate_map_empty, sorted_keys_empty. }
  rewrite Hdeck. split; [reflexivity|]. rewrite files_finished.
  by rewrite extend_nil.
Qed.




(** X24: The number in the message a pipeline returns is the number of slides in
    the deck it has saved, in every mode and with any background; for the
    call to worship it is also the number of pairs. *)
Theorem reported_count_is_deck_size (ref : Scripture.reference)
    (verses : list Scripture.verse_entry)
    (verses_alt : option (list Scripture.verse_entry)) (d : Hymn.hymn_data)
    (include_cover : bool) (pairs_list : list CallToWorship.pair) (out : string)
    (background_image : option string) (w : world) :
  (∃ w' prs,
     Scripture.create_scripture_slides H ref verses out background_image verses_alt w
     = (Ok ("Created " +:+ Py.str_of_nat (length (slides prs)) +:+ " scripture slides"),
        w')
     ∧ files w' !! out = Some (Deck prs))
  ∧ (∃ w' prs,
       Hymn.create_hymn_slides H d out background_image include_cover w
       = (Ok (hymn_message d include_cover (length (slides prs))), w')
       ∧ files w' !! out = Some (Deck prs))
  ∧ (∃ w' prs,
       CallToWorship.create_call_to_worship_slides_from_dict H pairs_list out
         background_image w
       = (Ok ("Created " +:+ Py.str_of_nat (length (slides prs))
              +:+ " Call to Worship slides"), w')
       ∧ files w' !! out = Some (Deck prs)
       ∧ length (slides prs) = length pairs_list).
Proof.
  split; [|split].
  - eexists _, (extend empty_deck _). rewrite create_scripture_slides_ok.
    split; [reflexivity | apply files_finished].
  - eexists _, (extend empty_deck _). rewrite create_hymn_slides_ok.
    split; [reflexivity | apply files_finished].
  - eexists _, (extend empty_deck _). rewrite create_call_to_worship_slides_ok.
    rewrite slides_extend_empty, length_map.
    split; [reflexivity|]. split; [apply files_finished | reflexivity].
Qed.

End Edges.

(** The theorem of X22 at a verse with no number. *)
Lemma combined_mode_needs_numbers_witness :
  Forall (λ v, Scripture.usable_verse v = None) [Sample.unnumbered]
  ∧ ∃ w',
      Scripture.create_scripture_slides Example.server Example.psalm_23
        [Sample.unnumbered] "/tmp/out.pptx" None (Some [Example.shepherd])
        Example.empty_world
      = (Ok "Created 0 scripture slides", w')
      ∧ files w' !! "/tmp/out.pptx" = Some (Deck empty_deck).
Proof.
  assert (Hall : Forall (λ v, Scripture.usable_verse v = None) [Sample.unnumbered])
    by (apply Forall_singleton; reflexivity).
  split; [exact Hall|].
  exact (combined_mode_needs_numbers Example.server Example.psalm_23
           [Sample.unnumbered] "/tmp/out.pptx" None Example.shepherd []
           Example.empty_world Hall).
Defined.

